(** * voice-rag-okada: the agentic query-routing core

    A shallow embedding of [backend/main.py] (row store tool and agent
    nodes), [backend/main_kuzu.py] (graph store tool, intent routing,
    address similarity search and agent nodes) and [backend/app.py]
    (the [/chat] aggregator), with the properties of the specification
    stated and proved over it.

    Conventions.
    - Python code that talks to a collaborator (language model, embedding
      provider, sqlite3, kuzu, the compiled agent graphs) is written in a
      state-and-exception monad [M W] over an abstract world [W]; each
      collaborator is a field of an environment record and may return a
      value or raise, and may change the world, so that two identical calls
      need not agree.
    - [exn] stands for instances of Python's [Exception]; [try_except] is
      [try: ... except Exception as e: ...].
    - numpy's float64 is IEEE 754 binary64, taken from [SpecFloat] with
      precision 53 and maximal exponent 1024. *)

From Stdlib Require Import ZArith List Bool Lia.
From Stdlib Require Import SpecFloat.
From stdpp Require Import base list strings gmap pretty.

Local Open Scope string_scope.
Local Open Scope list_scope.

(** ** Python values, exceptions and effects *)

Module Py.

(** An instance of [Exception]: its class name and [str(e)]. *)
Record exn := Exn { exn_class : string; exn_str : string }.

Inductive outcome (A : Type) : Type :=
| Returns (a : A)
| Raises (e : exn).
Arguments Returns {A} a.
Arguments Raises {A} e.

(** A computation over the world [W]: it ends with a value or an
    exception, and the world it leaves behind. *)
Definition M (W A : Type) : Type := W -> outcome A * W.

Definition ret {W A} (a : A) : M W A := fun w => (Returns a, w).

Definition raise {W A} (e : exn) : M W A := fun w => (Raises e, w).

Definition bind {W A B} (c : M W A) (k : A -> M W B) : M W B :=
  fun w =>
    match c w with
    | (Returns a, w') => k a w'
    | (Raises e, w') => (Raises e, w')
    end.

(** [try: body except Exception as e: handler e] *)
Definition try_except {W A} (body : M W A) (handler : exn -> M W A) : M W A :=
  fun w =>
    match body w with
    | (Returns a, w') => (Returns a, w')
    | (Raises e, w') => handler e w'
    end.

(** Lifting of a pure step that may raise. *)
Definition lift {W A} (o : outcome A) : M W A := fun w => (o, w).

(** [for x in xs: body x], stopping at the first exception. *)
Fixpoint for_each {W A} (xs : list A) (body : A -> M W unit) : M W unit :=
  match xs with
  | [] => ret tt
  | x :: rest => bind (body x) (fun _ => for_each rest body)
  end.

(** [for x in xs: acc = body acc x] *)
Fixpoint fold_m {W A S} (xs : list A) (body : S -> A -> M W S) (acc : S) : M W S :=
  match xs with
  | [] => ret acc
  | x :: rest => bind (body acc x) (fun acc' => fold_m rest body acc')
  end.

(** [needle in hay] on strings. *)
Fixpoint contains (needle hay : string) : bool :=
  if String.prefix needle hay then true
  else match hay with
       | EmptyString => false
       | String _ rest => contains needle rest
       end.

(** [s.strip()]. A text stands for its UTF-8 encoding, one [ascii] per
    byte. The whitespace that [str.strip] removes is the set of
    [str.isspace]: U+0009 to U+000D, U+001C to U+0020, then U+0085 and
    U+00A0 (two bytes each), and U+1680, U+2000 to U+200A, U+2028, U+2029,
    U+202F, U+205F and U+3000 (three bytes each). *)
Definition is_space (c : Ascii.ascii) : bool :=
  let n := Ascii.nat_of_ascii c in
  ((9 <=? n)%nat && (n <=? 13)%nat) || ((28 <=? n)%nat && (n <=? 32)%nat).

Definition is_space2 (c1 c2 : Ascii.ascii) : bool :=
  let n1 := Ascii.nat_of_ascii c1 in
  let n2 := Ascii.nat_of_ascii c2 in
  (n1 =? 194)%nat && ((n2 =? 133)%nat || (n2 =? 160)%nat).

Definition is_space3 (c1 c2 c3 : Ascii.ascii) : bool :=
  let n1 := Ascii.nat_of_ascii c1 in
  let n2 := Ascii.nat_of_ascii c2 in
  let n3 := Ascii.nat_of_ascii c3 in
  ((n1 =? 225)%nat && (n2 =? 154)%nat && (n3 =? 128)%nat)
  || ((n1 =? 226)%nat && (n2 =? 128)%nat
      && (((128 <=? n3)%nat && (n3 <=? 138)%nat)
          || (n3 =? 168)%nat || (n3 =? 169)%nat || (n3 =? 175)%nat))
  || ((n1 =? 226)%nat && (n2 =? 129)%nat && (n3 =? 159)%nat)
  || ((n1 =? 227)%nat && (n2 =? 128)%nat && (n3 =? 128)%nat).

(** The bytes [cs] without the whitespace characters they start with.
    [two] and [three] tell the characters of two and of three bytes. *)
Fixpoint strip_head (two : Ascii.ascii -> Ascii.ascii -> bool)
    (three : Ascii.ascii -> Ascii.ascii -> Ascii.ascii -> bool)
    (cs : list Ascii.ascii) : list Ascii.ascii :=
  match cs with
  | [] => []
  | c1 :: r1 =>
      if is_space c1 then strip_head two three r1
      else
        match r1 with
        | [] => cs
        | c2 :: r2 =>
            if two c1 c2 then strip_head two three r2
            else
              match r2 with
              | [] => cs
              | c3 :: r3 =>
                  if three c1 c2 c3 then strip_head two three r3 else cs
              end
        end
  end.

(** Stripping from the left, and from the right on the bytes in reverse
    order. *)
Definition lstrip_chars : list Ascii.ascii -> list Ascii.ascii :=
  strip_head is_space2 is_space3.

Definition rstrip_reversed : list Ascii.ascii -> list Ascii.ascii :=
  strip_head (fun c2 c1 => is_space2 c1 c2) (fun c3 c2 c1 => is_space3 c1 c2 c3).

Definition strip (s : string) : string :=
  String.string_of_list_ascii
    (rev (rstrip_reversed (rev (lstrip_chars (String.list_ascii_of_string s))))).

(** [xs[-1]] *)
Definition last_item {A} (xs : list A) : outcome A :=
  match List.last (map Some xs) None with
  | Some x => Returns x
  | None => Raises (Exn "IndexError" "list index out of range")
  end.

(** [xs[0]] *)
Definition first_item {A} (xs : list A) : outcome A :=
  match xs with
  | x :: _ => Returns x
  | [] => Raises (Exn "IndexError" "list index out of range")
  end.

End Py.

Import Py.

Declare Scope py_scope.
Delimit Scope py_scope with py.
Notation "x <- c ;; k" := (bind c (fun x => k))
  (at level 100, c at next level, right associativity) : py_scope.
Notation "c ;;; k" := (bind c (fun _ => k))
  (at level 100, k at level 200, right associativity) : py_scope.
Open Scope py_scope.

(** ** numpy on float64: the operations of the similarity search *)

Module Numpy.

Definition float : Type := spec_float.

Definition prec : Z := 53.
Definition emax : Z := 1024.

Definition fadd : float -> float -> float := SFadd prec emax.
Definition fmul : float -> float -> float := SFmul prec emax.
Definition fdiv : float -> float -> float := SFdiv prec emax.
Definition fsqrt : float -> float := SFsqrt prec emax.
Definition fleb : float -> float -> bool := SFleb.
Definition fltb : float -> float -> bool := SFltb.

Definition isnan (x : float) : bool :=
  match x with
  | S754_nan => true
  | _ => false
  end.

Definition fzero : float := S754_zero false.

(** The float64 nearest to an integer, and to a decimal literal
    [num / 10^digits] as [json.loads] and Python read it. *)
Definition of_Z (z : Z) : float := binary_normalize prec emax z 0 false.
Definition of_decimal (num : Z) (digits : nat) : float :=
  fdiv (of_Z num) (of_Z (10 ^ Z.of_nat digits)).

(** The linear algebra of numpy behind the similarity search. How
    [np.dot] and [np.linalg.norm] round is left by numpy to the BLAS it
    is linked with (the order of the additions, fused multiply-add,
    blocking by rows), so they are collaborators of the code:
    [np_dot db q i] is the entry [i] of [np.dot(db, q)], [norm_rows db i]
    the entry [i] of [np.linalg.norm(db, axis=1)], and [norm q] is
    [np.linalg.norm(q)]. *)
Record linalg := Linalg {
  np_dot : list (list float) -> list float -> nat -> float;
  norm_rows : list (list float) -> nat -> float;
  norm : list float -> float
}.

(** The loop of [np.argmax] on float64 after its first element: [mp] is
    the running maximum found at [idx], [i] the index of the head of [xs].
    An element replaces the maximum unless it is [<=] to it; a NaN element
    is taken as maximal and ends the scan. *)
Fixpoint argmax_loop (mp : float) (idx i : nat) (xs : list float) : nat :=
  match xs with
  | [] => idx
  | x :: rest =>
      if negb (fleb x mp) then
        if isnan x then i else argmax_loop x i (S i) rest
      else argmax_loop mp idx (S i) rest
  end.

(** [np.argmax(xs)] *)
Definition argmax (xs : list float) : outcome nat :=
  match xs with
  | [] => Raises (Exn "ValueError" "attempt to get argmax of an empty sequence")
  | x :: rest => Returns (if isnan x then 0 else argmax_loop x 0 1 rest)
  end.

(** [np.array(rows)] of a list of rows is a matrix only when all rows have
    one length; its second dimension is that length. *)
Definition row_length (rows : list (list float)) : option nat :=
  match rows with
  | [] => Some 0
  | r :: rest =>
      if forallb (fun r' => Nat.eqb (length r') (length r)) rest
      then Some (length r) else None
  end.

(** [np.dot(db, q) / (np.linalg.norm(db, axis=1) * np.linalg.norm(q))]:
    one cosine similarity per row of [db]; the product and the division
    are those of float64, entry by entry. *)
Definition similarities (L : linalg) (db : list (list float)) (q : list float)
  : list float :=
  map (fun i => fdiv (np_dot L db q i) (fmul (norm_rows L db i) (norm L q)))
    (seq 0 (length db)).

(** [np.array(rows)]: rows of different lengths are refused. *)
Definition array (rows : list (list float)) : outcome (list (list float)) :=
  match row_length rows with
  | Some _ => Returns rows
  | None =>
      Raises (Exn "ValueError"
        ("setting an array element with a sequence. The requested array has an "
         +:+ "inhomogeneous shape after 1 dimensions. The detected shape was ("
         +:+ pretty (length rows) +:+ ",) + inhomogeneous part."))
  end.

(** The text of [np.dot] on a matrix of [n] rows of length [d] and a
    vector of another length [k]. *)
Definition not_aligned (n d k : nat) : exn :=
  Exn "ValueError"
    ("shapes (" +:+ pretty n +:+ "," +:+ pretty d +:+ ") and (" +:+ pretty k
     +:+ ",) not aligned: " +:+ pretty d +:+ " (dim 1) != " +:+ pretty k
     +:+ " (dim 0)").

(** The same expression with the shape check of [np.dot]. [db] comes
    from [array], so that its rows have one length. *)
Definition cosine_similarities (L : linalg) (db : list (list float))
    (q : list float) : outcome (list float) :=
  match row_length db with
  | Some d =>
      if Nat.eqb d (length q) then Returns (similarities L db q)
      else Raises (not_aligned (length db) d (length q))
  | None => Raises (not_aligned (length db) 0 (length q))
  end.

(** What it means to select well among the scores [l]. [maximizes l r]:
    the element at [r] is a greatest element. *)
Definition maximizes (l : list float) (r : nat) : Prop :=
  exists m, l !! r = Some m /\ forall j x, l !! j = Some x -> fleb x m = true.

(** No earlier element is as great as the one at [r]. *)
Definition first_occurrence (l : list float) (r : nat) : Prop :=
  exists m, l !! r = Some m /\
    forall j x, j < r -> l !! j = Some x -> fltb x m = true.

(** [r] is the index of the first NaN of [l]. *)
Definition first_nan (l : list float) (r : nat) : Prop :=
  exists m, l !! r = Some m /\ isnan m = true /\
    forall j x, j < r -> l !! j = Some x -> isnan x = false.

(** What [np.argmax] picks: the first NaN when there is one, and
    otherwise the first of the greatest elements. *)
Definition argmax_spec (l : list float) (r : nat) : Prop :=
  if existsb isnan l then first_nan l r
  else maximizes l r /\ first_occurrence l r.

End Numpy.

(** ** langchain messages and tools *)

Module Langchain.

(** A tool-call request of an assistant message: [tool_call['name']],
    [tool_call['args']] and [tool_call['id']]. *)
Record tool_call := ToolCall {
  tc_name : string;
  tc_args : gmap string string;
  tc_id : string
}.

Inductive message :=
| HumanMessage (content : string)
| AIMessage (content : string) (tool_calls : list tool_call)
| ToolMessage (content : string) (tool_call_id : string).

(** [msg.content] *)
Definition content (m : message) : string :=
  match m with
  | HumanMessage c => c
  | AIMessage c _ => c
  | ToolMessage c _ => c
  end.

(** [msg.tool_calls]: an attribute of assistant messages only. *)
Definition tool_calls (m : message) : outcome (list tool_call) :=
  match m with
  | AIMessage _ tcs => Returns tcs
  | HumanMessage _ =>
      Raises (Exn "AttributeError"
                "'HumanMessage' object has no attribute 'tool_calls'")
  | ToolMessage _ _ =>
      Raises (Exn "AttributeError"
                "'ToolMessage' object has no attribute 'tool_calls'")
  end.

(** [tool.invoke(args)] for a tool declared with the single string
    parameter [param]: the argument mapping is validated against the
    declared schema, then the function runs. The validation raises
    pydantic's [ValidationError]; its text, a report that names the
    missing field, is abridged here, and nothing is stated of it. *)
Definition tool_invoke {W A} (param : string) (f : string -> M W A)
    (args : gmap string string) : M W A :=
  match args !! param with
  | Some v => f v
  | None => raise (Exn "ValidationError" ("Field required: " +:+ param))
  end.

(** The [END] marker and the branch names of the conditional edge. *)
Inductive branch := execute_tool | END.

End Langchain.

Import Langchain.

Definition nl : string := String (Ascii.ascii_of_nat 10) EmptyString.

(** ** backend/main.py: the row store tool and the nodes of its agent *)

Module Sqlite.

Definition DB_PATH : string := "normalized_real_estate.db".

(** What [run_sql] returns: the fetched rows or a text. *)
Inductive sql_result (value : Type) :=
| Rows (rs : list (list value))
| Text (s : string).
Arguments Rows {value} rs.
Arguments Text {value} s.

Section Main.
Context {W value connection cursor : Type}.

(** The collaborators of [main.py]: the sqlite3 module, Python's [str]
    on fetched values and on a list of row tuples, and the model bound
    to the tools. *)
Record env := Env {
  sqlite3_connect : string -> M W connection;
  conn_cursor : connection -> M W cursor;
  cursor_execute : cursor -> string -> M W unit;
  cursor_fetchall : cursor -> M W (list (list value));
  cursor_description : cursor -> M W (option (list string));
  conn_commit : connection -> M W unit;
  conn_close : connection -> M W unit;
  py_str : value -> string;
  py_str_rows : list (list value) -> string;
  llm_with_tools_invoke : list message -> M W message
}.

Variable E : env.

(** [t[i]] on a row tuple. *)
Definition item (t : list value) (i : nat) : outcome value :=
  match nth_error t i with
  | Some v => Returns v
  | None => Raises (Exn "IndexError" "tuple index out of range")
  end.

(** The inner loop of [get_db_schema] over the columns of one table. *)
Definition schema_columns (columns : list (list value)) (schema_str : string)
  : M W string :=
  fold_m columns
    (fun acc col =>
       name <- lift (item col 1) ;;
       type <- lift (item col 2) ;;
       ret (acc +:+ "  - " +:+ py_str E name +:+ " (" +:+ py_str E type +:+ ")" +:+ nl))
    schema_str.

Definition get_db_schema (db_path : string) : M W string :=
  conn <- sqlite3_connect E db_path ;;
  cursor <- conn_cursor E conn ;;
  cursor_execute E cursor "SELECT name FROM sqlite_master WHERE type='table';" ;;;
  tables <- cursor_fetchall E cursor ;;
  schema_str <-
    fold_m tables
      (fun acc table_name =>
         table <- lift (item table_name 0) ;;
         let acc := acc +:+ "Table '" +:+ py_str E table +:+ "':" +:+ nl in
         cursor_execute E cursor ("PRAGMA table_info(" +:+ py_str E table +:+ ");") ;;;
         columns <- cursor_fetchall E cursor ;;
         schema_columns columns acc)
      ("Database schema:" +:+ nl) ;;
  conn_close E conn ;;;
  ret schema_str.

(** [if cursor.description:] *)
Definition truthy (description : option (list string)) : bool :=
  match description with
  | Some (_ :: _) => true
  | _ => false
  end.

(** The body of the [try] block of [run_sql]. *)
Definition run_sql_try (query : string) : M W (sql_result value) :=
  conn <- sqlite3_connect E DB_PATH ;;
  cursor <- conn_cursor E conn ;;
  cursor_execute E cursor query ;;;
  description <- cursor_description E cursor ;;
  result <-
    (if truthy description then
       rs <- cursor_fetchall E cursor ;; ret (Rows rs)
     else
       conn_commit E conn ;;; ret (Text "Query executed successfully.")) ;;
  conn_close E conn ;;;
  ret result.

Definition run_sql (query : string) : M W (sql_result value) :=
  try_except
    (run_sql_try query)
    (fun e => ret (Text ("Error executing query: " +:+ exn_str e))).

(** [str(result)] *)
Definition str_result (r : sql_result value) : string :=
  match r with
  | Rows rs => py_str_rows E rs
  | Text s => s
  end.

Definition system_prompt (db_schema : string) : string :=
  "You are a helpful real estate data assistant. You have access to a SQLite database "
  +:+ "with the following schema:" +:+ nl +:+ nl
  +:+ db_schema +:+ nl +:+ nl
  +:+ "Given a user's question, first determine the intent and context. Then, see if there is any"
  +:+ " need to use the SQL database. If so, you must first generate a syntactically correct SQL query "
  +:+ "to run against the database. Then, use the `run_sql` tool to execute it. "
  +:+ "Finally, use the result of the query to answer the user's question in plain English. "
  +:+ "If a query returns a large number of rows, summarize the result. "
  +:+ "Always provide the final answer based on the tool's output.".

(** The nodes return the messages to append to the state. *)
Definition call_model (messages : list message) : M W (list message) :=
  db_schema <- get_db_schema DB_PATH ;;
  let messages_with_system_prompt :=
    [HumanMessage (system_prompt db_schema)] ++ messages in
  response <- llm_with_tools_invoke E messages_with_system_prompt ;;
  ret [response].

Definition call_tool (messages : list message) : M W (list message) :=
  last_message <- lift (last_item messages) ;;
  tcs <- lift (tool_calls last_message) ;;
  tool_call <- lift (first_item tcs) ;;
  let tool_name := tc_name tool_call in
  let tool_args := tc_args tool_call in
  result <-
    (if String.eqb tool_name "run_sql" then
       r <- tool_invoke "query" run_sql tool_args ;; ret (str_result r)
     else ret "Error: Unknown tool.") ;;
  ret [ToolMessage result (tc_id tool_call)].

Definition should_continue (messages : list message) : outcome branch :=
  match last_item messages with
  | Raises e => Raises e
  | Returns last_message =>
      match tool_calls last_message with
      | Raises e => Raises e
      | Returns [] => Returns END
      | Returns (_ :: _) => Returns execute_tool
      end
  end.

End Main.

End Sqlite.

(** ** backend/main_kuzu.py: the graph store tool and the nodes of its agent *)

Module Kuzu.

Import Numpy.

Definition DB_PATH : string := "kuzu_real_estate_db".
Definition EMBEDDING_MODEL : string := "text-embedding-3-small".
Definition embedding_column : string := "l.address_embedding".
Definition address_column : string := "l.address".

(** A pandas DataFrame, column by column: the label and the values. *)
Definition dataframe (cell : Type) : Type := list (string * list cell).

Section Frames.
Context {cell : Type}.

(** [df.columns] *)
Definition columns (df : dataframe cell) : list string := map fst df.

(** [df.empty] *)
Definition empty (df : dataframe cell) : bool :=
  match df with
  | [] => true
  | (_, values) :: _ => match values with [] => true | _ :: _ => false end
  end.

(** [df[label]], for frames whose labels are distinct, as the frames of
    the queries of the tool are. *)
Fixpoint getitem (df : dataframe cell) (label : string) : outcome (list cell) :=
  match df with
  | [] => Raises (Exn "KeyError" ("'" +:+ label +:+ "'"))
  | (l, values) :: rest =>
      if String.eqb l label then Returns values else getitem rest label
  end.

(** [df.iloc[i][label]] *)
Definition iloc_item (df : dataframe cell) (i : nat) (label : string)
  : outcome cell :=
  match getitem df label with
  | Raises e => Raises e
  | Returns values =>
      match nth_error values i with
      | Some v => Returns v
      | None => Raises (Exn "IndexError" "single positional indexer is out-of-bounds")
      end
  end.

(** [label in df.columns] *)
Definition has_column (df : dataframe cell) (label : string) : bool :=
  existsb (String.eqb label) (columns df).

(** [df.drop(columns=[label])] *)
Definition drop (df : dataframe cell) (label : string) : dataframe cell :=
  List.filter (fun col => negb (String.eqb (fst col) label)) df.

(** [if 'l.address_embedding' in result_df.columns:
        result_df = result_df.drop(columns=['l.address_embedding'])] *)
Definition drop_embedding_column (result_df : dataframe cell) : dataframe cell :=
  if has_column result_df embedding_column
  then drop result_df embedding_column
  else result_df.

(** [[f(e) for e in values]], stopping at the first exception. *)
Fixpoint map_outcome {A} (f : cell -> outcome A) (values : list cell)
  : outcome (list A) :=
  match values with
  | [] => Returns []
  | v :: rest =>
      match f v with
      | Raises e => Raises e
      | Returns a =>
          match map_outcome f rest with
          | Raises e => Raises e
          | Returns l => Returns (a :: l)
          end
      end
  end.

End Frames.

Section Main.
Context {W cell database connection query_result : Type}.

(** The collaborators of [main_kuzu.py]: the language model used inside
    the tool ([logic_llm.invoke(prompt).content]), the kuzu module, the
    embedding provider ([client.embeddings.create(model, input)
    .data[0].embedding]), [json.loads] on a stored embedding,
    the routines of numpy that round as its BLAS does,
    [df.to_markdown(index=False)], and the model bound to the tool.
    Table names, property names and types stand for their [str()]. *)
Record env := Env {
  logic_llm_invoke : string -> M W string;
  kuzu_Database : string -> bool -> M W database;
  kuzu_Connection : database -> M W connection;
  conn_execute : connection -> string -> list (string * cell) -> M W query_result;
  get_as_df : query_result -> M W (dataframe cell);
  get_node_table_names : connection -> M W (list string);
  get_node_property_names : connection -> string -> M W (list (string * string));
  get_rel_table_names : connection -> M W (list string);
  embeddings_create : string -> string -> M W (list float);
  json_loads : cell -> outcome (list float);
  numpy : linalg;
  to_markdown : dataframe cell -> outcome string;
  llm_with_tools_invoke : list message -> M W message
}.

Variable E : env.

Definition get_db_schema (db_path : string) : M W string :=
  db <- kuzu_Database E db_path false ;;
  conn <- kuzu_Connection E db ;;
  let schema_str := "Kuzu Graph Database Schema:" +:+ nl in
  node_tables <- get_node_table_names E conn ;;
  let schema_str := schema_str +:+ "## Node Tables:" +:+ nl in
  schema_str <-
    fold_m node_tables
      (fun acc table_name =>
         let acc := acc +:+ "- **" +:+ table_name +:+ "**:" +:+ nl in
         properties <- get_node_property_names E conn table_name ;;
         ret (fold_left
                (fun acc p =>
                   acc +:+ "  - " +:+ fst p +:+ " (" +:+ snd p +:+ ")" +:+ nl)
                properties acc))
      schema_str ;;
  rel_tables <- get_rel_table_names E conn ;;
  let schema_str := schema_str +:+ nl +:+ "## Relationship Tables:" +:+ nl in
  ret (fold_left
         (fun acc table_name => acc +:+ "- **" +:+ table_name +:+ "**" +:+ nl)
         rel_tables schema_str).

Definition router_prompt (question : string) : string :=
  nl
  +:+ "    You are a classification model. Your task is to determine if the following user question is asking about a specific street address or is a general query requiring a database search or if it just normal conversational context like Hi, Hello, Thank You, or Goodbye." +:+ nl
  +:+ "    Scale to questions unrelated to real estate to NORMAL_QUERY." +:+ nl
  +:+ "    Answer with only 'ADDRESS_SEARCH' or 'GENERAL_QUERY' or 'NORMAL_QUERY'." +:+ nl
  +:+ nl
  +:+ "    Question: " +:+ question +:+ nl
  +:+ "    Classification:" +:+ nl
  +:+ "    ".

(** Branch 1 of the tool: the question is about a specific address. *)
Definition address_search (conn : connection) (question : string)
  : M W (option string) :=
  addr_response <-
    conn_execute E conn "MATCH (l:Listing) RETURN l.address, l.address_embedding" [] ;;
  addr_df <- get_as_df E addr_response ;;
  if empty addr_df then ret (Some "No listings found.")
  else
    stored <- lift (getitem addr_df embedding_column) ;;
    loaded <- lift (map_outcome (json_loads E) stored) ;;
    db_embeddings <- lift (array loaded) ;;
    query_embedding <- embeddings_create E EMBEDDING_MODEL question ;;
    similarities <-
      lift (cosine_similarities (numpy E) db_embeddings query_embedding) ;;
    best <- lift (argmax similarities) ;;
    best_match_address <- lift (iloc_item addr_df best address_column) ;;
    let cypher_query :=
      "MATCH (l:Listing) WHERE l.address = $address_filter RETURN l.*" in
    result <-
      conn_execute E conn cypher_query [("address_filter", best_match_address)] ;;
    result_df <- get_as_df E result ;;
    let result_df := drop_embedding_column result_df in
    md <- lift (to_markdown E result_df) ;;
    ret (Some md).

(** Branch 2: a general query, answered by a generated Cypher query. *)
Definition general_query (conn : connection) (question : string)
  : M W (option string) :=
  db_schema <- get_db_schema DB_PATH ;;
  let cypher_gen_prompt :=
    "Schema: " +:+ db_schema +:+ nl +:+ "Question: " +:+ question +:+ nl
    +:+ "Generate a Cypher query. Respond with only the query." in
  raw <- logic_llm_invoke E cypher_gen_prompt ;;
  let cypher_query := strip raw in
  result <- conn_execute E conn cypher_query [] ;;
  df <- get_as_df E result ;;
  md <- lift (to_markdown E df) ;;
  ret (Some md).

(** Branch 3: normal conversational context. *)
Definition normal_query (question : string) : M W (option string) :=
  result <- logic_llm_invoke E question ;;
  ret (Some (strip result)).

(** The tool. It returns a text, or [None] when it falls off the end of
    the [if]/[elif] chain. *)
Definition query_real_estate_database (question : string)
  : M W (option string) :=
  router_response <- logic_llm_invoke E (router_prompt question) ;;
  db <- kuzu_Database E DB_PATH true ;;
  conn <- kuzu_Connection E db ;;
  try_except
    (if contains "ADDRESS_SEARCH" router_response then
       address_search conn question
     else if contains "GENERAL_QUERY" router_response then
       general_query conn question
     else if contains "NORMAL_QUERY" router_response then
       normal_query question
     else ret None)
    (fun e => ret (Some ("An error occurred within the tool: " +:+ exn_str e))).

(** [str(result)] *)
Definition str_result (r : option string) : string :=
  match r with
  | Some s => s
  | None => "None"
  end.

Definition system_prompt : string :=
  "You are an assistant. You have one tool: `query_real_estate_database`." +:+ nl
  +:+ "To answer questions about real estate, you MUST call this tool." +:+ nl
  +:+ "Your ONLY job is to pass the user's full question into the `question` argument.".

Definition call_model (messages : list message) : M W (list message) :=
  db_schema <- get_db_schema DB_PATH ;;
  let messages_with_system_prompt :=
    [HumanMessage system_prompt] ++ messages in
  response <- llm_with_tools_invoke E messages_with_system_prompt ;;
  ret [response].

Definition call_tool (messages : list message) : M W (list message) :=
  last_message <- lift (last_item messages) ;;
  tcs <- lift (tool_calls last_message) ;;
  tool_call <- lift (first_item tcs) ;;
  result <- tool_invoke "question" query_real_estate_database (tc_args tool_call) ;;
  ret [ToolMessage (str_result result) (tc_id tool_call)].

Definition should_continue (messages : list message) : outcome branch :=
  match last_item messages with
  | Raises e => Raises e
  | Returns last_message =>
      match tool_calls last_message with
      | Raises e => Raises e
      | Returns [] => Returns END
      | Returns (_ :: _) => Returns execute_tool
      end
  end.

End Main.

End Kuzu.

(** ** The compiled agent graph

    Both files build the same graph: entry point [agent]; a conditional
    edge from [agent] that follows [should_continue] to [execute_tool] or
    to [END]; an edge from [execute_tool] back to [agent]. The state is
    the list of messages, and a node's messages are appended to it
    ([Annotated[list, operator.add]]). *)

Module Graph.

Inductive status :=
| Finished
| LimitReached
| Failed (e : exn).

(** Where a run stopped: its status, the conversation so far, and the
    iteration counter, one per completed Decide/Act round-trip. *)
Record run := Run {
  run_status : status;
  run_messages : list message;
  run_iterations : nat
}.

Section Runner.
Context {W : Type}.
Variable call_model call_tool : list message -> M W (list message).
Variable should_continue : list message -> outcome branch.

(** Modelled from the spec: the executor of the compiled graph
    ([app.stream(state, {"recursion_limit": n})]) belongs to the graph
    library and is not part of the sources. Section 4.7 gives its
    contract: the loop starts in Decide; a Decide whose message asks for
    no tool ends the loop (Finish); otherwise Act runs the tool and the
    loop returns to Decide; the loop is bounded by the recursion limit,
    which the glossary defines as the maximal number of Decide/Act
    round-trips of an invocation; the iteration counter of the
    conversation state never exceeds it (section 3); and when a further
    round-trip would exceed the limit the loop stops and surfaces the
    partial conversation. [remaining] counts the round-trips still
    allowed, [iterations] those completed; an exception of a node ends
    the run. *)
Fixpoint run_from (remaining : nat) (messages : list message)
    (iterations : nat) (w : W) : run * W :=
  match call_model messages w with
  | (Raises e, w') => (Run (Failed e) messages iterations, w')
  | (Returns out, w') =>
      let messages' := messages ++ out in
      match should_continue messages' with
      | Raises e => (Run (Failed e) messages' iterations, w')
      | Returns END => (Run Finished messages' iterations, w')
      | Returns execute_tool =>
          match remaining with
          | O => (Run LimitReached messages' iterations, w')
          | S remaining' =>
              match call_tool messages' w' with
              | (Raises e, w'') => (Run (Failed e) messages' iterations, w'')
              | (Returns out', w'') =>
                  run_from remaining' (messages' ++ out') (S iterations) w''
              end
          end
      end
  end.

(** A run of the graph on an input state under a recursion limit. *)
Definition stream (messages : list message) (recursion_limit : nat) (w : W)
  : run * W :=
  run_from recursion_limit messages 0 w.

End Runner.

(** The tool results of a conversation: one per Act step. *)
Definition is_tool_message (m : message) : bool :=
  match m with
  | ToolMessage _ _ => true
  | _ => false
  end.

Definition tool_results (messages : list message) : nat :=
  length (List.filter is_tool_message messages).

(** The Decide/Act round-trips that a run has added to a conversation:
    the tool results of [after] that [before] did not have. *)
Definition round_trips (before after : list message) : nat :=
  tool_results after - tool_results before.

End Graph.

(** The two applications. *)
Definition sqlite_app {W value connection cursor}
    (E : @Sqlite.env W value connection cursor) :=
  Graph.stream (Sqlite.call_model E) (Sqlite.call_tool E) Sqlite.should_continue.

Definition kuzu_app {W cell database connection query_result}
    (E : @Kuzu.env W cell database connection query_result) :=
  Graph.stream (Kuzu.call_model E) (Kuzu.call_tool E) Kuzu.should_continue.

(** ** backend/app.py: the [/chat] aggregator *)

Module App.

(** [ChatRequest]: the [context] field is not read by the endpoint. *)
Record ChatRequest := {
  conversation : list (gmap string string);
  new_message : string
}.

(** An event of a stream: the node that ran and the state update it
    returned, [{node: {"messages": [...]}}]. *)
Definition event : Type := gmap string (list message).

(** [d[key]] on a dictionary. *)
Definition dict_get (d : gmap string string) (key : string) : outcome string :=
  match d !! key with
  | Some v => Returns v
  | None => Raises (Exn "KeyError" ("'" +:+ key +:+ "'"))
  end.

(** The loop that turns the history after its first entry into messages. *)
Fixpoint convert_loop (history : list (gmap string string)) (messages : list message)
  : outcome (list message) :=
  match history with
  | [] => Returns messages
  | msg :: rest =>
      match dict_get msg "role" with
      | Raises e => Raises e
      | Returns role =>
          if String.eqb role "user" then
            match dict_get msg "content" with
            | Raises e => Raises e
            | Returns c => convert_loop rest (messages ++ [HumanMessage c])
            end
          else if String.eqb role "assistant" then
            match dict_get msg "content" with
            | Raises e => Raises e
            | Returns c => convert_loop rest (messages ++ [AIMessage c []])
            end
          else convert_loop rest messages
      end
  end.

(** [request.conversation[1:]] *)
Definition history_messages (conversation : list (gmap string string))
  : outcome (list message) :=
  convert_loop (List.tl conversation) [].

(** [state['messages'][-1].content if state['messages'] else ...] *)
Definition final_answer (state_messages : list message) : string :=
  match List.last (map Some state_messages) None with
  | Some m => content m
  | None => "No response generated."
  end.

Definition reconcile_query (new_message kuzu_response sqlite_response : string)
  : string :=
  "Answer " +:+ new_message
  +:+ " using the following context generated from two models. Using Kuzu DB, the response is: "
  +:+ kuzu_response +:+ " and using SQLite DB, the response is: " +:+ sqlite_response
  +:+ ". Compile the answers and return a single response. ".

Section Chat.
Context {W : Type}.

(** The collaborators of the endpoint: the two compiled applications
    ([stream] under a recursion limit gives the events, [invoke] the
    messages of the final state) and the model that reconciles
    ([llm.invoke(messages).content]). *)
Record env := Env {
  kuzu_app_stream : list message -> nat -> M W (list event);
  kuzu_app_invoke : list message -> M W (list message);
  sqlite_app_stream : list message -> nat -> M W (list event);
  sqlite_app_invoke : list message -> M W (list message);
  llm_invoke : list message -> M W string
}.

Variable E : env.

(** The body of the loops over the events: the last message of the
    update of each node is printed. *)
Definition print_event (ev : event) : M W unit :=
  (match ev !! "agent" with
   | Some msgs => lift (last_item msgs) ;;; ret tt
   | None => ret tt
   end) ;;;
  (match ev !! "execute_tool" with
   | Some msgs => lift (last_item msgs) ;;; ret tt
   | None => ret tt
   end).

(** The body of the [try] block. *)
Definition pipeline (new_message : string) (messages : list message)
  : M W string :=
  kuzu_events <- kuzu_app_stream E messages 10 ;;
  for_each kuzu_events print_event ;;;
  kuzu_final_state <- kuzu_app_invoke E messages ;;
  let kuzu_response := final_answer kuzu_final_state in
  sqlite_events <- sqlite_app_stream E messages 10 ;;
  for_each sqlite_events print_event ;;;
  sqlite_final_state <- sqlite_app_invoke E messages ;;
  let sqlite_response := final_answer sqlite_final_state in
  let query := reconcile_query new_message kuzu_response sqlite_response in
  result <- llm_invoke E (messages ++ [HumanMessage query]) ;;
  ret (strip result).

(** The endpoint: the text of the [response] field, or the exception
    that leaves the handler. *)
Definition chat_with_llm (request : ChatRequest) : M W string :=
  messages <- lift (history_messages (conversation request)) ;;
  try_except
    (pipeline (new_message request) messages)
    (fun e => ret ("Error occurred: " +:+ exn_str e)).

End Chat.

(** The history as the specification words it: without its first entry,
    only the entries whose role is user or assistant, each as a human or
    an assistant message, in their order. *)
Definition role_of (msg : gmap string string) : string :=
  default EmptyString (msg !! "role").

Definition kept (msg : gmap string string) : bool :=
  String.eqb (role_of msg) "user" || String.eqb (role_of msg) "assistant".

Definition as_message (msg : gmap string string) : message :=
  if String.eqb (role_of msg) "user"
  then HumanMessage (default EmptyString (msg !! "content"))
  else AIMessage (default EmptyString (msg !! "content")) [].

Definition forwarded_spec (conversation : list (gmap string string)) : list message :=
  map as_message (List.filter kept (List.tl conversation)).

End App.

(** ** backend/app.py: the upload and speech endpoints *)

Module Endpoints.

(** [s.split(sep)] for a separator of one character. *)
Fixpoint split (sep : Ascii.ascii) (s : string) : list string :=
  match s with
  | EmptyString => [EmptyString]
  | String c rest =>
      if Ascii.eqb c sep then EmptyString :: split sep rest
      else match split sep rest with
           | seg :: segs => String c seg :: segs
           | [] => [String c EmptyString]
           end
  end.

Definition dot : Ascii.ascii := Ascii.ascii_of_nat 46.

Definition allowed_extensions : list string := ["pdf"; "txt"; "csv"; "json"].

(** [extension in allowed_extensions] *)
Definition allowed (extension : string) : bool :=
  existsb (String.eqb extension) allowed_extensions.

(** [UploadDocsResponse] *)
Record UploadDocsResponse := {
  message : string;
  filenames : list string
}.

(** [HTTPException(status_code=400, detail=...)]; its [str] is the status
    code, a colon and the detail. *)
Definition unsupported (extension : string) : exn :=
  Exn "HTTPException"
    ("400: File type '" +:+ extension
     +:+ "' not supported. Please upload PDF, TXT, CSV, or JSON.").

(** The loop of [upload_rag_documents] over the file names of the
    uploaded files. *)
Fixpoint upload_loop (files : list string) (uploaded_filenames : list string)
  : outcome (list string) :=
  match files with
  | [] => Returns uploaded_filenames
  | filename :: rest =>
      match last_item (split dot filename) with
      | Raises e => Raises e
      | Returns extension =>
          if negb (allowed extension) then Raises (unsupported extension)
          else upload_loop rest (uploaded_filenames ++ [filename])
      end
  end.

Definition upload_rag_documents (files : list string) : outcome UploadDocsResponse :=
  match upload_loop files [] with
  | Raises e => Raises e
  | Returns uploaded_filenames =>
      Returns
        {| message := "Successfully uploaded "
                      +:+ pretty (length uploaded_filenames) +:+ " documents.";
           filenames := uploaded_filenames |}
  end.

(** [SpeakResponse]; the times are float64 seconds. *)
Record SpeakResponse := {
  audio_url : string;
  tts_time : Numpy.float
}.

Definition fsub : Numpy.float -> Numpy.float -> Numpy.float :=
  SFsub Numpy.prec Numpy.emax.

Section Speak.
Context {W tts : Type}.

(** The collaborators of [text_to_speech]: the clock ([time.time()]), the
    speech provider ([gTTS(text=..., lang=...)], and [tts.write_to_fp] on
    a fresh buffer followed by reading that buffer back), and
    [base64.b64encode(...).decode('utf-8')]. *)
Record env := Env {
  time_time : W -> Numpy.float * W;
  gTTS : string -> string -> M W tts;
  write_to_fp : tts -> M W (list Byte.byte);
  b64encode : list Byte.byte -> string
}.

Variable E : env.

Definition clock : M W Numpy.float :=
  fun w => (Returns (fst (time_time E w)), snd (time_time E w)).

(** [not s] on a string. *)
Definition is_empty (s : string) : bool :=
  match s with
  | EmptyString => true
  | String _ _ => false
  end.

Definition text_to_speech (text : string) : M W SpeakResponse :=
  start_time <- clock ;;
  if is_empty (strip text) then
    ret {| audio_url := EmptyString; tts_time := Numpy.fzero |}
  else
    try_except
      (speech <- gTTS E text "en" ;;
       audio_bytes <- write_to_fp E speech ;;
       let audio_base64 := b64encode E audio_bytes in
       now <- clock ;;
       ret {| audio_url := audio_base64; tts_time := fsub now start_time |})
      (fun e =>
         now <- clock ;;
         ret {| audio_url := EmptyString; tts_time := fsub now start_time |}).

End Speak.

End Endpoints.

(** ** backend/build_db.py and backend/build_kuzu_db.py: the loaders *)

Module Etl.

Definition space : Ascii.ascii := Ascii.ascii_of_nat 32.
Definition lparen : Ascii.ascii := Ascii.ascii_of_nat 40.
Definition rparen : Ascii.ascii := Ascii.ascii_of_nat 41.
Definition slash : Ascii.ascii := Ascii.ascii_of_nat 47.
Definition underscore : Ascii.ascii := Ascii.ascii_of_nat 95.

(** [s.replace(old, new)] for single characters. *)
Fixpoint replace_char (old new : Ascii.ascii) (s : string) : string :=
  match s with
  | EmptyString => EmptyString
  | String c rest =>
      String (if Ascii.eqb c old then new else c) (replace_char old new rest)
  end.

(** The character class [[\(\)/]]. *)
Definition is_special (c : Ascii.ascii) : bool :=
  Ascii.eqb c lparen || Ascii.eqb c rparen || Ascii.eqb c slash.

(** [re.sub(r'[\(\)/]', '_', s)] *)
Fixpoint replace_special (s : string) : string :=
  match s with
  | EmptyString => EmptyString
  | String c rest =>
      String (if is_special c then underscore else c) (replace_special rest)
  end.

(** [re.sub(r'__', '_', s)]: the matches are taken from the left and do
    not overlap. *)
Fixpoint replace_pairs (s : string) : string :=
  match s with
  | EmptyString => EmptyString
  | String a s' =>
      match s' with
      | EmptyString => s
      | String b rest =>
          if Ascii.eqb a underscore && Ascii.eqb b underscore
          then String underscore (replace_pairs rest)
          else String a (replace_pairs s')
      end
  end.

(** One label through
    [.str.replace(' ', '_').str.replace(r'[\(\)/]', '_', regex=True)
     .str.replace(r'__', '_', regex=True)]. *)
Definition sanitize (label : string) : string :=
  replace_pairs (replace_special (replace_char space underscore label)).

(** The new value of [df.columns]. *)
Definition sanitize_columns (columns : list string) : list string :=
  map sanitize columns.

End Etl.

(** ** backend/build_db.py: the loader of the row store *)

Module BuildDb.

Definition associate_cols : list string :=
  ["Associate_1"; "Associate_2"; "Associate_3"; "Associate_4"].

Definition listing_cols : list string :=
  ["unique_id"; "Property_Address"; "Floor"; "Suite"; "Size_SF_";
   "Rent_SF_Year"; "Annual_Rent"; "Monthly_Rent"; "BROKER_Email_ID"].

(** Reading the local variable [conn] before it is bound. *)
Definition unbound_conn : exn :=
  Exn "UnboundLocalError"
    "cannot access local variable 'conn' where it is not associated with a value".

Section Main.
Context {W frame connection cursor : Type}.

(** The collaborators of [build_db.py]: [os.path.exists], pandas
    ([pd.read_csv], [df.columns] and its assignment, [df[labels]],
    [drop_duplicates(subset=label)], [dropna(subset=labels)],
    [rename(columns=mapping)], [pd.melt]), [frame.to_sql(name, conn,
    if_exists='replace', index=False)] and the sqlite3 module.
    [is_sqlite3_error] tells the exceptions of the class [sqlite3.Error]
    and of its subclasses. *)
Record env := Env {
  os_path_exists : string -> W -> bool * W;
  pd_read_csv : string -> M W frame;
  columns : frame -> list string;
  set_columns : frame -> list string -> outcome frame;
  getitem : frame -> list string -> outcome frame;
  drop_duplicates : frame -> string -> outcome frame;
  dropna : frame -> list string -> outcome frame;
  rename : frame -> list (string * string) -> frame;
  pd_melt : frame -> list string -> list string -> string -> string -> outcome frame;
  sqlite3_connect : string -> M W connection;
  to_sql : frame -> string -> connection -> M W unit;
  conn_cursor : connection -> M W cursor;
  cursor_execute : cursor -> string -> M W unit;
  conn_commit : connection -> M W unit;
  conn_close : connection -> M W unit;
  is_sqlite3_error : exn -> bool
}.

Variable E : env.

(** The three frames built from the frame of the file, whose labels
    are sanitized: brokers, associates, listings. [.copy()] leaves a
    frame as it is. *)
Definition frames_of (df : frame) : outcome (frame * frame * frame) :=
  match getitem E df ["BROKER_Email_ID"; "GCI_On_3_Years"] with
  | Raises e => Raises e
  | Returns brokers_df =>
  match drop_duplicates E brokers_df "BROKER_Email_ID" with
  | Raises e => Raises e
  | Returns brokers_df =>
  match dropna E brokers_df ["BROKER_Email_ID"] with
  | Raises e => Raises e
  | Returns brokers_df =>
  let brokers_df := rename E brokers_df [("BROKER_Email_ID", "broker_email")] in
  match pd_melt E df ["BROKER_Email_ID"] associate_cols
          "associate_level" "associate_name" with
  | Raises e => Raises e
  | Returns associates_df =>
  match dropna E associates_df ["associate_name"] with
  | Raises e => Raises e
  | Returns associates_df =>
  let associates_df :=
    rename E associates_df [("BROKER_Email_ID", "broker_email")] in
  match getitem E associates_df ["broker_email"; "associate_name"] with
  | Raises e => Raises e
  | Returns associates_df =>
  match getitem E df listing_cols with
  | Raises e => Raises e
  | Returns listings_df =>
  let listings_df :=
    rename E listings_df
      [("BROKER_Email_ID", "broker_email"); ("SIZE_SF_", "size_sf");
       ("RENT_SF_YEAR", "rent_sf_year")] in
  Returns (brokers_df, associates_df, listings_df)
  end end end end end end end.

(** The world together with the local variable [conn], which the
    assignment in the [try] block binds. *)
Definition locals : Type := (W * option connection)%type.

Definition io {A} (c : M W A) : M locals A :=
  fun s => (fst (c (fst s)), (snd (c (fst s)), snd s)).

Definition bind_conn (conn : connection) : M locals unit :=
  fun s => (Returns tt, (fst s, Some conn)).

Definition read_conn : M locals connection :=
  fun s =>
    match snd s with
    | Some conn => (Returns conn, s)
    | None => (Raises unbound_conn, s)
    end.

(** [try: body except C as e: handler e], for the exceptions of the
    classes told by [catches]. *)
Definition try_except_class {S A} (body : M S A) (catches : exn -> bool)
    (handler : exn -> M S A) : M S A :=
  fun s =>
    match body s with
    | (Returns a, s') => (Returns a, s')
    | (Raises e, s') => if catches e then handler e s' else (Raises e, s')
    end.

(** [try: body finally: final]: the clause runs in every case, and an
    exception it raises replaces the pending one. *)
Definition try_finally {S A} (body : M S A) (final : M S unit) : M S A :=
  fun s =>
    match body s with
    | (o, s') =>
        match final s' with
        | (Returns _, s'') => (o, s'')
        | (Raises e, s'') => (Raises e, s'')
        end
    end.

(** The [try] statement that writes the three frames. A connection
    object is true, so that [if conn:] closes whenever [conn] is bound. *)
Definition write_tables (db_path : string) (brokers_df associates_df listings_df : frame)
  : M locals unit :=
  try_finally
    (try_except_class
       (conn <- io (sqlite3_connect E db_path) ;;
        bind_conn conn ;;;
        io (to_sql E brokers_df "brokers" conn) ;;;
        io (to_sql E associates_df "associates" conn) ;;;
        io (to_sql E listings_df "listings" conn) ;;;
        cursor <- io (conn_cursor E conn) ;;
        io (cursor_execute E cursor
              "CREATE INDEX IF NOT EXISTS idx_listings_broker_email ON listings(broker_email);") ;;;
        io (cursor_execute E cursor
              "CREATE INDEX IF NOT EXISTS idx_associates_broker_email ON associates(broker_email);") ;;;
        io (conn_commit E conn))
       (is_sqlite3_error E)
       (fun e => ret tt))
    (conn <- read_conn ;; io (conn_close E conn)).

Definition process_csv_to_normalized_db (csv_path db_path : string) : M W unit :=
  fun w =>
    if negb (fst (os_path_exists E csv_path w))
    then (Returns tt, snd (os_path_exists E csv_path w))
    else
      (df <- pd_read_csv E csv_path ;;
       let original_cols := columns E df in
       df <- lift (set_columns E df (Etl.sanitize_columns (columns E df))) ;;
       let column_mapping := combine original_cols (columns E df) in
       tables <- lift (frames_of df) ;;
       fun w1 =>
         (fst (write_tables db_path (fst (fst tables)) (snd (fst tables)) (snd tables)
                 (w1, None)),
          fst (snd (write_tables db_path (fst (fst tables)) (snd (fst tables))
                      (snd tables) (w1, None)))))
      (snd (os_path_exists E csv_path w)).

End Main.

End BuildDb.

(** ** backend/build_kuzu_db.py: the loader of the graph store *)

Module BuildKuzu.

Definition EMBEDDING_MODEL : string := "text-embedding-3-small".

Definition create_broker : string :=
  nl +:+ "        CREATE NODE TABLE Broker(" +:+ nl
  +:+ "            email STRING," +:+ nl
  +:+ "            gci_3_years_text STRING," +:+ nl
  +:+ "            gci_3_years_numeric DOUBLE," +:+ nl
  +:+ "            PRIMARY KEY (email)" +:+ nl
  +:+ "        )" +:+ nl
  +:+ "    ".

Definition create_associate : string :=
  "CREATE NODE TABLE Associate(name STRING, PRIMARY KEY (name))".

Definition create_listing : string :=
  nl +:+ "        CREATE NODE TABLE Listing(" +:+ nl
  +:+ "            unique_id STRING," +:+ nl
  +:+ "            address STRING," +:+ nl
  +:+ "            floor STRING," +:+ nl
  +:+ "            suite STRING," +:+ nl
  +:+ "            size_sf DOUBLE," +:+ nl
  +:+ "            rent_sf_year_text STRING," +:+ nl
  +:+ "            annual_rent_text STRING," +:+ nl
  +:+ "            monthly_rent_text STRING," +:+ nl
  +:+ "            rent_sf_year_numeric DOUBLE," +:+ nl
  +:+ "            annual_rent_numeric DOUBLE," +:+ nl
  +:+ "            monthly_rent_numeric DOUBLE," +:+ nl
  +:+ nl
  +:+ "            address_embedding STRING," +:+ nl
  +:+ nl
  +:+ "            PRIMARY KEY (unique_id)" +:+ nl
  +:+ "        )" +:+ nl
  +:+ "    ".

Definition associate_cols : list string :=
  ["Associate_1"; "Associate_2"; "Associate_3"; "Associate_4"].

(** The frames that the COPY statements read by their names. *)
Record graph_frames (frame : Type) := GraphFrames {
  brokers_df : frame;
  listings_df : frame;
  associates_df : frame;
  all_works_with_df : frame;
  manages_df : frame
}.
Arguments GraphFrames {frame}.
Arguments brokers_df {frame}.
Arguments listings_df {frame}.
Arguments associates_df {frame}.
Arguments all_works_with_df {frame}.
Arguments manages_df {frame}.

Section Main.
Context {W cell frame series database connection : Type}.

(** The collaborators of [build_kuzu_db.py]: [os.path.exists]; pandas
    ([pd.read_csv], [df.columns] and its assignment, [df[label]],
    [df[labels]], [df[label] = series], [df[label] = list],
    [series.astype(str)], [series.str.replace(pattern, repl, regex=True)],
    [pd.to_numeric(series, errors='coerce')], [series.tolist()],
    [drop_duplicates(subset=label)], [dropna(subset=labels)], [dropna()]
    on a frame, [rename(columns=mapping)], [pd.concat] of series,
    [series.dropna().unique()], [pd.DataFrame(values, columns=labels)],
    [pd.concat] of frames); the embedding provider
    ([client.embeddings.create(model, input)] and the [embedding] of each
    item of its [data]); [json.dumps]; the kuzu module, whose [COPY]
    statements read the frames in scope by their names. *)
Record env := Env {
  os_path_exists : string -> W -> bool * W;
  pd_read_csv : string -> M W frame;
  columns : frame -> list string;
  set_columns : frame -> list string -> outcome frame;
  getitem : frame -> string -> outcome series;
  getitems : frame -> list string -> outcome frame;
  setitem : frame -> string -> series -> frame;
  setitem_list : frame -> string -> list string -> outcome frame;
  astype_str : series -> series;
  str_replace : series -> string -> string -> series;
  to_numeric : series -> series;
  tolist : series -> list cell;
  drop_duplicates : frame -> string -> outcome frame;
  dropna_subset : frame -> list string -> outcome frame;
  dropna : frame -> frame;
  rename : frame -> list (string * string) -> frame;
  concat_series : list series -> series;
  dropna_unique : series -> series;
  DataFrame : series -> list string -> frame;
  concat_frames : list frame -> frame;
  embeddings_create : string -> list cell -> M W (list (list Numpy.float));
  json_dumps : list Numpy.float -> string;
  kuzu_Database : string -> M W database;
  kuzu_Connection : database -> M W connection;
  conn_execute : connection -> string -> list (string * frame) -> M W unit
}.

Variable E : env.

Definition clean_and_convert_to_numeric (s : series) : series :=
  to_numeric E (str_replace E (astype_str E s) "[$,]" EmptyString).

(** [df[target] = clean_and_convert_to_numeric(df[source])] *)
Definition add_numeric (df : frame) (target source : string) : outcome frame :=
  match getitem E df source with
  | Raises e => Raises e
  | Returns s => Returns (setitem E df target (clean_and_convert_to_numeric s))
  end.

(** The four numeric columns. *)
Definition add_numeric_columns (df : frame) : outcome frame :=
  match add_numeric df "rent_sf_year_numeric" "Rent_SF_Year" with
  | Raises e => Raises e
  | Returns df =>
  match add_numeric df "annual_rent_numeric" "Annual_Rent" with
  | Raises e => Raises e
  | Returns df =>
  match add_numeric df "monthly_rent_numeric" "Monthly_Rent" with
  | Raises e => Raises e
  | Returns df => add_numeric df "gci_3_years_numeric" "GCI_On_3_Years"
  end end end.

(** The body of the [try] block: the frame with the column of the
    embeddings. *)
Definition embed_addresses (df : frame) : M W frame :=
  addresses <- lift (getitem E df "Property_Address") ;;
  address_embeddings <- embeddings_create E EMBEDDING_MODEL (tolist E addresses) ;;
  lift (setitem_list E df "address_embedding"
          (map (json_dumps E) address_embeddings)).

(** The schema of the graph. *)
Definition define_schema (conn : connection) : M W unit :=
  conn_execute E conn create_broker [] ;;;
  conn_execute E conn create_associate [] ;;;
  conn_execute E conn create_listing [] ;;;
  conn_execute E conn "CREATE REL TABLE WorksWith(FROM Broker TO Associate)" [] ;;;
  conn_execute E conn "CREATE REL TABLE Manages(FROM Broker TO Listing)" [].

(** The loop that builds [works_with_dfs]. *)
Fixpoint works_with (df : frame) (cols : list string) : outcome (list frame) :=
  match cols with
  | [] => Returns []
  | col :: rest =>
      match getitems E df ["BROKER_Email_ID"; col] with
      | Raises e => Raises e
      | Returns both =>
          let works_with_df :=
            rename E (dropna E both) [("BROKER_Email_ID", "FROM"); (col, "TO")] in
          match works_with df rest with
          | Raises e => Raises e
          | Returns dfs => Returns (works_with_df :: dfs)
          end
      end
  end.

(** [[df[col] for col in cols]] *)
Fixpoint series_of (df : frame) (cols : list string) : outcome (list series) :=
  match cols with
  | [] => Returns []
  | col :: rest =>
      match getitem E df col with
      | Raises e => Raises e
      | Returns s =>
          match series_of df rest with
          | Raises e => Raises e
          | Returns ss => Returns (s :: ss)
          end
      end
  end.

(** The frames prepared for the loading. [.copy()] leaves a frame as it
    is. *)
Definition prepare_frames (df : frame) : outcome (graph_frames frame) :=
  match getitems E df ["BROKER_Email_ID"; "GCI_On_3_Years"; "gci_3_years_numeric"] with
  | Raises e => Raises e
  | Returns b =>
  match drop_duplicates E b "BROKER_Email_ID" with
  | Raises e => Raises e
  | Returns b =>
  match dropna_subset E b ["BROKER_Email_ID"] with
  | Raises e => Raises e
  | Returns b =>
  let brokers := rename E b [("BROKER_Email_ID", "email");
                             ("GCI_On_3_Years", "gci_3_years_text")] in
  match getitems E df
          ["unique_id"; "Property_Address"; "Floor"; "Suite"; "Size_SF_";
           "Rent_SF_Year"; "Annual_Rent"; "Monthly_Rent";
           "rent_sf_year_numeric"; "annual_rent_numeric"; "monthly_rent_numeric";
           "address_embedding"] with
  | Raises e => Raises e
  | Returns l =>
  let listings :=
    rename E l [("Property_Address", "address"); ("Size_SF_", "size_sf");
                ("Rent_SF_Year", "rent_sf_year_text");
                ("Annual_Rent", "annual_rent_text");
                ("Monthly_Rent", "monthly_rent_text")] in
  match series_of df associate_cols with
  | Raises e => Raises e
  | Returns ss =>
  let all_associates := dropna_unique E (concat_series E ss) in
  let associates := DataFrame E all_associates ["name"] in
  match works_with df associate_cols with
  | Raises e => Raises e
  | Returns works_with_dfs =>
  let all_works_with := concat_frames E works_with_dfs in
  match getitems E df ["BROKER_Email_ID"; "unique_id"] with
  | Raises e => Raises e
  | Returns m =>
  let manages := rename E m [("BROKER_Email_ID", "FROM"); ("unique_id", "TO")] in
  Returns (GraphFrames brokers listings associates all_works_with manages)
  end end end end end end end.

Definition load_frames (conn : connection) (fs : graph_frames frame) : M W unit :=
  conn_execute E conn "COPY Broker FROM brokers_df"
    [("brokers_df", brokers_df fs)] ;;;
  conn_execute E conn "COPY Listing FROM listings_df"
    [("listings_df", listings_df fs)] ;;;
  conn_execute E conn "COPY Associate FROM associates_df"
    [("associates_df", associates_df fs)] ;;;
  conn_execute E conn "COPY WorksWith FROM all_works_with_df"
    [("all_works_with_df", all_works_with_df fs)] ;;;
  conn_execute E conn "COPY Manages FROM manages_df"
    [("manages_df", manages_df fs)].

(** What follows the [try] statement, on the frame with the embeddings. *)
Definition build_graph (db_path : string) (df : frame) : M W unit :=
  db <- kuzu_Database E db_path ;;
  conn <- kuzu_Connection E db ;;
  define_schema conn ;;;
  fs <- lift (prepare_frames df) ;;
  load_frames conn fs.

Definition process_csv_to_kuzu_db (csv_path db_path : string) : M W unit :=
  fun w =>
    if negb (fst (os_path_exists E csv_path w))
    then (Returns tt, snd (os_path_exists E csv_path w))
    else
      (df <- pd_read_csv E csv_path ;;
       df <- lift (set_columns E df (Etl.sanitize_columns (columns E df))) ;;
       df <- lift (add_numeric_columns df) ;;
       fun w1 =>
         match embed_addresses df w1 with
         | (Raises e, w2) => (Returns tt, w2)
         | (Returns df, w2) => build_graph db_path df w2
         end)
      (snd (os_path_exists E csv_path w)).

End Main.

End BuildKuzu.

(** ** Vocabulary of the properties *)

Module Vocabulary.

(** The first line of the text of each introspector. *)
Definition sqlite_header : string := "Database schema:" +:+ nl.
Definition kuzu_header : string := "Kuzu Graph Database Schema:" +:+ nl.

(** The text of the handler of the tool. *)
Definition tool_error (e : exn) : option string :=
  Some ("An error occurred within the tool: " +:+ exn_str e).

(** The states on which the tool of an agent is invoked by a model that
    asks for it: the last message is an assistant message with a request,
    and that request carries the parameter of the tool when [guard] says
    that the tool will run. *)
Definition requests (param : string) (guard : tool_call -> bool)
    (messages : list message) : Prop :=
  exists pre c tc tcs,
    messages = pre ++ [AIMessage c (tc :: tcs)]
    /\ (guard tc = true -> is_Some (tc_args tc !! param)).

(** A well-formed history: after the first entry, each entry has a role,
    and a content when the role is user or assistant. *)
Definition entry_ok (msg : gmap string string) : bool :=
  match msg !! "role" with
  | None => false
  | Some role =>
      if String.eqb role "user" || String.eqb role "assistant"
      then match msg !! "content" with Some _ => true | None => false end
      else true
  end.

Definition history_well_formed (conversation : list (gmap string string)) : bool :=
  forallb entry_ok (List.tl conversation).

(** An environment that behaves as [E] and records, in a log kept next
    to the world, the messages handed to the two applications. *)
Definition record_call {W A} (arg : list message) (c : M W A)
  : M (W * list (list message)) A :=
  fun s =>
    match c (fst s) with
    | (o, w') => (o, (w', snd s ++ [arg]))
    end.

Definition recording {W} (E : @App.env W) : @App.env (W * list (list message)) :=
  {| App.kuzu_app_stream := fun msgs limit =>
       record_call msgs (App.kuzu_app_stream E msgs limit);
     App.kuzu_app_invoke := fun msgs =>
       record_call msgs (App.kuzu_app_invoke E msgs);
     App.sqlite_app_stream := fun msgs limit =>
       record_call msgs (App.sqlite_app_stream E msgs limit);
     App.sqlite_app_invoke := fun msgs =>
       record_call msgs (App.sqlite_app_invoke E msgs);
     App.llm_invoke := fun msgs s =>
       match App.llm_invoke E msgs (fst s) with
       | (o, w') => (o, (w', snd s))
       end |}.

(** [c in s] for a character. *)
Fixpoint occurs (c : Ascii.ascii) (s : string) : bool :=
  match s with
  | EmptyString => false
  | String d rest => Ascii.eqb d c || occurs c rest
  end.

(** [filename.split(".")[-1]], which never fails. *)
Definition extension_of (filename : string) : string :=
  match last_item (Endpoints.split Endpoints.dot filename) with
  | Returns extension => extension
  | Raises _ => EmptyString
  end.

(** The bytes [cs] are whitespace characters, one after the other. *)
Fixpoint all_space (cs : list Ascii.ascii) : bool :=
  match cs with
  | [] => true
  | c1 :: r1 =>
      if is_space c1 then all_space r1
      else
        match r1 with
        | [] => false
        | c2 :: r2 =>
            if is_space2 c1 c2 then all_space r2
            else
              match r2 with
              | [] => false
              | c3 :: r3 => is_space3 c1 c2 c3 && all_space r3
              end
        end
  end.

(** A text without a visible character. *)
Definition blank (text : string) : bool :=
  all_space (String.list_ascii_of_string text).


(** The schema texts, as functions of what a store holds: for the row
    store the tables with their columns (name and declared type), for the
    graph store the node tables with their properties and the names of
    the relationship tables. *)
Definition column_line (column : string * string) : string :=
  "  - " +:+ fst column +:+ " (" +:+ snd column +:+ ")" +:+ nl.

Definition add_lines {A} (line : A -> string) (xs : list A) (text : string) : string :=
  fold_left (fun acc x => acc +:+ line x) xs text.

Definition add_sqlite_table (text : string) (table : string * list (string * string))
  : string :=
  add_lines column_line (snd table) (text +:+ "Table '" +:+ fst table +:+ "':" +:+ nl).

Definition render_sqlite (schema : list (string * list (string * string))) : string :=
  fold_left add_sqlite_table schema sqlite_header.

Definition add_kuzu_table (text : string) (table : string * list (string * string))
  : string :=
  add_lines column_line (snd table) (text +:+ "- **" +:+ fst table +:+ "**:" +:+ nl).

Definition render_kuzu (tables : list (string * list (string * string)))
    (rel_tables : list string) : string :=
  add_lines (fun name => "- **" +:+ name +:+ "**" +:+ nl) rel_tables
    (fold_left add_kuzu_table tables (kuzu_header +:+ "## Node Tables:" +:+ nl)
     +:+ nl +:+ "## Relationship Tables:" +:+ nl).

(** [needle] stands somewhere in [hay]. *)
Definition substring_of (needle hay : string) : Prop :=
  exists before after, hay = before +:+ needle +:+ after.

(** The environment [E] with another embedding provider. *)
Definition with_embeddings {W cell database connection query_result}
    (E : @Kuzu.env W cell database connection query_result)
    (provider : string -> string -> M W (list Numpy.float))
  : @Kuzu.env W cell database connection query_result :=
  {| Kuzu.logic_llm_invoke := Kuzu.logic_llm_invoke E;
     Kuzu.kuzu_Database := Kuzu.kuzu_Database E;
     Kuzu.kuzu_Connection := Kuzu.kuzu_Connection E;
     Kuzu.conn_execute := Kuzu.conn_execute E;
     Kuzu.get_as_df := Kuzu.get_as_df E;
     Kuzu.get_node_table_names := Kuzu.get_node_table_names E;
     Kuzu.get_node_property_names := Kuzu.get_node_property_names E;
     Kuzu.get_rel_table_names := Kuzu.get_rel_table_names E;
     Kuzu.embeddings_create := provider;
     Kuzu.json_loads := Kuzu.json_loads E;
     Kuzu.numpy := Kuzu.numpy E;
     Kuzu.to_markdown := Kuzu.to_markdown E;
     Kuzu.llm_with_tools_invoke := Kuzu.llm_with_tools_invoke E |}.

(** The columns of a frame have one length. *)
Definition rectangular {cell} (df : Kuzu.dataframe cell) : Prop :=
  exists n, Forall (fun col => length (snd col) = n) df.

(** The two queries of the address branch. *)
Definition all_addresses_query : string :=
  "MATCH (l:Listing) RETURN l.address, l.address_embedding".
Definition address_details_query : string :=
  "MATCH (l:Listing) WHERE l.address = $address_filter RETURN l.*".

(** An event whose updates each hold a message, as the nodes of the two
    agents return them. *)
Definition printable (ev : App.event) : bool :=
  match ev !! "agent" with Some [] => false | _ => true end
  && match ev !! "execute_tool" with Some [] => false | _ => true end.

(** The bytes [cs] start with a whitespace character. *)
Definition starts_with_space (two : Ascii.ascii -> Ascii.ascii -> bool)
    (three : Ascii.ascii -> Ascii.ascii -> Ascii.ascii -> bool)
    (cs : list Ascii.ascii) : bool :=
  match cs with
  | [] => false
  | c1 :: r1 =>
      is_space c1
      || match r1 with
         | [] => false
         | c2 :: r2 =>
             two c1 c2
             || match r2 with
                | [] => false
                | c3 :: _ => three c1 c2 c3
                end
         end
  end.

(** A text that neither starts nor ends with a whitespace character. *)
Definition trimmed (s : string) : bool :=
  negb (starts_with_space is_space2 is_space3 (String.list_ascii_of_string s))
  && negb (starts_with_space (fun c2 c1 => is_space2 c1 c2)
             (fun c3 c2 c1 => is_space3 c1 c2 c3)
             (rev (String.list_ascii_of_string s))).

(** The [KeyError] of a dictionary without the key. *)
Definition key_error (key : string) : exn := Exn "KeyError" ("'" +:+ key +:+ "'").

(** The text made of [n] times the character [c]. *)
Fixpoint run (c : Ascii.ascii) (n : nat) : string :=
  match n with
  | O => EmptyString
  | S n' => String c (run c n')
  end.

(** The characters of a label that are neither a separator ([ ], [(],
    [)], [/]) nor an underscore. *)
Definition is_filler (c : Ascii.ascii) : bool :=
  Ascii.eqb c Etl.space || Etl.is_special c || Ascii.eqb c Etl.underscore.

Definition payload (label : string) : list Ascii.ascii :=
  List.filter (fun c => negb (is_filler c)) (String.list_ascii_of_string label).

(** The statements of the [try] block of [build_db.py] that follow the
    opening of the connection. *)
Definition load_tables {W frame connection cursor}
    (E : @BuildDb.env W frame connection cursor) (conn : connection)
    (brokers_df associates_df listings_df : frame) : M W unit :=
  BuildDb.to_sql E brokers_df "brokers" conn ;;;
  BuildDb.to_sql E associates_df "associates" conn ;;;
  BuildDb.to_sql E listings_df "listings" conn ;;;
  cursor <- BuildDb.conn_cursor E conn ;;
  BuildDb.cursor_execute E cursor
    "CREATE INDEX IF NOT EXISTS idx_listings_broker_email ON listings(broker_email);" ;;;
  BuildDb.cursor_execute E cursor
    "CREATE INDEX IF NOT EXISTS idx_associates_broker_email ON associates(broker_email);" ;;;
  BuildDb.conn_commit E conn.

(** The loader is given a file that exists and from which the three
    frames are built. *)
Definition frames_built {W frame connection cursor}
    (E : @BuildDb.env W frame connection cursor) (csv_path : string) (w w1 : W)
    (brokers_df associates_df listings_df : frame) : Prop :=
  fst (BuildDb.os_path_exists E csv_path w) = true
  /\ exists df df',
       BuildDb.pd_read_csv E csv_path (snd (BuildDb.os_path_exists E csv_path w))
       = (Returns df, w1)
       /\ BuildDb.set_columns E df (Etl.sanitize_columns (BuildDb.columns E df))
          = Returns df'
       /\ BuildDb.frames_of E df' = Returns (brokers_df, associates_df, listings_df).

(** The environment [E] of the row store with another [conn.close]. *)
Definition with_close {W value connection cursor}
    (E : @Sqlite.env W value connection cursor)
    (close : connection -> M W unit)
  : @Sqlite.env W value connection cursor :=
  {| Sqlite.sqlite3_connect := Sqlite.sqlite3_connect E;
     Sqlite.conn_cursor := Sqlite.conn_cursor E;
     Sqlite.cursor_execute := Sqlite.cursor_execute E;
     Sqlite.cursor_fetchall := Sqlite.cursor_fetchall E;
     Sqlite.cursor_description := Sqlite.cursor_description E;
     Sqlite.conn_commit := Sqlite.conn_commit E;
     Sqlite.conn_close := close;
     Sqlite.py_str := Sqlite.py_str E;
     Sqlite.py_str_rows := Sqlite.py_str_rows E;
     Sqlite.llm_with_tools_invoke := Sqlite.llm_with_tools_invoke E |}.

(** A float64 zero, of either sign. *)
Definition is_zero (x : Numpy.float) : bool :=
  match x with
  | S754_zero _ => true
  | _ => false
  end.

(** A zero or a NaN. *)
Definition zero_or_nan (x : Numpy.float) : Prop :=
  is_zero x = true \/ Numpy.isnan x = true.

(** A BLAS on which the dot product with a vector of zeros, and the norm
    of a vector of zeros, are a zero or a NaN: every product is then a
    zero or a NaN, and so is every sum of them, in whatever order and
    with or without fused multiply-add. *)
Definition zero_preserving (L : Numpy.linalg) : Prop :=
  (forall db q i,
      Forall (fun x => is_zero x = true) q -> zero_or_nan (Numpy.np_dot L db q i))
  /\ (forall q,
        Forall (fun x => is_zero x = true) q -> zero_or_nan (Numpy.norm L q)).

(** The graph loader is given a file that exists, and the frame of the
    file gets its sanitized labels and its numeric columns. *)
Definition frame_read {W cell frame series database connection}
    (E : @BuildKuzu.env W cell frame series database connection)
    (csv_path : string) (w w1 : W) (df : frame) : Prop :=
  fst (BuildKuzu.os_path_exists E csv_path w) = true
  /\ exists df0 df1,
       BuildKuzu.pd_read_csv E csv_path (snd (BuildKuzu.os_path_exists E csv_path w))
       = (Returns df0, w1)
       /\ BuildKuzu.set_columns E df0 (Etl.sanitize_columns (BuildKuzu.columns E df0))
          = Returns df1
       /\ BuildKuzu.add_numeric_columns E df1 = Returns df.

End Vocabulary.

Import Vocabulary.

(** ** Concrete inputs used in the examples *)

Module Examples.

Import Numpy.

(** A BLAS that rounds every product and adds the products from the
    left, one of the ways numpy may compute; the examples run on it. *)
Definition dot_in_order (u v : list float) : float :=
  fold_left (fun acc p => fadd acc (fmul (fst p) (snd p))) (combine u v) fzero.

Definition norm_in_order (v : list float) : float := fsqrt (dot_in_order v v).

Definition in_order : linalg :=
  {| np_dot := fun db q i => dot_in_order (nth i db []) q;
     norm_rows := fun db i => norm_in_order (nth i db []);
     norm := norm_in_order |}.

(** The listings with embeddings [1,0] and [0,1], and the question
    embedding [0.9,0.1]. *)
Definition two_candidates : list (list float) :=
  [[of_Z 1; of_Z 0]; [of_Z 0; of_Z 1]].
Definition near_first : list float := [of_decimal 9 1; of_decimal 1 1].

(** A table whose second embedding is the zero vector. *)
Definition with_zero_vector : list (list float) :=
  [[of_Z 1; of_Z 0]; [of_Z 0; of_Z 0]].
Definition unit_question : list float := [of_Z 1; of_Z 0].

(** A row store that holds one table: [listings(id INTEGER, address
    TEXT)] with two rows. The world is the list of the statements run so
    far, the latest first; a statement that is no SELECT, PRAGMA or
    UPDATE is a syntax error. *)
Definition mock_statement_ok (q : string) : bool :=
  String.prefix "SELECT" q || String.prefix "PRAGMA" q || String.prefix "UPDATE" q.

Definition mock_sqlite (model : list message -> message)
  : @Sqlite.env (list string) string unit unit :=
  {| Sqlite.sqlite3_connect := fun _ w => (Returns tt, w);
     Sqlite.conn_cursor := fun _ w => (Returns tt, w);
     Sqlite.cursor_execute := fun _ q w =>
       if mock_statement_ok q then (Returns tt, q :: w)
       else (Raises (Exn "OperationalError" "syntax error"), w);
     Sqlite.cursor_fetchall := fun _ w =>
       match w with
       | q :: _ =>
           if String.prefix "SELECT name FROM sqlite_master" q
           then (Returns [["listings"]], w)
           else if String.prefix "PRAGMA" q
           then (Returns [["0"; "id"; "INTEGER"]; ["1"; "address"; "TEXT"]], w)
           else (Returns [["1"; "18 West 38th Street"]; ["2"; "9 Main Street"]], w)
       | [] => (Returns [], w)
       end;
     Sqlite.cursor_description := fun _ w =>
       match w with
       | q :: _ =>
           if String.prefix "UPDATE" q then (Returns None, w)
           else (Returns (Some ["id"; "address"]), w)
       | [] => (Returns None, w)
       end;
     Sqlite.conn_commit := fun _ w => (Returns tt, w);
     Sqlite.conn_close := fun _ w => (Returns tt, w);
     Sqlite.py_str := fun v => v;
     Sqlite.py_str_rows := fun rs => String.concat "; " (map (String.concat ", ") rs);
     Sqlite.llm_with_tools_invoke := fun msgs w => (Returns (model msgs), w) |}.

(** A model that answers at once, and one that asks for the tool at
    every turn. *)
Definition model_answers (msgs : list message) : message :=
  AIMessage "There are two listings." [].

Definition model_always_calls (tool param value : string) (msgs : list message)
  : message :=
  AIMessage EmptyString [ToolCall tool {[ param := value ]} "call_1"].

(** The same store when it cannot be opened. *)
Definition mock_sqlite_unreachable : @Sqlite.env (list string) string unit unit :=
  {| Sqlite.sqlite3_connect := fun _ w =>
       (Raises (Exn "OperationalError" "unable to open database file"), w);
     Sqlite.conn_cursor := Sqlite.conn_cursor (mock_sqlite model_answers);
     Sqlite.cursor_execute := Sqlite.cursor_execute (mock_sqlite model_answers);
     Sqlite.cursor_fetchall := Sqlite.cursor_fetchall (mock_sqlite model_answers);
     Sqlite.cursor_description := Sqlite.cursor_description (mock_sqlite model_answers);
     Sqlite.conn_commit := Sqlite.conn_commit (mock_sqlite model_answers);
     Sqlite.conn_close := Sqlite.conn_close (mock_sqlite model_answers);
     Sqlite.py_str := Sqlite.py_str (mock_sqlite model_answers);
     Sqlite.py_str_rows := Sqlite.py_str_rows (mock_sqlite model_answers);
     Sqlite.llm_with_tools_invoke :=
       Sqlite.llm_with_tools_invoke (mock_sqlite model_answers) |}.

(** A graph store with two listings. A query result is the query with
    its parameters; the world is the list of the queries run so far, the
    latest first. [llm] is the model used inside the tool, [opens] tells
    whether the store can be opened, [embedding] is the answer of the
    embedding provider. *)
Definition listing_table : Kuzu.dataframe string :=
  [("l.address", ["18 West 38th Street"; "9 Main Street"]);
   ("l.address_embedding", ["[1, 0]"; "[0, 1]"])].

Definition listing_details (address : string) : Kuzu.dataframe string :=
  if String.eqb address "18 West 38th Street" then
    [("l.unique_id", ["L1"]); ("l.address", [address]);
     ("l.address_embedding", ["[1, 0]"]); ("l.floor", ["E3"])]
  else if String.eqb address "9 Main Street" then
    [("l.unique_id", ["L2"]); ("l.address", [address]);
     ("l.address_embedding", ["[0, 1]"]); ("l.floor", ["P1"])]
  else
    [("l.unique_id", []); ("l.address", []);
     ("l.address_embedding", []); ("l.floor", [])].

Definition mock_json_loads (e : string) : outcome (list float) :=
  if String.eqb e "[1, 0]" then Returns [of_Z 1; of_Z 0]
  else if String.eqb e "[0, 1]" then Returns [of_Z 0; of_Z 1]
  else if String.eqb e "[0, 0]" then Returns [of_Z 0; of_Z 0]
  else Raises (Exn "JSONDecodeError" "Expecting value").

Definition mock_to_markdown (df : Kuzu.dataframe string) : outcome string :=
  Returns (String.concat nl
             (map (fun col => "| " +:+ fst col +:+ " | "
                              +:+ String.concat " | " (snd col) +:+ " |") df)).

Definition mock_kuzu (llm : string -> outcome string) (opens : bool)
    (embedding : outcome (list float)) (model : list message -> message)
  : @Kuzu.env (list string) string unit unit (string * list (string * string)) :=
  {| Kuzu.logic_llm_invoke := fun prompt w => (llm prompt, w);
     Kuzu.kuzu_Database := fun _ _ w =>
       if opens then (Returns tt, w)
       else (Raises (Exn "RuntimeError" "IO exception: Could not set lock on file"), w);
     Kuzu.kuzu_Connection := fun _ w => (Returns tt, w);
     Kuzu.conn_execute := fun _ q params w =>
       if String.prefix "MATCH" q
       then (Returns (q, params), (q +:+ String.concat EmptyString (map snd params)) :: w)
       else (Raises (Exn "RuntimeError" "Parser exception"), w);
     Kuzu.get_as_df := fun res w =>
       match snd res with
       | [] => (Returns listing_table, w)
       | (_, address) :: _ => (Returns (listing_details address), w)
       end;
     Kuzu.get_node_table_names := fun _ w => (Returns ["Listing"; "Broker"], w);
     Kuzu.get_node_property_names := fun _ table w =>
       if String.eqb table "Listing"
       then (Returns [("address", "STRING"); ("size_sf", "DOUBLE")], w)
       else (Returns [("email", "STRING")], w);
     Kuzu.get_rel_table_names := fun _ w => (Returns ["Manages"], w);
     Kuzu.embeddings_create := fun _ _ w => (embedding, w);
     Kuzu.json_loads := mock_json_loads;
     Kuzu.numpy := in_order;
     Kuzu.to_markdown := mock_to_markdown;
     Kuzu.llm_with_tools_invoke := fun msgs w => (Returns (model msgs), w) |}.

(** Answers of the model inside the tool: a router that names a
    category, one that names none, and one whose provider fails. *)
Definition llm_says (answer : string) (prompt : string) : outcome string :=
  Returns answer.

Definition llm_down (prompt : string) : outcome string :=
  Raises (Exn "APIConnectionError" "Connection error.").

Definition address_question : string :=
  "How many listing are there in 18 west 38th street?".

(** An assistant message that carries two tool-call requests. *)
Definition two_requests (tool param first second : string) : message :=
  AIMessage EmptyString
    [ToolCall tool {[ param := first ]} "call_1";
     ToolCall tool {[ param := second ]} "call_2"].

(** The two applications and the reconciling model as seen from the
    endpoint. [kuzu_up] tells whether the provider behind the graph
    agent answers. *)
Definition mock_app (kuzu_up : bool) : @App.env (list string) :=
  {| App.kuzu_app_stream := fun msgs _ w =>
       if kuzu_up
       then (Returns [{[ "agent" := [AIMessage "Two listings." []] ]}],
             "kuzu.stream" :: w)
       else (Raises (Exn "APIConnectionError" "Connection error."), w);
     App.kuzu_app_invoke := fun msgs w =>
       (Returns (msgs ++ [AIMessage "Two listings." []]), "kuzu.invoke" :: w);
     App.sqlite_app_stream := fun msgs _ w =>
       (Returns [{[ "agent" := [AIMessage "2" []] ]}], "sqlite.stream" :: w);
     App.sqlite_app_invoke := fun msgs w =>
       (Returns (msgs ++ [AIMessage "2" []]), "sqlite.invoke" :: w);
     App.llm_invoke := fun msgs w =>
       (Returns (" There are two listings." +:+ nl), "llm.invoke" :: w) |}.

Definition history_ok : list (gmap string string) :=
  [ {[ "role" := "system"; "content" := "You are a helpful assistant." ]};
    {[ "role" := "user"; "content" := "How many listings are there?" ]};
    {[ "role" := "tool"; "content" := "ignored" ]};
    {[ "role" := "assistant"; "content" := "Let me check." ]} ].

(** A history entry without a role. *)
Definition history_without_role : list (gmap string string) :=
  [ {[ "role" := "system"; "content" := "You are a helpful assistant." ]};
    {[ "content" := "How many listings are there?" ]} ].

Definition request_ok : App.ChatRequest :=
  {| App.conversation := history_ok; App.new_message := "And brokers?" |}.

Definition request_without_role : App.ChatRequest :=
  {| App.conversation := history_without_role;
     App.new_message := "How many listings are there?" |}.

(** A speech provider; the world counts the readings of the clock, which
    shows one second more at each reading. *)
Definition mock_speech (up : bool) : @Endpoints.env nat string :=
  {| Endpoints.time_time := fun w => (of_Z (Z.of_nat w), S w);
     Endpoints.gTTS := fun text _ w =>
       if up then (Returns text, w)
       else (Raises (Exn "gTTSError" "Failed to connect."), w);
     Endpoints.write_to_fp := fun speech w =>
       (Returns (map (fun _ => Byte.x00) (String.list_ascii_of_string speech)), w);
     Endpoints.b64encode := fun audio_bytes =>
       String.concat EmptyString (map (fun _ => "AA") audio_bytes) |}.

(** The graph store of [mock_kuzu] when its listing table is [table]. *)
Definition mock_kuzu_holding (table : Kuzu.dataframe string)
    (llm : string -> outcome string) (embedding : outcome (list float))
  : @Kuzu.env (list string) string unit unit (string * list (string * string)) :=
  let E := mock_kuzu llm true embedding model_answers in
  {| Kuzu.logic_llm_invoke := Kuzu.logic_llm_invoke E;
     Kuzu.kuzu_Database := Kuzu.kuzu_Database E;
     Kuzu.kuzu_Connection := Kuzu.kuzu_Connection E;
     Kuzu.conn_execute := Kuzu.conn_execute E;
     Kuzu.get_as_df := fun res w =>
       match snd res with
       | [] => (Returns table, w)
       | (_, address) :: _ => (Returns (listing_details address), w)
       end;
     Kuzu.get_node_table_names := Kuzu.get_node_table_names E;
     Kuzu.get_node_property_names := Kuzu.get_node_property_names E;
     Kuzu.get_rel_table_names := Kuzu.get_rel_table_names E;
     Kuzu.embeddings_create := Kuzu.embeddings_create E;
     Kuzu.json_loads := Kuzu.json_loads E;
     Kuzu.numpy := Kuzu.numpy E;
     Kuzu.to_markdown := Kuzu.to_markdown E;
     Kuzu.llm_with_tools_invoke := Kuzu.llm_with_tools_invoke E |}.

(** A listing table without rows, and one without the embedding column. *)
Definition no_listing : Kuzu.dataframe string :=
  [("l.address", []); ("l.address_embedding", [])].

Definition addresses_only : Kuzu.dataframe string :=
  [("l.address", ["18 West 38th Street"; "9 Main Street"])].

(** A file system, pandas and a row store for the loader. A frame is
    the list of its labels; the world is the list of the calls to the
    store, the latest first. [present] tells whether the file exists and
    [opens] whether the store can be opened; a table named in [refused]
    cannot be written. *)
Definition csv_header : list string :=
  ["unique_id"; "Property Address"; "Floor"; "Suite"; "Size (SF)";
   "Rent/SF/Year"; "Annual Rent"; "Monthly Rent"; "GCI On 3 Years";
   "BROKER Email ID"; "Associate 1"; "Associate 2"; "Associate 3"; "Associate 4"].

Definition mock_select (df labels : list string) : outcome (list string) :=
  match List.find (fun l => negb (existsb (String.eqb l) df)) labels with
  | Some missing => Raises (Exn "KeyError" missing)
  | None => Returns labels
  end.

Definition mock_rename (df : list string) (mapping : list (string * string))
  : list string :=
  map (fun l =>
         match List.find (fun kv => String.eqb (fst kv) l) mapping with
         | Some kv => snd kv
         | None => l
         end) df.

Definition mock_loader (present opens : bool) (refused : string)
  : @BuildDb.env (list string) (list string) unit unit :=
  {| BuildDb.os_path_exists := fun _ w => (present, w);
     BuildDb.pd_read_csv := fun _ w => (Returns csv_header, w);
     BuildDb.columns := fun df => df;
     BuildDb.set_columns := fun df labels =>
       if Nat.eqb (length df) (length labels) then Returns labels
       else Raises (Exn "ValueError" "Length mismatch");
     BuildDb.getitem := mock_select;
     BuildDb.drop_duplicates := fun df _ => Returns df;
     BuildDb.dropna := fun df _ => Returns df;
     BuildDb.rename := mock_rename;
     BuildDb.pd_melt := fun df id_vars value_vars var_name value_name =>
       match mock_select df (id_vars ++ value_vars) with
       | Returns _ => Returns (id_vars ++ [var_name; value_name])
       | Raises e => Raises e
       end;
     BuildDb.sqlite3_connect := fun _ w =>
       if opens then (Returns tt, "connect" :: w)
       else (Raises (Exn "OperationalError" "unable to open database file"), w);
     BuildDb.to_sql := fun _ name _ w =>
       if String.eqb name refused
       then (Raises (Exn "OperationalError" "database is locked"), w)
       else (Returns tt, ("to_sql " +:+ name) :: w);
     BuildDb.conn_cursor := fun _ w => (Returns tt, w);
     BuildDb.cursor_execute := fun _ q w => (Returns tt, "execute" :: w);
     BuildDb.conn_commit := fun _ w => (Returns tt, "commit" :: w);
     BuildDb.conn_close := fun _ w => (Returns tt, "close" :: w);
     BuildDb.is_sqlite3_error := fun e =>
       String.eqb (exn_class e) "OperationalError" |}.

(** A file system, pandas, an embedding provider and a graph store for
    the loader of the graph. A frame is the list of its labels and a
    series is its label; the world is the list of the statements sent to
    the store, the latest first. *)
Definition mock_graph_loader (provider : outcome (list (list float)))
  : @BuildKuzu.env (list string) string (list string) string unit unit :=
  {| BuildKuzu.os_path_exists := fun _ w => (true, w);
     BuildKuzu.pd_read_csv := fun _ w => (Returns csv_header, w);
     BuildKuzu.columns := fun df => df;
     BuildKuzu.set_columns := fun df labels =>
       if Nat.eqb (length df) (length labels) then Returns labels
       else Raises (Exn "ValueError" "Length mismatch");
     BuildKuzu.getitem := fun df label =>
       if existsb (String.eqb label) df then Returns label
       else Raises (Exn "KeyError" label);
     BuildKuzu.getitems := mock_select;
     BuildKuzu.setitem := fun df label _ => df ++ [label];
     BuildKuzu.setitem_list := fun df label _ => Returns (df ++ [label]);
     BuildKuzu.astype_str := fun s => s;
     BuildKuzu.str_replace := fun s _ _ => s;
     BuildKuzu.to_numeric := fun s => s;
     BuildKuzu.tolist := fun _ => ["18 West 38th Street"; "9 Main Street"];
     BuildKuzu.drop_duplicates := fun df _ => Returns df;
     BuildKuzu.dropna_subset := fun df _ => Returns df;
     BuildKuzu.dropna := fun df => df;
     BuildKuzu.rename := mock_rename;
     BuildKuzu.concat_series := fun _ => "associates";
     BuildKuzu.dropna_unique := fun s => s;
     BuildKuzu.DataFrame := fun _ labels => labels;
     BuildKuzu.concat_frames := fun dfs => List.hd [] dfs;
     BuildKuzu.embeddings_create := fun _ _ w => (provider, w);
     BuildKuzu.json_dumps := fun _ => "[1.0, 0.0]";
     BuildKuzu.kuzu_Database := fun _ w => (Returns tt, w);
     BuildKuzu.kuzu_Connection := fun _ w => (Returns tt, w);
     BuildKuzu.conn_execute := fun _ q _ w => (Returns tt, q :: w) |}.

(** Two whitespace characters outside ASCII, in UTF-8: U+00A0 and
    U+3000. *)
Definition no_break_space : string :=
  String (Ascii.ascii_of_nat 194) (String (Ascii.ascii_of_nat 160) EmptyString).
Definition ideographic_space : string :=
  String (Ascii.ascii_of_nat 227)
    (String (Ascii.ascii_of_nat 128) (String (Ascii.ascii_of_nat 128) EmptyString)).

End Examples.

Import Examples.

(** * Properties *)

(** ** Reasoning about computations *)

Section Monad.
Context {W : Type}.

Lemma bind_returns {A B} (c : M W A) (k : A -> M W B) (w w' : W) (b : B) :
  bind c k w = (Returns b, w') ->
  exists a w1, c w = (Returns a, w1) /\ k a w1 = (Returns b, w').
Proof.
  unfold bind. destruct (c w) as [[a|e] w1]; [eauto | discriminate].
Qed.

Lemma bind_raises_first {A B} (c : M W A) (k : A -> M W B) (w w' : W) (e : exn) :
  c w = (Raises e, w') -> bind c k w = (Raises e, w').
Proof. unfold bind. intros ->. reflexivity. Qed.

Lemma bind_step {A B} (c : M W A) (k : A -> M W B) (w w1 : W) (a : A) :
  c w = (Returns a, w1) -> bind c k w = k a w1.
Proof. unfold bind. intros ->. reflexivity. Qed.

(** A property of the accumulator that every round of a loop keeps
    holds when the loop returns. *)
Lemma fold_m_invariant {A S} (P : S -> Prop) (body : S -> A -> M W S) :
  (forall acc x w acc' w', P acc -> body acc x w = (Returns acc', w') -> P acc') ->
  forall xs acc w r w',
    P acc -> fold_m xs body acc w = (Returns r, w') -> P r.
Proof.
  intros Hbody. induction xs as [|x xs IH]; intros acc w r w' Hacc Hrun.
  - simpl in Hrun. unfold ret in Hrun. congruence.
  - simpl in Hrun. apply bind_returns in Hrun as (acc' & w1 & Hx & Hrest).
    eapply IH; [|exact Hrest]. eapply Hbody; eauto.
Qed.

End Monad.

Lemma prefix_append (p s t : string) :
  String.prefix p s = true -> String.prefix p (s +:+ t) = true.
Proof.
  revert s. induction p as [|c p IH]; intros s.
  { destruct s; simpl; [destruct t|]; reflexivity. }
  destruct s as [|d s]; simpl; [discriminate|].
  destruct (Ascii.ascii_dec c d); [apply IH | discriminate].
Qed.

Lemma prefix_refl (p : string) : String.prefix p p = true.
Proof.
  induction p as [|c p IH]; simpl; [reflexivity|].
  destruct (Ascii.ascii_dec c c); [exact IH | congruence].
Qed.

Lemma prefix_fold_left {A} (p : string) (f : A -> string) (xs : list A) :
  forall acc, String.prefix p acc = true ->
    String.prefix p (fold_left (fun acc x => acc +:+ f x) xs acc) = true.
Proof.
  induction xs as [|x xs IH]; intros acc H; simpl; [exact H|].
  apply IH. apply prefix_append. exact H.
Qed.

(** ** The order of float64 on values that are not NaN *)

Section FloatOrder.
Import Numpy.

Ltac cmp_cases :=
  repeat match goal with
    | |- context [(?a ?= ?b)%Z] => destruct (Z.compare_spec a b)
    | H : context [(?a ?= ?b)%Z] |- _ => destruct (Z.compare_spec a b)
    | |- context [(?a ?= ?b)%positive] => destruct (Pos.compare_spec a b)
    | H : context [(?a ?= ?b)%positive] |- _ => destruct (Pos.compare_spec a b)
    end.

Lemma SFcompare_swap (x y : float) :
  SFcompare y x = option_map CompOpp (SFcompare x y).
Proof.
  destruct x as [sx|sx| |sx mx ex], y as [sy|sy| |sy my ey]; simpl;
    try reflexivity;
    try (destruct sx; reflexivity);
    try (destruct sy; reflexivity);
    try (destruct sx, sy; reflexivity).
  change (Pos.compare_cont Eq) with Pos.compare.
  destruct sx, sy; try reflexivity;
    cmp_cases; simpl; subst; try reflexivity; lia.
Qed.

Lemma SFcompare_defined (x y : float) :
  isnan x = false -> isnan y = false -> exists c, SFcompare x y = Some c.
Proof.
  destruct x, y; simpl; intros; try discriminate; eauto.
Qed.

(** Without NaN, [x <= y] fails exactly when [y < x]. *)
Lemma fleb_false_fltb (x y : float) :
  isnan x = false -> isnan y = false ->
  fleb x y = false -> fltb y x = true.
Proof.
  intros Hx Hy. unfold fleb, fltb, SFleb, SFltb.
  rewrite (SFcompare_swap x y).
  destruct (SFcompare_defined x y Hx Hy) as [c ->].
  destruct c; simpl; congruence.
Qed.

Lemma fltb_fleb (x y : float) : fltb x y = true -> fleb x y = true.
Proof.
  unfold fleb, fltb, SFleb, SFltb.
  destruct (SFcompare x y) as [[]|]; congruence.
Qed.

Lemma fleb_refl (x : float) : isnan x = false -> fleb x x = true.
Proof.
  unfold fleb, SFleb. destruct x as [s|s| |s m e]; simpl; try discriminate; intros _;
    try (destruct s; reflexivity).
  change (Pos.compare_cont Eq) with Pos.compare.
  destruct s; rewrite Z.compare_refl, Pos.compare_refl; reflexivity.
Qed.

(** A comparison with NaN is false. *)
Lemma fleb_nan_r (x y : float) : isnan y = true -> fleb x y = false.
Proof. destruct y; try discriminate. intros _. destruct x; reflexivity. Qed.

Lemma fleb_nan_l (x y : float) : isnan x = true -> fleb x y = false.
Proof. destruct x; try discriminate. reflexivity. Qed.

Lemma fltb_nan_l (x y : float) : isnan x = true -> fltb x y = false.
Proof. destruct x; try discriminate. reflexivity. Qed.

Lemma fltb_nan_r (x y : float) : isnan y = true -> fltb x y = false.
Proof. destruct y; try discriminate. intros _. destruct x; reflexivity. Qed.

Lemma fleb_trans (x y z : float) :
  fleb x y = true -> fleb y z = true -> fleb x z = true.
Proof.
  unfold fleb, SFleb.
  destruct x as [sx|sx| |sx mx ex], y as [sy|sy| |sy my ey],
           z as [sz|sz| |sz mz ez]; simpl; try discriminate;
    repeat match goal with s : bool |- _ => destruct s end;
    simpl; try discriminate; try reflexivity.
  all: change (Pos.compare_cont Eq) with Pos.compare.
  all: cmp_cases; simpl; try discriminate; try reflexivity; subst; intros; lia.
Qed.

Lemma fltb_fleb_trans (x y z : float) :
  fltb x y = true -> fleb y z = true -> fltb x z = true.
Proof.
  unfold fleb, fltb, SFleb, SFltb.
  destruct x as [sx|sx| |sx mx ex], y as [sy|sy| |sy my ey],
           z as [sz|sz| |sz mz ez]; simpl; try discriminate;
    repeat match goal with s : bool |- _ => destruct s end;
    simpl; try discriminate; try reflexivity.
  all: change (Pos.compare_cont Eq) with Pos.compare.
  all: cmp_cases; simpl; try discriminate; try reflexivity; subst; intros; lia.
Qed.

End FloatOrder.

(** ** The similarity search *)

Section Argmax.
Import Numpy.

Lemma fleb_fltb_trans (x y z : float) :
  fleb x y = true -> fltb y z = true -> fltb x z = true.
Proof.
  unfold fleb, fltb, SFleb, SFltb.
  destruct x as [sx|sx| |sx mx ex], y as [sy|sy| |sy my ey],
           z as [sz|sz| |sz mz ez]; simpl; try discriminate;
    repeat match goal with s : bool |- _ => destruct s end;
    simpl; try discriminate; try reflexivity.
  all: change (Pos.compare_cont Eq) with Pos.compare.
  all: repeat match goal with
    | |- context [(?a ?= ?b)%Z] => destruct (Z.compare_spec a b)
    | |- context [(?a ?= ?b)%positive] => destruct (Pos.compare_spec a b)
    end; simpl; try discriminate; try reflexivity; subst; intros; lia.
Qed.

Lemma existsb_isnan_false (l : list float) :
  existsb isnan l = false <-> Forall (fun x => isnan x = false) l.
Proof.
  induction l as [|x l IH]; simpl.
  - split; [constructor | reflexivity].
  - rewrite orb_false_iff, IH. split.
    + intros [? ?]; constructor; assumption.
    + intros H; inversion H; subst; split; assumption.
Qed.

Lemma argmax_loop_spec (xs : list float) :
  forall (pre : list float) (mp : float) (idx : nat),
    pre !! idx = Some mp ->
    Forall (fun x => isnan x = false) pre ->
    (forall j x, pre !! j = Some x -> fleb x mp = true) ->
    (forall j x, j < idx -> pre !! j = Some x -> fltb x mp = true) ->
    argmax_spec (pre ++ xs) (argmax_loop mp idx (length pre) xs).
Proof.
  induction xs as [|x rest IH]; intros pre mp idx Hidx Hpre Hle Hlt.
  - simpl. rewrite app_nil_r. unfold argmax_spec.
    apply existsb_isnan_false in Hpre as ->.
    split; exists mp; auto.
  - simpl.
    assert (Hmp : isnan mp = false).
    { rewrite Forall_forall in Hpre. apply Hpre.
      eapply list_elem_of_lookup_2; eauto. }
    assert (Hlen : idx < length pre) by (eapply lookup_lt_Some; eauto).
    destruct (fleb x mp) eqn:Hx; simpl.
    + (* x <= mp: the maximum stays *)
      assert (Hxn : isnan x = false).
      { destruct (isnan x) eqn:Hn; [|reflexivity].
        rewrite (fleb_nan_l x mp Hn) in Hx. discriminate. }
      specialize (IH (pre ++ [x]) mp idx).
      rewrite length_app, <- app_assoc in IH. simpl in IH.
      replace (length pre + 1) with (S (length pre)) in IH by lia.
      apply IH.
      * rewrite lookup_app_l; auto.
      * apply Forall_app; split; auto.
      * intros j y Hj. apply lookup_app_Some in Hj as [Hj|[_ Hj]]; eauto.
        apply list_lookup_singleton_Some in Hj as [_ <-]. exact Hx.
      * intros j y Hji Hj. apply lookup_app_Some in Hj as [Hj|[Hge _]]; eauto.
        lia.
    + destruct (isnan x) eqn:Hxn.
      * (* the first NaN ends the scan *)
        unfold argmax_spec.
        assert (existsb isnan (pre ++ x :: rest) = true) as ->.
        { rewrite existsb_app. simpl. rewrite Hxn. apply orb_true_r. }
        exists x. split; [|split; auto].
        -- rewrite lookup_app_r by lia. rewrite Nat.sub_diag. reflexivity.
        -- intros j y Hj Hy. rewrite lookup_app_l in Hy by lia.
           rewrite Forall_forall in Hpre. apply Hpre.
           eapply list_elem_of_lookup_2; eauto.
      * (* mp < x: x is the new maximum *)
        pose proof (fleb_false_fltb x mp Hxn Hmp Hx) as Hgt.
        specialize (IH (pre ++ [x]) x (length pre)).
        rewrite length_app, <- app_assoc in IH. simpl in IH.
        replace (length pre + 1) with (S (length pre)) in IH by lia.
        apply IH.
        -- rewrite lookup_app_r by lia. rewrite Nat.sub_diag. reflexivity.
        -- apply Forall_app; split; auto.
        -- intros j y Hj. apply lookup_app_Some in Hj as [Hj|[_ Hj]].
           ++ apply fltb_fleb. eapply fleb_fltb_trans; eauto.
           ++ apply list_lookup_singleton_Some in Hj as [_ <-].
              apply fleb_refl; assumption.
        -- intros j y Hji Hj. apply lookup_app_Some in Hj as [Hj|[Hge _]]; [|lia].
           eapply fleb_fltb_trans; eauto.
Qed.

Lemma argmax_correct (x : float) (rest : list float) :
  exists r, argmax (x :: rest) = Returns r /\ argmax_spec (x :: rest) r.
Proof.
  unfold argmax. eexists; split; [reflexivity|].
  destruct (isnan x) eqn:Hx.
  - unfold argmax_spec. simpl. rewrite Hx. simpl.
    exists x. repeat split; auto. intros; lia.
  - apply (argmax_loop_spec rest [x] x 0).
    + reflexivity.
    + constructor; auto.
    + intros j y Hj. apply list_lookup_singleton_Some in Hj as [_ <-].
      apply fleb_refl; assumption.
    + intros; lia.
Qed.

End Argmax.

Section SimilarityResolver.
Import Numpy.

Lemma row_length_uniform (db : list (list float)) (d : nat) :
  db <> [] -> Forall (fun row => length row = d) db -> row_length db = Some d.
Proof.
  destruct db as [|r rest]; [congruence|]. intros _ H.
  inversion H as [|? ? Hr Hrest]; subst. simpl.
  assert (forallb (fun r' => Nat.eqb (length r') (length r)) rest = true) as ->.
  { apply forallb_forall. intros r' Hin. apply Nat.eqb_eq.
    rewrite Forall_forall in Hrest. apply Hrest. apply list_elem_of_In. exact Hin. }
  reflexivity.
Qed.

End SimilarityResolver.

(** ** The structured-query executor *)

Section RunSql.
Context {W value connection cursor : Type}.
Variable E : @Sqlite.env W value connection cursor.

(** The handler turns every outcome of the [try] block into a value. *)
Lemma try_except_returns {A} (body : M W A) (handler : exn -> A) (w : W) :
  exists a w', try_except body (fun e => ret (handler e)) w = (Returns a, w').
Proof.
  unfold try_except, ret. destruct (body w) as [[a|e] w']; eauto.
Qed.

Lemma run_sql_error_text (query : string) (w w' : W) (e : exn) :
  Sqlite.run_sql_try E query w = (Raises e, w') ->
  Sqlite.run_sql E query w
  = (Returns (Sqlite.Text ("Error executing query: " +:+ exn_str e)), w').
Proof. unfold Sqlite.run_sql, try_except. intros ->. reflexivity. Qed.

End RunSql.

(** C2. [run_sql] never propagates an exception: on every query and
    every behaviour of the engine it returns a value. When a step of the
    [try] block raises (opening the store and executing the query are
    spelled out), the value is the text "Error executing query: "
    followed by the exception; when the query executes and has a
    description, the value is the fetched rows; when it executes and has
    none, the change is committed and the value is the fixed text
    "Query executed successfully.". *)
Theorem run_sql_never_raises {W value connection cursor : Type}
    (E : @Sqlite.env W value connection cursor) (query : string) (w : W) :
  (exists r w', Sqlite.run_sql E query w = (Returns r, w'))
  /\ (forall e w',
        Sqlite.run_sql_try E query w = (Raises e, w') ->
        Sqlite.run_sql E query w
        = (Returns (Sqlite.Text ("Error executing query: " +:+ exn_str e)), w'))
  /\ (forall e w1,
        Sqlite.sqlite3_connect E Sqlite.DB_PATH w = (Raises e, w1) ->
        Sqlite.run_sql E query w
        = (Returns (Sqlite.Text ("Error executing query: " +:+ exn_str e)), w1))
  /\ (forall conn w1 cur w2 e w3,
        Sqlite.sqlite3_connect E Sqlite.DB_PATH w = (Returns conn, w1) ->
        Sqlite.conn_cursor E conn w1 = (Returns cur, w2) ->
        Sqlite.cursor_execute E cur query w2 = (Raises e, w3) ->
        Sqlite.run_sql E query w
        = (Returns (Sqlite.Text ("Error executing query: " +:+ exn_str e)), w3))
  /\ (forall conn w1 cur w2 w3 d w4,
        Sqlite.sqlite3_connect E Sqlite.DB_PATH w = (Returns conn, w1) ->
        Sqlite.conn_cursor E conn w1 = (Returns cur, w2) ->
        Sqlite.cursor_execute E cur query w2 = (Returns tt, w3) ->
        Sqlite.cursor_description E cur w3 = (Returns d, w4) ->
        (Sqlite.truthy d = true ->
         forall rs w5 w6,
           Sqlite.cursor_fetchall E cur w4 = (Returns rs, w5) ->
           Sqlite.conn_close E conn w5 = (Returns tt, w6) ->
           Sqlite.run_sql E query w = (Returns (Sqlite.Rows rs), w6))
        /\ (Sqlite.truthy d = false ->
            forall w5 w6,
              Sqlite.conn_commit E conn w4 = (Returns tt, w5) ->
              Sqlite.conn_close E conn w5 = (Returns tt, w6) ->
              Sqlite.run_sql E query w
              = (Returns (Sqlite.Text "Query executed successfully."), w6))).
Proof.
  split; [apply try_except_returns|].
  split; [intros e w'; apply run_sql_error_text|].
  split; [|split].
  - intros e w1 H. apply run_sql_error_text.
    unfold Sqlite.run_sql_try, bind. rewrite H. reflexivity.
  - intros conn w1 cur w2 e w3 H1 H2 H3. apply run_sql_error_text.
    unfold Sqlite.run_sql_try, bind. rewrite H1, H2, H3. reflexivity.
  - intros conn w1 cur w2 w3 d w4 H1 H2 H3 H4. split.
    + intros Hd rs w5 w6 H5 H6.
      unfold Sqlite.run_sql, Sqlite.run_sql_try, try_except, bind, ret.
      rewrite H1, H2, H3, H4, Hd, H5, H6. reflexivity.
    + intros Hd w5 w6 H5 H6.
      unfold Sqlite.run_sql, Sqlite.run_sql_try, try_except, bind, ret.
      rewrite H1, H2, H3, H4, Hd, H5, H6. reflexivity.
Qed.

Lemma run_sql_never_raises_witness :
  Sqlite.run_sql (mock_sqlite model_answers) "SELEC * FROM listings" []
  = (Returns (Sqlite.Text "Error executing query: syntax error"), [])
  /\ Sqlite.run_sql (mock_sqlite model_answers) "SELECT * FROM listings" []
     = (Returns (Sqlite.Rows [["1"; "18 West 38th Street"]; ["2"; "9 Main Street"]]),
        ["SELECT * FROM listings"])
  /\ Sqlite.run_sql (mock_sqlite model_answers) "UPDATE listings SET id = 3" []
     = (Returns (Sqlite.Text "Query executed successfully."),
        ["UPDATE listings SET id = 3"]).
Proof.
  split; [|split].
  - apply (proj1 (proj2 (proj2 (proj2
             (run_sql_never_raises (mock_sqlite model_answers)
                "SELEC * FROM listings" [])))) tt [] tt []
             (Exn "OperationalError" "syntax error") []);
      reflexivity.
  - apply (proj1 (proj2 (proj2 (proj2 (proj2
             (run_sql_never_raises (mock_sqlite model_answers)
                "SELECT * FROM listings" []))))
             tt [] tt [] ["SELECT * FROM listings"]
             (Some ["id"; "address"]) ["SELECT * FROM listings"]
             eq_refl eq_refl eq_refl eq_refl) eq_refl
             [["1"; "18 West 38th Street"]; ["2"; "9 Main Street"]]
             ["SELECT * FROM listings"] ["SELECT * FROM listings"]);
      reflexivity.
  - apply (proj2 (proj2 (proj2 (proj2 (proj2
             (run_sql_never_raises (mock_sqlite model_answers)
                "UPDATE listings SET id = 3" []))))
             tt [] tt [] ["UPDATE listings SET id = 3"]
             None ["UPDATE listings SET id = 3"]
             eq_refl eq_refl eq_refl eq_refl) eq_refl
             ["UPDATE listings SET id = 3"] ["UPDATE listings SET id = 3"]);
      reflexivity.
Defined.

(** ** The schema introspector *)

Section Introspection.

Lemma sqlite_schema_header {W value connection cursor : Type}
    (E : @Sqlite.env W value connection cursor) (db_path s : string) (w w' : W) :
  Sqlite.get_db_schema E db_path w = (Returns s, w') ->
  String.prefix sqlite_header s = true.
Proof.
  unfold Sqlite.get_db_schema. intros H.
  apply bind_returns in H as (conn & w1 & _ & H).
  apply bind_returns in H as (cur & w2 & _ & H).
  apply bind_returns in H as ([] & w3 & _ & H).
  apply bind_returns in H as (tables & w4 & _ & H).
  apply bind_returns in H as (schema & w5 & Hloop & H).
  apply bind_returns in H as ([] & w6 & _ & H).
  unfold ret in H. injection H as <- _.
  revert Hloop.
  apply (fold_m_invariant (fun s => String.prefix sqlite_header s = true));
    [|apply prefix_refl].
  intros acc x v acc' v' Hacc Hbody.
  apply bind_returns in Hbody as (table & v1 & _ & Hbody).
  apply bind_returns in Hbody as ([] & v2 & _ & Hbody).
  apply bind_returns in Hbody as (columns & v3 & _ & Hbody).
  revert Hbody. unfold Sqlite.schema_columns.
  apply (fold_m_invariant (fun s => String.prefix sqlite_header s = true)).
  - intros a col u a' u' Ha Hcol.
    apply bind_returns in Hcol as (name & u1 & _ & Hcol).
    apply bind_returns in Hcol as (type & u2 & _ & Hcol).
    unfold ret in Hcol. injection Hcol as <- _.
    repeat apply prefix_append. exact Ha.
  - repeat apply prefix_append. exact Hacc.
Qed.

Lemma kuzu_schema_header {W cell database connection query_result : Type}
    (E : @Kuzu.env W cell database connection query_result)
    (db_path s : string) (w w' : W) :
  Kuzu.get_db_schema E db_path w = (Returns s, w') ->
  String.prefix kuzu_header s = true.
Proof.
  unfold Kuzu.get_db_schema. intros H.
  apply bind_returns in H as (db & w1 & _ & H).
  apply bind_returns in H as (conn & w2 & _ & H).
  apply bind_returns in H as (node_tables & w3 & _ & H).
  apply bind_returns in H as (schema & w4 & Hloop & H).
  apply bind_returns in H as (rel_tables & w5 & _ & H).
  unfold ret in H. injection H as <- _.
  apply (prefix_fold_left kuzu_header (fun t => "- **" +:+ t +:+ "**" +:+ nl)).
  repeat apply prefix_append.
  revert Hloop.
  apply (fold_m_invariant (fun s => String.prefix kuzu_header s = true)).
  - intros acc x v acc' v' Hacc Hbody.
    apply bind_returns in Hbody as (props & v1 & _ & Hbody).
    unfold ret in Hbody. injection Hbody as <- _.
    apply (prefix_fold_left kuzu_header
             (fun p => "  - " +:+ fst p +:+ " (" +:+ snd p +:+ ")" +:+ nl)).
    repeat apply prefix_append. exact Hacc.
  - apply prefix_append. apply prefix_refl.
Qed.

End Introspection.

(** C9, as amended. [get_db_schema] has no failure handling, in the row
    store and in the graph store version alike: an exception raised while
    the store is opened, or by the first introspection call, reaches the
    caller unchanged; and a text that it returns is the schema rendering,
    which begins with the header line, never a description of a
    failure. *)
Theorem get_db_schema_propagates_failures :
  (forall (W value connection cursor : Type)
          (E : @Sqlite.env W value connection cursor) (db_path : string) (w : W),
      (forall e w1,
          Sqlite.sqlite3_connect E db_path w = (Raises e, w1) ->
          Sqlite.get_db_schema E db_path w = (Raises e, w1))
      /\ (forall conn w1 cur w2 e w3,
            Sqlite.sqlite3_connect E db_path w = (Returns conn, w1) ->
            Sqlite.conn_cursor E conn w1 = (Returns cur, w2) ->
            Sqlite.cursor_execute E cur
              "SELECT name FROM sqlite_master WHERE type='table';" w2
            = (Raises e, w3) ->
            Sqlite.get_db_schema E db_path w = (Raises e, w3))
      /\ (forall s w',
            Sqlite.get_db_schema E db_path w = (Returns s, w') ->
            String.prefix sqlite_header s = true))
  /\ (forall (W cell database connection query_result : Type)
             (E : @Kuzu.env W cell database connection query_result)
             (db_path : string) (w : W),
        (forall e w1,
            Kuzu.kuzu_Database E db_path false w = (Raises e, w1) ->
            Kuzu.get_db_schema E db_path w = (Raises e, w1))
        /\ (forall db w1 conn w2 e w3,
              Kuzu.kuzu_Database E db_path false w = (Returns db, w1) ->
              Kuzu.kuzu_Connection E db w1 = (Returns conn, w2) ->
              Kuzu.get_node_table_names E conn w2 = (Raises e, w3) ->
              Kuzu.get_db_schema E db_path w = (Raises e, w3))
        /\ (forall s w',
              Kuzu.get_db_schema E db_path w = (Returns s, w') ->
              String.prefix kuzu_header s = true)).
Proof.
  split.
  - intros W value connection cursor E db_path w. repeat split.
    + intros e w1 H. unfold Sqlite.get_db_schema.
      apply bind_raises_first. exact H.
    + intros conn w1 cur w2 e w3 H1 H2 H3. unfold Sqlite.get_db_schema.
      rewrite (bind_step _ _ _ _ _ H1), (bind_step _ _ _ _ _ H2).
      apply bind_raises_first. exact H3.
    + intros s w'. apply sqlite_schema_header.
  - intros W cell database connection query_result E db_path w. repeat split.
    + intros e w1 H. unfold Kuzu.get_db_schema.
      apply bind_raises_first. exact H.
    + intros db w1 conn w2 e w3 H1 H2 H3. unfold Kuzu.get_db_schema.
      rewrite (bind_step _ _ _ _ _ H1), (bind_step _ _ _ _ _ H2).
      apply bind_raises_first. exact H3.
    + intros s w'. apply kuzu_schema_header.
Qed.

Lemma get_db_schema_propagates_failures_witness :
  Sqlite.get_db_schema mock_sqlite_unreachable Sqlite.DB_PATH []
  = (Raises (Exn "OperationalError" "unable to open database file"), [])
  /\ String.prefix sqlite_header
       ("Database schema:" +:+ nl +:+ "Table 'listings':" +:+ nl
        +:+ "  - id (INTEGER)" +:+ nl +:+ "  - address (TEXT)" +:+ nl) = true
  /\ Kuzu.get_db_schema
       (mock_kuzu (llm_says "GENERAL_QUERY") false (Returns []) model_answers)
       Kuzu.DB_PATH []
     = (Raises (Exn "RuntimeError" "IO exception: Could not set lock on file"), []).
Proof.
  split; [|split].
  - apply (proj1 (proj1 get_db_schema_propagates_failures
                    (list string) string unit unit
                    mock_sqlite_unreachable Sqlite.DB_PATH [])).
    reflexivity.
  - apply (proj2 (proj2 (proj1 get_db_schema_propagates_failures
                    (list string) string unit unit
                    (mock_sqlite model_answers) Sqlite.DB_PATH []))
             _ ["PRAGMA table_info(listings);";
                "SELECT name FROM sqlite_master WHERE type='table';"]).
    vm_compute. reflexivity.
  - apply (proj1 (proj2 get_db_schema_propagates_failures
                    (list string) string unit unit (string * list (string * string))%type
                    (mock_kuzu (llm_says "GENERAL_QUERY") false (Returns []) model_answers)
                    Kuzu.DB_PATH [])).
    reflexivity.
Defined.

(** C9 as stated fails when the row store cannot be opened: the
    exception of [sqlite3.connect] leaves [get_db_schema]; no text is
    returned. *)
Lemma get_db_schema_raises_counterexample :
  Sqlite.get_db_schema mock_sqlite_unreachable Sqlite.DB_PATH []
  = (Raises (Exn "OperationalError" "unable to open database file"), [])
  /\ ~ exists s w',
         Sqlite.get_db_schema mock_sqlite_unreachable Sqlite.DB_PATH []
         = (Returns s, w').
Proof.
  split; [reflexivity|]. intros (s & w' & H). vm_compute in H. discriminate.
Qed.

(** ** The tool dispatcher *)

Section Dispatcher.
Context {W cell database connection query_result : Type}.
Variable E : @Kuzu.env W cell database connection query_result.

Lemma lift_returns {A} (o : outcome A) (w w' : W) (a : A) :
  lift o w = (Returns a, w') -> o = Returns a /\ w' = w.
Proof. unfold lift. intros H. injection H as -> ->. auto. Qed.

(** Once the router has answered and the store is open, the tool is its
    [try] statement. *)
Lemma tool_after_open (question r : string) (w w1 w2 w3 : W)
    (db : database) (conn : connection) :
  Kuzu.logic_llm_invoke E (Kuzu.router_prompt question) w = (Returns r, w1) ->
  Kuzu.kuzu_Database E Kuzu.DB_PATH true w1 = (Returns db, w2) ->
  Kuzu.kuzu_Connection E db w2 = (Returns conn, w3) ->
  Kuzu.query_real_estate_database E question w
  = try_except
      (if contains "ADDRESS_SEARCH" r then Kuzu.address_search E conn question
       else if contains "GENERAL_QUERY" r then Kuzu.general_query E conn question
       else if contains "NORMAL_QUERY" r then Kuzu.normal_query E question
       else ret None)
      (fun e => ret (tool_error e)) w3.
Proof.
  intros H1 H2 H3. unfold Kuzu.query_real_estate_database.
  rewrite (bind_step _ _ _ _ _ H1), (bind_step _ _ _ _ _ H2),
    (bind_step _ _ _ _ _ H3).
  reflexivity.
Qed.

(** Every exception raised inside the [try] statement becomes a text. *)
Lemma tool_catches_inside_try (question r : string) (w w1 w2 w3 : W)
    (db : database) (conn : connection) :
  Kuzu.logic_llm_invoke E (Kuzu.router_prompt question) w = (Returns r, w1) ->
  Kuzu.kuzu_Database E Kuzu.DB_PATH true w1 = (Returns db, w2) ->
  Kuzu.kuzu_Connection E db w2 = (Returns conn, w3) ->
  exists out w', Kuzu.query_real_estate_database E question w = (Returns out, w').
Proof.
  intros H1 H2 H3. rewrite (tool_after_open question r w w1 w2 w3 db conn H1 H2 H3).
  apply try_except_returns.
Qed.

(** The calls before the [try] statement are not covered by it. *)
Lemma tool_router_failure_propagates (question : string) (w w1 : W) (e : exn) :
  Kuzu.logic_llm_invoke E (Kuzu.router_prompt question) w = (Raises e, w1) ->
  Kuzu.query_real_estate_database E question w = (Raises e, w1).
Proof.
  intros H. unfold Kuzu.query_real_estate_database.
  apply bind_raises_first. exact H.
Qed.

Lemma tool_store_open_failure_propagates (question r : string) (w w1 w2 : W)
    (e : exn) :
  Kuzu.logic_llm_invoke E (Kuzu.router_prompt question) w = (Returns r, w1) ->
  Kuzu.kuzu_Database E Kuzu.DB_PATH true w1 = (Raises e, w2) ->
  Kuzu.query_real_estate_database E question w = (Raises e, w2).
Proof.
  intros H1 H2. unfold Kuzu.query_real_estate_database.
  rewrite (bind_step _ _ _ _ _ H1). apply bind_raises_first. exact H2.
Qed.

(** The run of the address branch, when it returns: either the listing
    table is empty, or the table read by the first query has stored
    embeddings that are loaded as a matrix, the embedding provider
    answers for the question, [np.argmax] chooses an index among the
    similarities, the address at that index of the table is the filter of
    the second query, and the frame of that query is rendered without
    the column of the embeddings. *)
Lemma address_search_trace (conn : connection) (question : string)
    (w w' : W) (out : option string) :
  Kuzu.address_search E conn question w = (Returns out, w') ->
  exists table w0 addr_df w1,
    Kuzu.conn_execute E conn
      "MATCH (l:Listing) RETURN l.address, l.address_embedding" [] w
    = (Returns table, w0)
    /\ Kuzu.get_as_df E table w0 = (Returns addr_df, w1)
    /\ ((Kuzu.empty addr_df = true /\ w' = w1 /\ out = Some "No listings found.")
        \/ (exists stored db q w2 best address res w3 result_df md,
              Kuzu.empty addr_df = false
              /\ Kuzu.getitem addr_df Kuzu.embedding_column = Returns stored
              /\ Kuzu.map_outcome (Kuzu.json_loads E) stored = Returns db
              /\ Kuzu.embeddings_create E Kuzu.EMBEDDING_MODEL question w1
                 = (Returns q, w2)
              /\ Numpy.cosine_similarities (Kuzu.numpy E) db q
                 = Returns (Numpy.similarities (Kuzu.numpy E) db q)
              /\ Numpy.argmax (Numpy.similarities (Kuzu.numpy E) db q)
                 = Returns best
              /\ Kuzu.iloc_item addr_df best Kuzu.address_column = Returns address
              /\ Kuzu.conn_execute E conn
                   "MATCH (l:Listing) WHERE l.address = $address_filter RETURN l.*"
                   [("address_filter", address)] w2
                 = (Returns res, w3)
              /\ Kuzu.get_as_df E res w3 = (Returns result_df, w')
              /\ Kuzu.to_markdown E (Kuzu.drop_embedding_column result_df)
                 = Returns md
              /\ out = Some md)).
Proof.
  unfold Kuzu.address_search. intros H.
  apply bind_returns in H as (res & wa & Hq & H).
  apply bind_returns in H as (addr_df & wb & Hdf & H).
  exists res, wa, addr_df, wb. split; [exact Hq|]. split; [exact Hdf|].
  destruct (Kuzu.empty addr_df) eqn:Hempty.
  - left. unfold ret in H. injection H as <- <-. auto.
  - right.
    apply bind_returns in H as (stored & w1 & Hs & H).
    apply lift_returns in Hs as [Hs ->].
    apply bind_returns in H as (loaded & w2 & Hl & H).
    apply lift_returns in Hl as [Hl ->].
    apply bind_returns in H as (db & w3 & Ha & H).
    apply lift_returns in Ha as [Ha ->].
    apply bind_returns in H as (q & w4 & Hemb & H).
    apply bind_returns in H as (sims & w5 & Hc & H).
    apply lift_returns in Hc as [Hc ->].
    apply bind_returns in H as (best & w6 & Hb & H).
    apply lift_returns in Hb as [Hb ->].
    apply bind_returns in H as (address & w7 & Hi & H).
    apply lift_returns in Hi as [Hi ->].
    apply bind_returns in H as (result & w8 & Hres & H).
    apply bind_returns in H as (result_df & w9 & Hrdf & H).
    apply bind_returns in H as (md & w10 & Hmd & H).
    apply lift_returns in Hmd as [Hmd ->].
    unfold ret in H. injection H as <- <-.
    assert (db = loaded) as ->.
    { unfold Numpy.array in Ha. destruct (Numpy.row_length loaded);
        congruence. }
    assert (sims = Numpy.similarities (Kuzu.numpy E) loaded q) as ->.
    { unfold Numpy.cosine_similarities in Hc.
      destruct (Numpy.row_length loaded); [|discriminate].
      destruct (Nat.eqb _ _); congruence. }
    exists stored, loaded, q, w4, best, address, result, w8, result_df, md.
    repeat split; auto.
Qed.

(** What the address branch returns, when it returns: the message for an
    empty table, or the rendering of the frame of the query filtered to
    the address that stands, in the listing table, at the index chosen by
    [np.argmax] among the similarities of the stored embeddings. *)
Lemma address_search_returns (conn : connection) (question : string)
    (w w' : W) (out : option string) :
  Kuzu.address_search E conn question w = (Returns out, w') ->
  (exists res wa addr_df,
      Kuzu.conn_execute E conn
        "MATCH (l:Listing) RETURN l.address, l.address_embedding" [] w
      = (Returns res, wa)
      /\ Kuzu.get_as_df E res wa = (Returns addr_df, w')
      /\ Kuzu.empty addr_df = true
      /\ out = Some "No listings found.")
  \/ (exists addr_df stored db q best address wa res wb result_df md,
        Kuzu.getitem addr_df Kuzu.embedding_column = Returns stored
        /\ Kuzu.map_outcome (Kuzu.json_loads E) stored = Returns db
        /\ Numpy.cosine_similarities (Kuzu.numpy E) db q
           = Returns (Numpy.similarities (Kuzu.numpy E) db q)
        /\ Numpy.argmax (Numpy.similarities (Kuzu.numpy E) db q) = Returns best
        /\ Kuzu.iloc_item addr_df best Kuzu.address_column = Returns address
        /\ Kuzu.conn_execute E conn
             "MATCH (l:Listing) WHERE l.address = $address_filter RETURN l.*"
             [("address_filter", address)] wa
           = (Returns res, wb)
        /\ Kuzu.get_as_df E res wb = (Returns result_df, w')
        /\ Kuzu.to_markdown E (Kuzu.drop_embedding_column result_df) = Returns md
        /\ out = Some md).
Proof.
  intros H.
  destruct (address_search_trace conn question w w' out H)
    as (table & w0 & addr_df & w1 & Hq & Hdf
        & [(Hempty & -> & ->)
          |(stored & db & q & w2 & best & address & res & w3 & result_df & md
            & _ & Hs & Hl & _ & Hc & Hb & Hi & Hres & Hrdf & Hmd & ->)]).
  - left. exists table, w0, addr_df. auto.
  - right.
    exists addr_df, stored, db, q, best, address, w2, res, w3, result_df, md.
    repeat split; auto.
Qed.

End Dispatcher.

Section Frames.
Context {cell : Type}.

Lemma drop_embedding_column_filter (df : Kuzu.dataframe cell) :
  Kuzu.drop_embedding_column df
  = List.filter (fun col => negb (String.eqb (fst col) Kuzu.embedding_column)) df.
Proof.
  unfold Kuzu.drop_embedding_column, Kuzu.drop.
  destruct (Kuzu.has_column df Kuzu.embedding_column) eqn:H; [reflexivity|].
  symmetry. apply forallb_filter_id. apply forallb_forall. intros col Hin.
  unfold Kuzu.has_column, Kuzu.columns in H.
  destruct (String.eqb (fst col) Kuzu.embedding_column) eqn:Hc; [|reflexivity].
  exfalso. apply String.eqb_eq in Hc.
  assert (Hex : existsb (String.eqb Kuzu.embedding_column) (map fst df) = true).
  { apply existsb_exists. exists (fst col). split.
    - apply in_map. exact Hin.
    - rewrite Hc. apply String.eqb_refl. }
  congruence.
Qed.

Lemma drop_embedding_column_absent (df : Kuzu.dataframe cell) :
  Kuzu.has_column (Kuzu.drop_embedding_column df) Kuzu.embedding_column = false.
Proof.
  rewrite drop_embedding_column_filter. unfold Kuzu.has_column, Kuzu.columns.
  destruct (existsb _ _) eqn:H; [|reflexivity]. exfalso.
  apply existsb_exists in H as (label & Hin & Heq).
  apply in_map_iff in Hin as (col & <- & Hcol).
  apply filter_In in Hcol as [_ Hne].
  apply String.eqb_eq in Heq. rewrite <- Heq, String.eqb_refl in Hne.
  discriminate.
Qed.

End Frames.

(** ** The similarity resolver in the address branch *)

Lemma argmax_returns_spec (l : list Numpy.float) (r : nat) :
  Numpy.argmax l = Returns r -> Numpy.argmax_spec l r.
Proof.
  destruct l as [|x rest]; [discriminate|]. intros H.
  destruct (argmax_correct x rest) as (r' & Hr & Hspec).
  rewrite H in Hr. injection Hr as ->. exact Hspec.
Qed.

Lemma argmax_in_bounds (l : list Numpy.float) (r : nat) :
  Numpy.argmax l = Returns r -> r < length l.
Proof.
  intros H. apply argmax_returns_spec in H. unfold Numpy.argmax_spec in H.
  destruct (existsb Numpy.isnan l).
  - destruct H as (m & Hm & _). eapply lookup_lt_Some; eauto.
  - destruct H as [(m & Hm & _) _]. eapply lookup_lt_Some; eauto.
Qed.

Lemma similarities_length (L : Numpy.linalg) (db : list (list Numpy.float))
    (q : list Numpy.float) :
  length (Numpy.similarities L db q) = length db.
Proof. unfold Numpy.similarities. rewrite length_map, length_seq. reflexivity. Qed.

(** C1, as amended. The scores are the float64 cosine similarities as
    numpy computes them: entry by entry, the dot product as [np.dot]
    rounds it divided by the product of the two norms as
    [np.linalg.norm] rounds them, whatever the BLAS behind them. For every
    non-empty table of embeddings of one length and a question embedding
    of that length, the shape checks of the ADDRESS_SEARCH branch pass,
    there is one score per candidate, and [np.argmax] selects a candidate
    of the table: the first one whose score is NaN when there is one, and
    otherwise one that maximizes the score, the first of them in table
    order. Whenever the branch returns, the table is the frame of its
    first query; unless that frame is empty, the scores are those of the
    embeddings stored in it against the embedding that the provider
    returned for the question, and the address at the selected index of
    that frame is the filter of the targeted query. For the candidates
    [1,0] and [0,1] and the question embedding [0.9,0.1], on a BLAS that
    adds from the left, the first candidate is selected. *)
Theorem similarity_resolver_selects_argmax :
  (forall (L : Numpy.linalg) (db : list (list Numpy.float)) (q : list Numpy.float),
      db <> [] ->
      Forall (fun row => length row = length q) db ->
      Numpy.array db = Returns db /\
      Numpy.cosine_similarities L db q = Returns (Numpy.similarities L db q) /\
      length (Numpy.similarities L db q) = length db /\
      exists best,
        Numpy.argmax (Numpy.similarities L db q) = Returns best /\
        best < length db /\
        Numpy.argmax_spec (Numpy.similarities L db q) best)
  /\ (forall (W cell database connection query_result : Type)
             (E : @Kuzu.env W cell database connection query_result)
             (conn : connection) (question : string) (w w' : W)
             (out : option string),
        Kuzu.address_search E conn question w = (Returns out, w') ->
        exists table w0 addr_df w1,
          Kuzu.conn_execute E conn
            "MATCH (l:Listing) RETURN l.address, l.address_embedding" [] w
          = (Returns table, w0)
          /\ Kuzu.get_as_df E table w0 = (Returns addr_df, w1)
          /\ ((Kuzu.empty addr_df = true /\ out = Some "No listings found.")
              \/ exists stored db q w2 best address res w3,
                   Kuzu.empty addr_df = false
                   /\ Kuzu.getitem addr_df Kuzu.embedding_column = Returns stored
                   /\ Kuzu.map_outcome (Kuzu.json_loads E) stored = Returns db
                   /\ Kuzu.embeddings_create E Kuzu.EMBEDDING_MODEL question w1
                      = (Returns q, w2)
                   /\ Numpy.argmax (Numpy.similarities (Kuzu.numpy E) db q)
                      = Returns best
                   /\ Numpy.argmax_spec (Numpy.similarities (Kuzu.numpy E) db q) best
                   /\ Kuzu.iloc_item addr_df best Kuzu.address_column
                      = Returns address
                   /\ Kuzu.conn_execute E conn
                        "MATCH (l:Listing) WHERE l.address = $address_filter RETURN l.*"
                        [("address_filter", address)] w2
                      = (Returns res, w3)))
  /\ Numpy.argmax (Numpy.similarities in_order two_candidates near_first)
     = Returns 0.
Proof.
  split; [|split; [|vm_compute; reflexivity]].
  - intros L db q Hne Hshape.
    pose proof (row_length_uniform db (length q) Hne Hshape) as Hrl.
    unfold Numpy.array, Numpy.cosine_similarities. rewrite Hrl, Nat.eqb_refl.
    split; [reflexivity|]. split; [reflexivity|].
    split; [apply similarities_length|].
    destruct (Numpy.similarities L db q) as [|s rest] eqn:Hs.
    { apply (f_equal (@length _)) in Hs. rewrite similarities_length in Hs.
      destruct db; [congruence | discriminate Hs]. }
    destruct (argmax_correct s rest) as (best & Hbest & Hspec).
    exists best. split; [exact Hbest|]. split; [|exact Hspec].
    apply argmax_in_bounds in Hbest.
    rewrite <- (similarities_length L db q), Hs. exact Hbest.
  - intros W cell database connection query_result E conn question w w' out H.
    destruct (address_search_trace E conn question w w' out H)
      as (table & w0 & addr_df & w1 & Hq & Hdf
          & [(Hempty & _ & ->)
            |(stored & db & q & w2 & best & address & res & w3 & result_df & md
              & Hempty & Hs & Hl & Hemb & _ & Hb & Hi & Hres & _ & _ & _)]).
    + exists table, w0, addr_df, w1. auto.
    + exists table, w0, addr_df, w1. split; [exact Hq|]. split; [exact Hdf|].
      right. exists stored, db, q, w2, best, address, res, w3.
      repeat split; auto. apply argmax_returns_spec. exact Hb.
Qed.

Lemma similarity_resolver_selects_argmax_witness :
  two_candidates <> [] /\
  Forall (fun row => length row = length near_first) two_candidates /\
  exists best,
    Numpy.argmax (Numpy.similarities in_order two_candidates near_first)
    = Returns best /\
    best < length two_candidates /\
    Numpy.argmax_spec (Numpy.similarities in_order two_candidates near_first) best.
Proof.
  assert (Hne : two_candidates <> []) by discriminate.
  assert (Hshape : Forall (fun row => length row = length near_first) two_candidates)
    by (repeat constructor).
  split; [exact Hne|]. split; [exact Hshape|].
  exact (proj2 (proj2 (proj2 (proj1 similarity_resolver_selects_argmax
                                in_order two_candidates near_first Hne Hshape)))).
Defined.

(** C1 as stated fails on a table that holds a zero vector: its cosine
    similarity is 0/0, a NaN, which [np.argmax] takes as maximal, while
    the first candidate has similarity 1. *)
Lemma similarity_resolver_zero_vector_counterexample :
  with_zero_vector <> [] /\
  Forall (fun row => length row = length unit_question) with_zero_vector /\
  Numpy.argmax (Numpy.similarities in_order with_zero_vector unit_question)
  = Returns 1 /\
  ~ Numpy.maximizes (Numpy.similarities in_order with_zero_vector unit_question) 1.
Proof.
  split; [discriminate|]. split; [repeat constructor|].
  split; [vm_compute; reflexivity|].
  intros [m [Hm Hall]].
  specialize (Hall 0 (Numpy.of_Z 1)).
  vm_compute in Hm. injection Hm as <-.
  assert (H : Numpy.fleb (Numpy.of_Z 1) S754_nan = true)
    by (apply Hall; vm_compute; reflexivity).
  vm_compute in H. discriminate.
Qed.

(** C3 at a failing input. The router call and the opening of the store
    stand before the [try] statement of the tool: when the provider of
    the language model is down, or the store cannot be opened, the
    exception leaves the tool, leaves [call_tool], and ends the run of the
    agent graph. *)
Theorem dispatcher_failure_before_try_propagates :
  Kuzu.query_real_estate_database
    (mock_kuzu llm_down true (Returns near_first) model_answers)
    address_question []
  = (Raises (Exn "APIConnectionError" "Connection error."), [])
  /\ Kuzu.query_real_estate_database
       (mock_kuzu (llm_says "ADDRESS_SEARCH") false (Returns near_first) model_answers)
       address_question []
     = (Raises (Exn "RuntimeError" "IO exception: Could not set lock on file"), [])
  /\ Graph.run_status
       (fst (kuzu_app
               (mock_kuzu llm_down true (Returns near_first)
                  (model_always_calls "query_real_estate_database" "question"
                     address_question))
               [HumanMessage address_question] 10 []))
     = Graph.Failed (Exn "APIConnectionError" "Connection error.").
Proof. repeat split; vm_compute; reflexivity. Qed.

(** C4. When the answer of the router holds none of the three tokens,
    no branch of the tool matches: the tool never returns a text, be it
    an answer or an error message, and once the store is open it returns
    [None], which [call_tool] turns into the content "None". *)
Theorem dispatcher_no_branch_returns_none
    {W cell database connection query_result : Type}
    (E : @Kuzu.env W cell database connection query_result)
    (question r : string) (w w1 : W) :
  Kuzu.logic_llm_invoke E (Kuzu.router_prompt question) w = (Returns r, w1) ->
  contains "ADDRESS_SEARCH" r = false ->
  contains "GENERAL_QUERY" r = false ->
  contains "NORMAL_QUERY" r = false ->
  (forall db w2 conn w3,
      Kuzu.kuzu_Database E Kuzu.DB_PATH true w1 = (Returns db, w2) ->
      Kuzu.kuzu_Connection E db w2 = (Returns conn, w3) ->
      Kuzu.query_real_estate_database E question w = (Returns None, w3))
  /\ (forall text w',
        Kuzu.query_real_estate_database E question w <> (Returns (Some text), w'))
  /\ Kuzu.str_result None = "None".
Proof.
  intros Hr Ha Hg Hn.
  assert (Hopen : forall db w2 conn w3,
             Kuzu.kuzu_Database E Kuzu.DB_PATH true w1 = (Returns db, w2) ->
             Kuzu.kuzu_Connection E db w2 = (Returns conn, w3) ->
             Kuzu.query_real_estate_database E question w = (Returns None, w3)).
  { intros db w2 conn w3 H2 H3.
    rewrite (tool_after_open E question r w w1 w2 w3 db conn Hr H2 H3).
    rewrite Ha, Hg, Hn. reflexivity. }
  split; [exact Hopen|]. split; [|reflexivity].
  intros text w' H.
  destruct (Kuzu.kuzu_Database E Kuzu.DB_PATH true w1) as [[db|e] w2] eqn:H2.
  - destruct (Kuzu.kuzu_Connection E db w2) as [[conn|e] w3] eqn:H3.
    + rewrite (Hopen db w2 conn w3 eq_refl H3) in H. discriminate.
    + unfold Kuzu.query_real_estate_database in H.
      rewrite (bind_step _ _ _ _ _ Hr), (bind_step _ _ _ _ _ H2) in H.
      rewrite (bind_raises_first _ _ _ _ _ H3) in H. discriminate.
  - rewrite (tool_store_open_failure_propagates E question r w w1 w2 e Hr H2) in H.
    discriminate.
Qed.

Lemma dispatcher_no_branch_returns_none_witness :
  Kuzu.query_real_estate_database
    (mock_kuzu (llm_says "I am not sure.") true (Returns near_first) model_answers)
    address_question []
  = (Returns None, []).
Proof.
  apply (proj1 (dispatcher_no_branch_returns_none
                  (mock_kuzu (llm_says "I am not sure.") true (Returns near_first)
                     model_answers)
                  address_question "I am not sure." [] []
                  eq_refl eq_refl eq_refl eq_refl) tt [] tt []);
    reflexivity.
Defined.

(** C5. A question sent to the ADDRESS_SEARCH branch over a non-empty
    listing table gets a text: either the message of the handler, or the
    rendering of the frame of the targeted query from which the column
    [l.address_embedding] has been dropped. The rendered frame has no
    column of that label, and it keeps every other column of the result,
    with its values and in its place. *)
Theorem address_search_strips_embedding_column
    {W cell database connection query_result : Type}
    (E : @Kuzu.env W cell database connection query_result)
    (question r : string) (w w1 w2 w3 : W) (db : database) (conn : connection) :
  Kuzu.logic_llm_invoke E (Kuzu.router_prompt question) w = (Returns r, w1) ->
  contains "ADDRESS_SEARCH" r = true ->
  Kuzu.kuzu_Database E Kuzu.DB_PATH true w1 = (Returns db, w2) ->
  Kuzu.kuzu_Connection E db w2 = (Returns conn, w3) ->
  (forall res wa addr_df wb,
      Kuzu.conn_execute E conn
        "MATCH (l:Listing) RETURN l.address, l.address_embedding" [] w3
      = (Returns res, wa) ->
      Kuzu.get_as_df E res wa = (Returns addr_df, wb) ->
      Kuzu.empty addr_df = false) ->
  exists out w',
    Kuzu.query_real_estate_database E question w = (Returns (Some out), w')
    /\ ((exists e, Some out = tool_error e)
        \/ (exists address wa res wb result_df,
              Kuzu.conn_execute E conn
                "MATCH (l:Listing) WHERE l.address = $address_filter RETURN l.*"
                [("address_filter", address)] wa
              = (Returns res, wb)
              /\ Kuzu.get_as_df E res wb = (Returns result_df, w')
              /\ Kuzu.to_markdown E (Kuzu.drop_embedding_column result_df)
                 = Returns out
              /\ Kuzu.has_column (Kuzu.drop_embedding_column result_df)
                   Kuzu.embedding_column = false
              /\ Kuzu.drop_embedding_column result_df
                 = List.filter
                     (fun col => negb (String.eqb (fst col) Kuzu.embedding_column))
                     result_df)).
Proof.
  intros Hr Ha H2 H3 Hnonempty.
  rewrite (tool_after_open E question r w w1 w2 w3 db conn Hr H2 H3), Ha.
  unfold try_except.
  destruct (Kuzu.address_search E conn question w3) as [[out|e] w'] eqn:Hbranch.
  - apply address_search_returns in Hbranch
      as [(res & wa & addr_df & Hq & Hdf & Hempty & ->)
         |(addr_df & stored & db0 & q & best & address & wa & res & wb
           & result_df & md & _ & _ & _ & _ & _ & Hq & Hdf & Hmd & ->)].
    + rewrite (Hnonempty res wa addr_df w' Hq Hdf) in Hempty. discriminate.
    + exists md, w'. split; [reflexivity|]. right.
      exists address, wa, res, wb, result_df.
      repeat split; auto using drop_embedding_column_absent,
        drop_embedding_column_filter.
  - eexists _, w'. split; [reflexivity|]. left. exists e. reflexivity.
Qed.

Lemma address_search_strips_embedding_column_witness :
  exists out w',
    Kuzu.query_real_estate_database
      (mock_kuzu (llm_says "ADDRESS_SEARCH") true (Returns near_first) model_answers)
      address_question []
    = (Returns (Some out), w')
    /\ ((exists e, Some out = tool_error e)
        \/ (exists address wa res wb result_df,
              Kuzu.conn_execute
                (mock_kuzu (llm_says "ADDRESS_SEARCH") true (Returns near_first)
                   model_answers) tt
                "MATCH (l:Listing) WHERE l.address = $address_filter RETURN l.*"
                [("address_filter", address)] wa
              = (Returns res, wb)
              /\ Kuzu.get_as_df
                   (mock_kuzu (llm_says "ADDRESS_SEARCH") true (Returns near_first)
                      model_answers) res wb
                 = (Returns result_df, w')
              /\ mock_to_markdown (Kuzu.drop_embedding_column result_df)
                 = Returns out
              /\ Kuzu.has_column (Kuzu.drop_embedding_column result_df)
                   Kuzu.embedding_column = false
              /\ Kuzu.drop_embedding_column result_df
                 = List.filter
                     (fun col => negb (String.eqb (fst col) Kuzu.embedding_column))
                     result_df)).
Proof.
  apply (address_search_strips_embedding_column
           (mock_kuzu (llm_says "ADDRESS_SEARCH") true (Returns near_first)
              model_answers)
           address_question "ADDRESS_SEARCH" [] [] [] [] tt tt
           eq_refl eq_refl eq_refl eq_refl).
  intros res wa addr_df wb Hq Hdf.
  vm_compute in Hq. injection Hq as <- <-.
  vm_compute in Hdf. injection Hdf as <- _.
  reflexivity.
Defined.

(** The same run, evaluated: the first listing is the best match for the
    question embedding [0.9,0.1], the targeted query is filtered to its
    address, and the rendered frame has lost the embedding column. *)
Example address_search_end_to_end :
  Kuzu.query_real_estate_database
    (mock_kuzu (llm_says "ADDRESS_SEARCH") true (Returns near_first) model_answers)
    address_question []
  = (Returns
       (Some ("| l.unique_id | L1 |" +:+ nl
              +:+ "| l.address | 18 West 38th Street |" +:+ nl
              +:+ "| l.floor | E3 |")),
     ["MATCH (l:Listing) WHERE l.address = $address_filter RETURN l.*18 West 38th Street";
      "MATCH (l:Listing) RETURN l.address, l.address_embedding"]).
Proof. vm_compute. reflexivity. Qed.

(** ** The Act step *)

Lemma last_item_app {A} (pre : list A) (x : A) :
  last_item (pre ++ [x]) = Returns x.
Proof. unfold last_item. rewrite map_app. simpl. rewrite last_last. reflexivity. Qed.

Lemma sqlite_call_tool_first {W value connection cursor : Type}
    (E : @Sqlite.env W value connection cursor)
    (pre : list message) (c : string) (tc : tool_call)
    (rest : list tool_call) (w : W) :
  Sqlite.call_tool E (pre ++ [AIMessage c (tc :: rest)]) w
  = (if String.eqb (tc_name tc) "run_sql" then
       bind (tool_invoke "query" (Sqlite.run_sql E) (tc_args tc))
         (fun r => ret [ToolMessage (Sqlite.str_result E r) (tc_id tc)])
     else ret [ToolMessage "Error: Unknown tool." (tc_id tc)]) w.
Proof.
  unfold Sqlite.call_tool, bind at 1 2 3, lift.
  rewrite last_item_app. simpl.
  destruct (String.eqb (tc_name tc) "run_sql"); [|reflexivity].
  unfold bind, ret.
  destruct (tool_invoke "query" (Sqlite.run_sql E) (tc_args tc) w)
    as [[r|e] w1]; reflexivity.
Qed.

Lemma kuzu_call_tool_first {W cell database connection query_result : Type}
    (E : @Kuzu.env W cell database connection query_result)
    (pre : list message) (c : string) (tc : tool_call)
    (rest : list tool_call) (w : W) :
  Kuzu.call_tool E (pre ++ [AIMessage c (tc :: rest)]) w
  = bind (tool_invoke "question" (Kuzu.query_real_estate_database E)
            (tc_args tc))
      (fun r => ret [ToolMessage (Kuzu.str_result r) (tc_id tc)]) w.
Proof.
  unfold Kuzu.call_tool, bind at 1 2 3, lift.
  rewrite last_item_app. reflexivity.
Qed.

(** C6. On a state whose last message is an assistant message with the
    requests [tc :: rest], [call_tool] of either agent handles the first
    request alone: it is the computation that invokes the tool once, on
    the arguments of [tc] (in [main.py] when [tc] names [run_sql], and
    otherwise answers "Error: Unknown tool."), and returns one tool
    message keyed by the identifier of [tc]. The other requests, like the
    earlier messages, have no part in it. *)
Theorem call_tool_honors_first_request :
  (forall (W value connection cursor : Type)
          (E : @Sqlite.env W value connection cursor)
          (pre : list message) (c : string) (tc : tool_call)
          (rest : list tool_call) (w : W),
      Sqlite.call_tool E (pre ++ [AIMessage c (tc :: rest)]) w
      = (if String.eqb (tc_name tc) "run_sql" then
           bind (tool_invoke "query" (Sqlite.run_sql E) (tc_args tc))
             (fun r => ret [ToolMessage (Sqlite.str_result E r) (tc_id tc)])
         else ret [ToolMessage "Error: Unknown tool." (tc_id tc)]) w
      /\ Sqlite.call_tool E (pre ++ [AIMessage c (tc :: rest)]) w
         = Sqlite.call_tool E [AIMessage c [tc]] w
      /\ (forall out w',
            Sqlite.call_tool E (pre ++ [AIMessage c (tc :: rest)]) w
            = (Returns out, w') ->
            exists result, out = [ToolMessage result (tc_id tc)]))
  /\ (forall (W cell database connection query_result : Type)
             (E : @Kuzu.env W cell database connection query_result)
             (pre : list message) (c : string) (tc : tool_call)
             (rest : list tool_call) (w : W),
        Kuzu.call_tool E (pre ++ [AIMessage c (tc :: rest)]) w
        = bind (tool_invoke "question" (Kuzu.query_real_estate_database E)
                  (tc_args tc))
            (fun r => ret [ToolMessage (Kuzu.str_result r) (tc_id tc)]) w
        /\ Kuzu.call_tool E (pre ++ [AIMessage c (tc :: rest)]) w
           = Kuzu.call_tool E [AIMessage c [tc]] w
        /\ (forall out w',
              Kuzu.call_tool E (pre ++ [AIMessage c (tc :: rest)]) w
              = (Returns out, w') ->
              exists result, out = [ToolMessage result (tc_id tc)])).
Proof.
  split.
  - intros W value connection cursor E pre c tc rest w.
    split; [apply sqlite_call_tool_first|]. split.
    + rewrite sqlite_call_tool_first. symmetry.
      apply (sqlite_call_tool_first E [] c tc [] w).
    + intros out w'. rewrite sqlite_call_tool_first.
      destruct (String.eqb (tc_name tc) "run_sql").
      * intros H. apply bind_returns in H as (r & w1 & _ & H).
        unfold ret in H. injection H as <- _. eauto.
      * unfold ret. intros H. injection H as <- _. eauto.
  - intros W cell database connection query_result E pre c tc rest w.
    split; [apply kuzu_call_tool_first|]. split.
    + rewrite kuzu_call_tool_first. symmetry.
      apply (kuzu_call_tool_first E [] c tc [] w).
    + intros out w'. rewrite kuzu_call_tool_first. intros H.
      apply bind_returns in H as (r & w1 & _ & H).
      unfold ret in H. injection H as <- _. eauto.
Qed.

(** Two requests in one message: only the first query reaches the
    store. *)
Lemma call_tool_honors_first_request_witness :
  Sqlite.call_tool (mock_sqlite model_answers)
    [HumanMessage "How many listings are there?";
     two_requests "run_sql" "query" "SELECT * FROM listings"
       "UPDATE listings SET id = 3"] []
  = (Returns [ToolMessage "1, 18 West 38th Street; 2, 9 Main Street" "call_1"],
     ["SELECT * FROM listings"])
  /\ exists result,
       [ToolMessage "1, 18 West 38th Street; 2, 9 Main Street" "call_1"]
       = [ToolMessage result "call_1"].
Proof.
  assert (Hrun :
    Sqlite.call_tool (mock_sqlite model_answers)
      ([HumanMessage "How many listings are there?"]
       ++ [AIMessage EmptyString
             (ToolCall "run_sql" {[ "query" := "SELECT * FROM listings" ]} "call_1"
              :: [ToolCall "run_sql" {[ "query" := "UPDATE listings SET id = 3" ]}
                    "call_2"])]) []
    = (Returns [ToolMessage "1, 18 West 38th Street; 2, 9 Main Street" "call_1"],
       ["SELECT * FROM listings"]))
    by (vm_compute; reflexivity).
  split; [exact Hrun|].
  exact (proj2 (proj2 (proj1 call_tool_honors_first_request
                         (list string) string unit unit
                         (mock_sqlite model_answers)
                         [HumanMessage "How many listings are there?"] EmptyString
                         (ToolCall "run_sql"
                            {[ "query" := "SELECT * FROM listings" ]} "call_1")
                         [ToolCall "run_sql"
                            {[ "query" := "UPDATE listings SET id = 3" ]} "call_2"]
                         [])) _ _ Hrun).
Defined.

(** ** The agent loop *)

Section Runner.
Context {W : Type}.
Variable call_model call_tool : list message -> M W (list message).
Variable should_continue : list message -> outcome branch.

Local Abbreviation run_from := (Graph.run_from call_model call_tool should_continue).

(** The iteration counter grows by at most the number of round-trips
    that were allowed. *)
Lemma run_from_iterations (remaining : nat) :
  forall messages iterations w,
    iterations
    <= Graph.run_iterations (fst (run_from remaining messages iterations w))
    /\ Graph.run_iterations (fst (run_from remaining messages iterations w))
       <= iterations + remaining.
Proof.
  induction remaining as [|n IH]; intros messages k w; simpl;
    (destruct (call_model messages w) as [[out|e] w1]; simpl; [|lia]);
    (destruct (should_continue (messages ++ out)) as [[]|e]; simpl; try lia).
  destruct (call_tool (messages ++ out) w1) as [[out'|e] w2]; simpl; [|lia].
  specialize (IH ((messages ++ out) ++ out') (S k) w2). lia.
Qed.

Lemma tool_results_app (xs ys : list message) :
  Graph.tool_results (xs ++ ys) = Graph.tool_results xs + Graph.tool_results ys.
Proof. unfold Graph.tool_results. rewrite List.filter_app, length_app. reflexivity. Qed.

(** The nodes of the two agents: Decide returns one message, Act returns
    one tool result, and the edge after Decide reads the last message,
    which it takes for an assistant message. *)
Hypothesis model_one : forall messages w out w',
  call_model messages w = (Returns out, w') -> exists m, out = [m].
Hypothesis tool_one : forall messages w out w',
  call_tool messages w = (Returns out, w') ->
  exists c id, out = [ToolMessage c id].
Hypothesis edge_reads_last : forall pre m b,
  should_continue (pre ++ [m]) = Returns b ->
  match b with
  | END => exists c, m = AIMessage c []
  | execute_tool => exists c tc tcs, m = AIMessage c (tc :: tcs)
  end.

(** A run that did not fail has appended, per round-trip, one assistant
    message with a request and one tool result, and then one more
    assistant message: without a request when the run finished, with a
    request that was not served when the limit was reached, which
    happens only after all the allowed round-trips. *)
Lemma run_from_shape (remaining : nat) :
  forall messages iterations w,
    (Graph.run_status (fst (run_from remaining messages iterations w))
     = Graph.Finished
     \/ Graph.run_status (fst (run_from remaining messages iterations w))
        = Graph.LimitReached ->
     Graph.tool_results
       (Graph.run_messages (fst (run_from remaining messages iterations w)))
     + iterations
     = Graph.tool_results messages
       + Graph.run_iterations (fst (run_from remaining messages iterations w))
     /\ length (Graph.run_messages
                  (fst (run_from remaining messages iterations w)))
        + 2 * iterations
        = length messages
          + 2 * Graph.run_iterations
                  (fst (run_from remaining messages iterations w))
          + 1)
    /\ (Graph.run_status (fst (run_from remaining messages iterations w))
        = Graph.Finished ->
        exists pre c,
          Graph.run_messages (fst (run_from remaining messages iterations w))
          = pre ++ [AIMessage c []])
    /\ (Graph.run_status (fst (run_from remaining messages iterations w))
        = Graph.LimitReached ->
        Graph.run_iterations (fst (run_from remaining messages iterations w))
        = iterations + remaining
        /\ exists pre c tc tcs,
             Graph.run_messages (fst (run_from remaining messages iterations w))
             = pre ++ [AIMessage c (tc :: tcs)]).
Proof.
  assert (Hfailed : forall (e : exn) (msgs : list message) (k n : nat) (P Q R : Prop),
             (Graph.run_status (Graph.Run (Graph.Failed e) msgs k) = Graph.Finished
              \/ Graph.run_status (Graph.Run (Graph.Failed e) msgs k)
                 = Graph.LimitReached -> P)
             /\ (Graph.run_status (Graph.Run (Graph.Failed e) msgs k)
                 = Graph.Finished -> Q)
             /\ (Graph.run_status (Graph.Run (Graph.Failed e) msgs k)
                 = Graph.LimitReached -> R)).
  { intros e msgs k n P Q R. simpl.
    split; [intros [H|H]; discriminate|]. split; intros H; discriminate. }
  assert (Hai : forall (msgs : list message) (c : string) (tcs : list tool_call),
             Graph.tool_results (msgs ++ [AIMessage c tcs])
             = Graph.tool_results msgs
             /\ length (msgs ++ [AIMessage c tcs]) = length msgs + 1).
  { intros msgs c tcs. rewrite tool_results_app, length_app.
    unfold Graph.tool_results. simpl. lia. }
  induction remaining as [|n IH]; intros messages k w; simpl;
    (destruct (call_model messages w) as [[out|e] w1] eqn:Hm; simpl;
       [|apply (Hfailed e messages k 0)]);
    destruct (model_one _ _ _ _ Hm) as [m ->];
    (destruct (should_continue (messages ++ [m])) as [b|e] eqn:Hs; simpl;
       [|apply (Hfailed e (messages ++ [m]) k 0)]);
    apply edge_reads_last in Hs;
    (destruct b; [destruct Hs as (c & tc & tcs & ->) | destruct Hs as (c & ->)]);
    simpl.
  - destruct (Hai messages c (tc :: tcs)) as [Hres Hlen].
    split; [intros _; lia|]. split; [discriminate|].
    intros _. split; [lia|]. exists messages, c, tc, tcs. reflexivity.
  - destruct (Hai messages c []) as [Hres Hlen].
    split; [intros _; lia|]. split; [|discriminate].
    intros _. exists messages, c. reflexivity.
  - destruct (call_tool (messages ++ [AIMessage c (tc :: tcs)]) w1)
      as [[out'|e] w2] eqn:Ht; simpl;
      [|apply (Hfailed e (messages ++ [AIMessage c (tc :: tcs)]) k 0)].
    destruct (tool_one _ _ _ _ Ht) as (c' & id & ->).
    destruct (Hai messages c (tc :: tcs)) as [Hres Hlen].
    specialize (IH ((messages ++ [AIMessage c (tc :: tcs)]) ++ [ToolMessage c' id])
                  (S k) w2).
    rewrite tool_results_app, length_app, Hres, Hlen in IH.
    unfold Graph.tool_results at 3 in IH. simpl in IH.
    destruct IH as (Hcount & Hfin & Hlim).
    split; [intros Hok; specialize (Hcount Hok); lia|].
    split; [exact Hfin|].
    intros Hl. destruct (Hlim Hl) as [Hk Hlast]. split; [lia | exact Hlast].
  - destruct (Hai messages c []) as [Hres Hlen].
    split; [intros _; lia|]. split; [|discriminate].
    intros _. exists messages, c. reflexivity.
Qed.

(** A model that asks for the tool at every turn, and a tool that
    answers on the states [P] that such a model produces, keep the loop
    running until the limit. *)
Variable P : list message -> Prop.
Hypothesis model_always : forall messages w,
  exists out w',
    call_model messages w = (Returns out, w')
    /\ should_continue (messages ++ out) = Returns execute_tool
    /\ P (messages ++ out).
Hypothesis tool_answers : forall messages w,
  P messages -> exists out w', call_tool messages w = (Returns out, w').

Lemma run_from_reaches_limit (remaining : nat) :
  forall messages iterations w,
    Graph.run_status (fst (run_from remaining messages iterations w))
    = Graph.LimitReached
    /\ Graph.run_iterations (fst (run_from remaining messages iterations w))
       = iterations + remaining.
Proof.
  induction remaining as [|n IH]; intros messages k w; simpl;
    destruct (model_always messages w) as (out & w1 & -> & -> & HP).
  - simpl. split; [reflexivity | lia].
  - destruct (tool_answers (messages ++ out) w1 HP) as (out' & w2 & ->).
    destruct (IH ((messages ++ out) ++ out') (S k) w2) as [-> ->].
    split; [reflexivity | lia].
Qed.

End Runner.

Section Nodes.

Lemma sqlite_call_model_one {W value connection cursor : Type}
    (E : @Sqlite.env W value connection cursor) (messages : list message)
    (w w' : W) (out : list message) :
  Sqlite.call_model E messages w = (Returns out, w') -> exists m, out = [m].
Proof.
  unfold Sqlite.call_model. intros H.
  apply bind_returns in H as (s & w1 & _ & H).
  apply bind_returns in H as (response & w2 & _ & H).
  unfold ret in H. injection H as <- _. exists response. reflexivity.
Qed.

Lemma sqlite_call_tool_one {W value connection cursor : Type}
    (E : @Sqlite.env W value connection cursor) (messages : list message)
    (w w' : W) (out : list message) :
  Sqlite.call_tool E messages w = (Returns out, w') ->
  exists c id, out = [ToolMessage c id].
Proof.
  unfold Sqlite.call_tool. intros H.
  apply bind_returns in H as (m & w1 & _ & H).
  apply bind_returns in H as (tcs & w2 & _ & H).
  apply bind_returns in H as (tc & w3 & _ & H).
  apply bind_returns in H as (result & w4 & _ & H).
  unfold ret in H. injection H as <- _. eexists _, _. reflexivity.
Qed.

Lemma kuzu_call_model_one {W cell database connection query_result : Type}
    (E : @Kuzu.env W cell database connection query_result)
    (messages : list message) (w w' : W) (out : list message) :
  Kuzu.call_model E messages w = (Returns out, w') -> exists m, out = [m].
Proof.
  unfold Kuzu.call_model. intros H.
  apply bind_returns in H as (s & w1 & _ & H).
  apply bind_returns in H as (response & w2 & _ & H).
  unfold ret in H. injection H as <- _. exists response. reflexivity.
Qed.

Lemma kuzu_call_tool_one {W cell database connection query_result : Type}
    (E : @Kuzu.env W cell database connection query_result)
    (messages : list message) (w w' : W) (out : list message) :
  Kuzu.call_tool E messages w = (Returns out, w') ->
  exists c id, out = [ToolMessage c id].
Proof.
  unfold Kuzu.call_tool. intros H.
  apply bind_returns in H as (m & w1 & _ & H).
  apply bind_returns in H as (tcs & w2 & _ & H).
  apply bind_returns in H as (tc & w3 & _ & H).
  apply bind_returns in H as (result & w4 & _ & H).
  unfold ret in H. injection H as <- _. eexists _, _. reflexivity.
Qed.

(** The edge after Decide reads the last message: it ends the loop on an
    assistant message without a request and goes on to Act on one with a
    request. *)
Lemma kuzu_should_continue_last (pre : list message) (m : message) (b : branch) :
  Kuzu.should_continue (pre ++ [m]) = Returns b ->
  match b with
  | END => exists c, m = AIMessage c []
  | execute_tool => exists c tc tcs, m = AIMessage c (tc :: tcs)
  end.
Proof.
  unfold Kuzu.should_continue. rewrite last_item_app.
  destruct m as [c|c [|tc tcs]|c id]; simpl; intros H; try discriminate;
    injection H as <-; eauto.
Qed.

Lemma sqlite_should_continue_last (pre : list message) (m : message) (b : branch) :
  Sqlite.should_continue (pre ++ [m]) = Returns b ->
  match b with
  | END => exists c, m = AIMessage c []
  | execute_tool => exists c tc tcs, m = AIMessage c (tc :: tcs)
  end.
Proof.
  unfold Sqlite.should_continue. rewrite last_item_app.
  destruct m as [c|c [|tc tcs]|c id]; simpl; intros H; try discriminate;
    injection H as <-; eauto.
Qed.

Lemma stream_shape {W : Type}
    (call_model call_tool : list message -> M W (list message))
    (should_continue : list message -> outcome branch) :
  (forall messages w out w',
      call_model messages w = (Returns out, w') -> exists m, out = [m]) ->
  (forall messages w out w',
      call_tool messages w = (Returns out, w') ->
      exists c id, out = [ToolMessage c id]) ->
  (forall pre m b,
      should_continue (pre ++ [m]) = Returns b ->
      match b with
      | END => exists c, m = AIMessage c []
      | execute_tool => exists c tc tcs, m = AIMessage c (tc :: tcs)
      end) ->
  forall messages limit w,
    let r := fst (Graph.stream call_model call_tool should_continue
                    messages limit w) in
    Graph.run_iterations r <= limit
    /\ (Graph.run_status r = Graph.Finished
        \/ Graph.run_status r = Graph.LimitReached ->
        Graph.round_trips messages (Graph.run_messages r)
        = Graph.run_iterations r
        /\ length (Graph.run_messages r)
           = length messages + 2 * Graph.run_iterations r + 1)
    /\ (Graph.run_status r = Graph.Finished ->
        exists pre c, Graph.run_messages r = pre ++ [AIMessage c []])
    /\ (Graph.run_status r = Graph.LimitReached ->
        Graph.run_iterations r = limit
        /\ exists pre c tc tcs,
             Graph.run_messages r = pre ++ [AIMessage c (tc :: tcs)]).
Proof.
  intros Hm Ht He messages limit w r. subst r. unfold Graph.stream.
  pose proof (run_from_iterations call_model call_tool should_continue
                limit messages 0 w) as [_ Hle].
  destruct (run_from_shape call_model call_tool should_continue Hm Ht He
              limit messages 0 w) as (Hcount & Hfin & Hlim).
  split; [exact Hle|]. split; [|split; [exact Hfin | exact Hlim]].
  intros Hok. destruct (Hcount Hok) as [Hres Hlen].
  unfold Graph.round_trips. lia.
Qed.

End Nodes.

Section AlwaysCalls.

Lemma should_continue_request (pre : list message) (c : string)
    (tc : tool_call) (tcs : list tool_call) :
  Kuzu.should_continue (pre ++ [AIMessage c (tc :: tcs)]) = Returns execute_tool
  /\ Sqlite.should_continue (pre ++ [AIMessage c (tc :: tcs)]) = Returns execute_tool.
Proof.
  unfold Kuzu.should_continue, Sqlite.should_continue.
  rewrite last_item_app. split; reflexivity.
Qed.

Lemma kuzu_runs_to_limit {W cell database connection query_result : Type}
    (E : @Kuzu.env W cell database connection query_result) :
  (forall w, exists s w', Kuzu.get_db_schema E Kuzu.DB_PATH w = (Returns s, w')) ->
  (forall messages w, exists c tc tcs w',
      Kuzu.llm_with_tools_invoke E messages w
      = (Returns (AIMessage c (tc :: tcs)), w')
      /\ is_Some (tc_args tc !! "question")) ->
  (forall question w, exists r w',
      Kuzu.query_real_estate_database E question w = (Returns r, w')) ->
  forall messages limit w,
    Graph.run_status (fst (kuzu_app E messages limit w)) = Graph.LimitReached
    /\ Graph.run_iterations (fst (kuzu_app E messages limit w)) = limit.
Proof.
  intros Hs Hm Ht messages limit w. unfold kuzu_app, Graph.stream.
  apply (run_from_reaches_limit _ _ _ (requests "question" (fun _ => true))).
  - intros msgs v. unfold Kuzu.call_model.
    destruct (Hs v) as (s & v1 & Hschema).
    destruct (Hm ([HumanMessage Kuzu.system_prompt] ++ msgs) v1)
      as (c & tc & tcs & v2 & Hmodel & Harg).
    exists [AIMessage c (tc :: tcs)], v2.
    rewrite (bind_step _ _ _ _ _ Hschema), (bind_step _ _ _ _ _ Hmodel).
    split; [reflexivity|]. split; [apply should_continue_request|].
    exists msgs, c, tc, tcs. auto.
  - intros msgs v (pre & c & tc & tcs & -> & Harg).
    destruct (Harg eq_refl) as [question Hq].
    destruct (Ht question v) as (r & v1 & Htool).
    exists [ToolMessage (Kuzu.str_result r) (tc_id tc)], v1.
    rewrite kuzu_call_tool_first. unfold tool_invoke. rewrite Hq.
    rewrite (bind_step _ _ _ _ _ Htool). reflexivity.
Qed.

Lemma sqlite_runs_to_limit {W value connection cursor : Type}
    (E : @Sqlite.env W value connection cursor) :
  (forall w, exists s w', Sqlite.get_db_schema E Sqlite.DB_PATH w = (Returns s, w')) ->
  (forall messages w, exists c tc tcs w',
      Sqlite.llm_with_tools_invoke E messages w
      = (Returns (AIMessage c (tc :: tcs)), w')
      /\ (String.eqb (tc_name tc) "run_sql" = true ->
          is_Some (tc_args tc !! "query"))) ->
  forall messages limit w,
    Graph.run_status (fst (sqlite_app E messages limit w)) = Graph.LimitReached
    /\ Graph.run_iterations (fst (sqlite_app E messages limit w)) = limit.
Proof.
  intros Hs Hm messages limit w. unfold sqlite_app, Graph.stream.
  apply (run_from_reaches_limit _ _ _
           (requests "query" (fun tc => String.eqb (tc_name tc) "run_sql"))).
  - intros msgs v. unfold Sqlite.call_model.
    destruct (Hs v) as (s & v1 & Hschema).
    destruct (Hm ([HumanMessage (Sqlite.system_prompt s)] ++ msgs) v1)
      as (c & tc & tcs & v2 & Hmodel & Harg).
    exists [AIMessage c (tc :: tcs)], v2.
    rewrite (bind_step _ _ _ _ _ Hschema), (bind_step _ _ _ _ _ Hmodel).
    split; [reflexivity|]. split; [apply should_continue_request|].
    exists msgs, c, tc, tcs. auto.
  - intros msgs v (pre & c & tc & tcs & -> & Harg).
    rewrite sqlite_call_tool_first.
    destruct (String.eqb (tc_name tc) "run_sql") eqn:Hname.
    + destruct (Harg eq_refl) as [query Hq].
      unfold tool_invoke. rewrite Hq.
      destruct (try_except_returns (Sqlite.run_sql_try E query)
                  (fun e => Sqlite.Text ("Error executing query: " +:+ exn_str e)) v)
        as (r & v1 & Hrun).
      exists [ToolMessage (Sqlite.str_result E r) (tc_id tc)], v1.
      change (Sqlite.run_sql E query v = (Returns r, v1)) in Hrun.
      rewrite (bind_step _ _ _ _ _ Hrun). reflexivity.
    + eexists _, _. reflexivity.
Qed.

End AlwaysCalls.

(** C7. A run of the agent graph under a recursion limit makes at most
    that many Decide/Act round-trips and stops: the iteration counter,
    one per completed round-trip, never exceeds the limit, whatever the
    nodes do. For the two agents of the repository, and every behaviour
    of the model and of the stores, a run that does not end in an
    exception has appended exactly one tool result per counted
    round-trip, so at most [limit], and one assistant message before
    each of them and one after the last; it ends either finished, on an
    assistant message that asks for no tool, or at the limit, after
    exactly [limit] round-trips, on a request that is not served. When
    the model asks for the tool at every Decide step, and introspection
    and the tool answer, the run stops at the limit exactly: its status
    is [LimitReached], its counter equals the limit, and the
    conversation holds exactly [limit] new tool results. *)
Theorem agent_loop_stops_within_limit :
  (forall (W : Type) (call_model call_tool : list message -> M W (list message))
          (should_continue : list message -> outcome branch)
          (messages : list message) (limit : nat) (w : W),
      Graph.run_iterations
        (fst (Graph.stream call_model call_tool should_continue messages limit w))
      <= limit)
  /\ (forall (W cell database connection query_result : Type)
             (E : @Kuzu.env W cell database connection query_result)
             (messages : list message) (limit : nat) (w : W),
        let r := fst (kuzu_app E messages limit w) in
        Graph.run_iterations r <= limit
        /\ (Graph.run_status r = Graph.Finished
            \/ Graph.run_status r = Graph.LimitReached ->
            Graph.round_trips messages (Graph.run_messages r)
            = Graph.run_iterations r
            /\ length (Graph.run_messages r)
               = length messages + 2 * Graph.run_iterations r + 1)
        /\ (Graph.run_status r = Graph.Finished ->
            exists pre c, Graph.run_messages r = pre ++ [AIMessage c []])
        /\ (Graph.run_status r = Graph.LimitReached ->
            Graph.run_iterations r = limit
            /\ exists pre c tc tcs,
                 Graph.run_messages r = pre ++ [AIMessage c (tc :: tcs)]))
  /\ (forall (W value connection cursor : Type)
             (E : @Sqlite.env W value connection cursor)
             (messages : list message) (limit : nat) (w : W),
        let r := fst (sqlite_app E messages limit w) in
        Graph.run_iterations r <= limit
        /\ (Graph.run_status r = Graph.Finished
            \/ Graph.run_status r = Graph.LimitReached ->
            Graph.round_trips messages (Graph.run_messages r)
            = Graph.run_iterations r
            /\ length (Graph.run_messages r)
               = length messages + 2 * Graph.run_iterations r + 1)
        /\ (Graph.run_status r = Graph.Finished ->
            exists pre c, Graph.run_messages r = pre ++ [AIMessage c []])
        /\ (Graph.run_status r = Graph.LimitReached ->
            Graph.run_iterations r = limit
            /\ exists pre c tc tcs,
                 Graph.run_messages r = pre ++ [AIMessage c (tc :: tcs)]))
  /\ (forall (W cell database connection query_result : Type)
             (E : @Kuzu.env W cell database connection query_result),
        (forall w, exists s w',
            Kuzu.get_db_schema E Kuzu.DB_PATH w = (Returns s, w')) ->
        (forall messages w, exists c tc tcs w',
            Kuzu.llm_with_tools_invoke E messages w
            = (Returns (AIMessage c (tc :: tcs)), w')
            /\ is_Some (tc_args tc !! "question")) ->
        (forall question w, exists r w',
            Kuzu.query_real_estate_database E question w = (Returns r, w')) ->
        forall messages limit w,
          Graph.run_status (fst (kuzu_app E messages limit w)) = Graph.LimitReached
          /\ Graph.run_iterations (fst (kuzu_app E messages limit w)) = limit
          /\ Graph.round_trips messages
               (Graph.run_messages (fst (kuzu_app E messages limit w)))
             = limit)
  /\ (forall (W value connection cursor : Type)
             (E : @Sqlite.env W value connection cursor),
        (forall w, exists s w',
            Sqlite.get_db_schema E Sqlite.DB_PATH w = (Returns s, w')) ->
        (forall messages w, exists c tc tcs w',
            Sqlite.llm_with_tools_invoke E messages w
            = (Returns (AIMessage c (tc :: tcs)), w')
            /\ (String.eqb (tc_name tc) "run_sql" = true ->
                is_Some (tc_args tc !! "query"))) ->
        forall messages limit w,
          Graph.run_status (fst (sqlite_app E messages limit w))
          = Graph.LimitReached
          /\ Graph.run_iterations (fst (sqlite_app E messages limit w)) = limit
          /\ Graph.round_trips messages
               (Graph.run_messages (fst (sqlite_app E messages limit w)))
             = limit).
Proof.
  assert (Hkuzu : forall (W cell database connection query_result : Type)
                         (E : @Kuzu.env W cell database connection query_result)
                         (messages : list message) (limit : nat) (w : W),
             let r := fst (kuzu_app E messages limit w) in
             Graph.run_iterations r <= limit
             /\ (Graph.run_status r = Graph.Finished
                 \/ Graph.run_status r = Graph.LimitReached ->
                 Graph.round_trips messages (Graph.run_messages r)
                 = Graph.run_iterations r
                 /\ length (Graph.run_messages r)
                    = length messages + 2 * Graph.run_iterations r + 1)
             /\ (Graph.run_status r = Graph.Finished ->
                 exists pre c, Graph.run_messages r = pre ++ [AIMessage c []])
             /\ (Graph.run_status r = Graph.LimitReached ->
                 Graph.run_iterations r = limit
                 /\ exists pre c tc tcs,
                      Graph.run_messages r = pre ++ [AIMessage c (tc :: tcs)])).
  { intros W cell database connection query_result E messages limit w.
    apply stream_shape.
    - intros msgs v out v'. apply kuzu_call_model_one.
    - intros msgs v out v'. apply kuzu_call_tool_one.
    - apply kuzu_should_continue_last. }
  assert (Hsqlite : forall (W value connection cursor : Type)
                           (E : @Sqlite.env W value connection cursor)
                           (messages : list message) (limit : nat) (w : W),
             let r := fst (sqlite_app E messages limit w) in
             Graph.run_iterations r <= limit
             /\ (Graph.run_status r = Graph.Finished
                 \/ Graph.run_status r = Graph.LimitReached ->
                 Graph.round_trips messages (Graph.run_messages r)
                 = Graph.run_iterations r
                 /\ length (Graph.run_messages r)
                    = length messages + 2 * Graph.run_iterations r + 1)
             /\ (Graph.run_status r = Graph.Finished ->
                 exists pre c, Graph.run_messages r = pre ++ [AIMessage c []])
             /\ (Graph.run_status r = Graph.LimitReached ->
                 Graph.run_iterations r = limit
                 /\ exists pre c tc tcs,
                      Graph.run_messages r = pre ++ [AIMessage c (tc :: tcs)])).
  { intros W value connection cursor E messages limit w.
    apply stream_shape.
    - intros msgs v out v'. apply sqlite_call_model_one.
    - intros msgs v out v'. apply sqlite_call_tool_one.
    - apply sqlite_should_continue_last. }
  split; [|split; [exact Hkuzu|split; [exact Hsqlite|split]]].
  - intros W call_model call_tool should_continue messages limit w.
    unfold Graph.stream.
    apply (run_from_iterations call_model call_tool should_continue
             limit messages 0 w).
  - intros W cell database connection query_result E Hs Hm Ht messages limit w.
    destruct (kuzu_runs_to_limit E Hs Hm Ht messages limit w) as [Hstatus Hk].
    split; [exact Hstatus|]. split; [exact Hk|].
    destruct (Hkuzu _ _ _ _ _ E messages limit w) as (_ & Hcount & _).
    destruct (Hcount (or_intror Hstatus)) as [Hres _]. lia.
  - intros W value connection cursor E Hs Hm messages limit w.
    destruct (sqlite_runs_to_limit E Hs Hm messages limit w) as [Hstatus Hk].
    split; [exact Hstatus|]. split; [exact Hk|].
    destruct (Hsqlite _ _ _ _ E messages limit w) as (_ & Hcount & _).
    destruct (Hcount (or_intror Hstatus)) as [Hres _]. lia.
Qed.

(** The mock model that always requests the tool, under the limit 10 of
    the sources: the run stops after exactly ten round-trips. *)
Lemma agent_loop_stops_within_limit_witness :
  Graph.run_status
    (fst (kuzu_app
            (mock_kuzu (llm_says "NORMAL_QUERY") true (Returns near_first)
               (model_always_calls "query_real_estate_database" "question"
                  address_question))
            [HumanMessage address_question] 10 []))
  = Graph.LimitReached
  /\ Graph.run_iterations
       (fst (kuzu_app
               (mock_kuzu (llm_says "NORMAL_QUERY") true (Returns near_first)
                  (model_always_calls "query_real_estate_database" "question"
                     address_question))
               [HumanMessage address_question] 10 []))
     = 10
  /\ Graph.round_trips [HumanMessage address_question]
       (Graph.run_messages
          (fst (kuzu_app
                  (mock_kuzu (llm_says "NORMAL_QUERY") true (Returns near_first)
                     (model_always_calls "query_real_estate_database" "question"
                        address_question))
                  [HumanMessage address_question] 10 [])))
     = 10.
Proof.
  apply (proj1 (proj2 (proj2 (proj2 agent_loop_stops_within_limit)))
           (list string) string unit unit (string * list (string * string))%type).
  - intros w. eexists _, _. reflexivity.
  - intros messages w. eexists _, _, _, _. split; [reflexivity|].
    exists address_question. reflexivity.
  - intros question w.
    apply (tool_catches_inside_try _ question "NORMAL_QUERY" w w w w tt tt);
      reflexivity.
Defined.

(** ** The aggregator *)

Section History.

Lemma convert_loop_spec (history : list (gmap string string)) :
  forall acc msgs,
    App.convert_loop history acc = Returns msgs ->
    msgs = acc ++ map App.as_message (List.filter App.kept history).
Proof.
  induction history as [|msg rest IH]; intros acc msgs H; simpl in H.
  - injection H as <-. simpl. rewrite app_nil_r. reflexivity.
  - unfold App.dict_get in H.
    destruct (msg !! "role") as [role|] eqn:Hrole; [|discriminate].
    assert (Hkept : App.kept msg
                    = String.eqb role "user" || String.eqb role "assistant")
      by (unfold App.kept, App.role_of; rewrite Hrole; reflexivity).
    simpl. rewrite Hkept.
    destruct (String.eqb role "user") eqn:Hu; simpl.
    + destruct (msg !! "content") as [c|] eqn:Hc; [|discriminate].
      assert (App.as_message msg = HumanMessage c) as ->
        by (unfold App.as_message, App.role_of; rewrite Hrole, Hc; simpl;
            rewrite Hu; reflexivity).
      rewrite (IH _ _ H), <- app_assoc. reflexivity.
    + destruct (String.eqb role "assistant") eqn:Ha; simpl.
      * destruct (msg !! "content") as [c|] eqn:Hc; [|discriminate].
        assert (App.as_message msg = AIMessage c []) as ->
          by (unfold App.as_message, App.role_of; rewrite Hrole, Hc; simpl;
              rewrite Hu; reflexivity).
        rewrite (IH _ _ H), <- app_assoc. reflexivity.
      * apply IH. exact H.
Qed.

Lemma convert_loop_total (history : list (gmap string string)) :
  forallb entry_ok history = true ->
  forall acc, exists msgs, App.convert_loop history acc = Returns msgs.
Proof.
  induction history as [|msg rest IH]; intros Hok acc; simpl.
  - eauto.
  - simpl in Hok. apply andb_true_iff in Hok as [Hmsg Hrest].
    unfold entry_ok in Hmsg. unfold App.dict_get.
    destruct (msg !! "role") as [role|]; [|discriminate].
    destruct (String.eqb role "user"); simpl in Hmsg.
    + destruct (msg !! "content"); [|discriminate]. apply IH. exact Hrest.
    + destruct (String.eqb role "assistant"); simpl in Hmsg.
      * destruct (msg !! "content"); [|discriminate]. apply IH. exact Hrest.
      * apply IH. exact Hrest.
Qed.

Lemma history_messages_well_formed (conversation : list (gmap string string)) :
  history_well_formed conversation = true ->
  App.history_messages conversation = Returns (App.forwarded_spec conversation).
Proof.
  intros Hok. unfold App.history_messages.
  destruct (convert_loop_total _ Hok []) as [msgs H].
  rewrite H. f_equal. apply (convert_loop_spec _ _ _ H).
Qed.

End History.

Section Recording.
Context {W : Type}.
Variable E : @App.env W.

Lemma for_each_print_event_world {V : Type} (events : list App.event) (s : V) :
  snd (for_each events App.print_event s) = s.
Proof.
  revert s. induction events as [|ev rest IH]; intros s; simpl; [reflexivity|].
  unfold bind at 1.
  assert (Hev : snd (App.print_event ev s) = s).
  { unfold App.print_event, bind, lift, ret.
    destruct (ev !! "agent") as [m1|]; simpl;
      [destruct (last_item m1); simpl|];
      try reflexivity;
      destruct (ev !! "execute_tool") as [m2|]; simpl;
      try reflexivity; destruct (last_item m2); reflexivity. }
  destruct (App.print_event ev s) as [[[]|e] s1]; simpl in Hev; subst s1;
    [apply IH | reflexivity].
Qed.

(** The log of a run of the [try] block: between one and four entries,
    each of them the list of messages the block was given. *)
Lemma pipeline_log (new_message : string) (msgs : list message)
    (w : W) (log : list (list message)) :
  exists k,
    1 <= k <= 4
    /\ snd (snd (App.pipeline (recording E) new_message msgs (w, log)))
       = log ++ repeat msgs k.
Proof.
  unfold App.pipeline.
  unfold bind at 1. simpl. unfold record_call at 1. simpl.
  destruct (App.kuzu_app_stream E msgs 10 w) as [[ev1|e] w1];
    [|exists 1; split; [lia | reflexivity]].
  unfold bind at 1.
  pose proof (for_each_print_event_world ev1 (w1, log ++ [msgs])) as Hp1.
  destruct (for_each ev1 App.print_event (w1, log ++ [msgs])) as [[[]|e] s1];
    simpl in Hp1; subst s1;
    [|exists 1; split; [lia | reflexivity]].
  unfold bind at 1. simpl. unfold record_call at 1. simpl.
  destruct (App.kuzu_app_invoke E msgs w1) as [[st1|e] w2];
    [|exists 2; split; [lia | simpl; rewrite <- app_assoc; reflexivity]].
  unfold bind at 1. simpl. unfold record_call at 1. simpl.
  destruct (App.sqlite_app_stream E msgs 10 w2) as [[ev2|e] w3];
    [|exists 3; split; [lia | simpl; rewrite <- !app_assoc; reflexivity]].
  unfold bind at 1.
  pose proof (for_each_print_event_world ev2
                (w3, ((log ++ [msgs]) ++ [msgs]) ++ [msgs])) as Hp2.
  destruct (for_each ev2 App.print_event
              (w3, ((log ++ [msgs]) ++ [msgs]) ++ [msgs])) as [[[]|e] s2];
    simpl in Hp2; subst s2;
    [|exists 3; split; [lia | simpl; rewrite <- !app_assoc; reflexivity]].
  unfold bind at 1. simpl. unfold record_call at 1. simpl.
  exists 4. split; [lia|].
  destruct (App.sqlite_app_invoke E msgs w3) as [[st2|e] w4];
    [|simpl; rewrite <- !app_assoc; reflexivity].
  unfold bind, ret. simpl.
  destruct (App.llm_invoke E _ w4) as [[res|e] w5];
    simpl; rewrite <- !app_assoc; reflexivity.
Qed.

End Recording.

Section Endpoint.
Context {W : Type}.
Variable E : @App.env W.

Lemma chat_after_history (request : App.ChatRequest) (msgs : list message) (w : W) :
  App.history_messages (App.conversation request) = Returns msgs ->
  App.chat_with_llm E request w
  = try_except (App.pipeline E (App.new_message request) msgs)
      (fun e => ret ("Error occurred: " +:+ exn_str e)) w.
Proof. unfold App.chat_with_llm, bind, lift. intros ->. reflexivity. Qed.

Lemma chat_error_response (request : App.ChatRequest) (msgs : list message)
    (w w' : W) (e : exn) :
  App.history_messages (App.conversation request) = Returns msgs ->
  App.pipeline E (App.new_message request) msgs w = (Raises e, w') ->
  App.chat_with_llm E request w
  = (Returns ("Error occurred: " +:+ exn_str e), w').
Proof.
  intros Hh Hp. rewrite (chat_after_history request msgs w Hh).
  unfold try_except. rewrite Hp. reflexivity.
Qed.

Lemma try_except_world {A} (body : M W A) (handler : exn -> A) (w : W) :
  snd (try_except body (fun e => ret (handler e)) w) = snd (body w).
Proof. unfold try_except, ret. destruct (body w) as [[a|e] w']; reflexivity. Qed.

Lemma final_answer_last (pre : list message) (m : message) :
  App.final_answer (pre ++ [m]) = content m.
Proof. unfold App.final_answer. rewrite map_app. simpl. rewrite last_last. reflexivity. Qed.

End Endpoint.

(** C10. The messages that [/chat] forwards are the history without its
    first entry, restricted to the entries whose role is user or
    assistant, each turned into a human or an assistant message, in their
    order: whenever the conversion of the history yields messages they are
    these, it yields them for every well-formed history, and every call of
    the endpoint to the two agent applications (between one and four
    calls, as the run goes) is handed exactly these messages. *)
Theorem chat_forwards_filtered_history :
  (forall conversation msgs,
      App.history_messages conversation = Returns msgs ->
      msgs = App.forwarded_spec conversation)
  /\ (forall conversation,
        history_well_formed conversation = true ->
        App.history_messages conversation
        = Returns (App.forwarded_spec conversation))
  /\ (forall (W : Type) (E : @App.env W) (request : App.ChatRequest) (w : W)
             (msgs : list message),
        App.history_messages (App.conversation request) = Returns msgs ->
        exists k,
          1 <= k <= 4
          /\ snd (snd (App.chat_with_llm (recording E) request (w, [])))
             = repeat (App.forwarded_spec (App.conversation request)) k).
Proof.
  split; [|split].
  - intros conversation msgs H. unfold App.history_messages in H.
    apply convert_loop_spec in H. exact H.
  - apply history_messages_well_formed.
  - intros W E request w msgs H.
    rewrite (chat_after_history (recording E) request msgs (w, []) H).
    rewrite try_except_world.
    unfold App.history_messages in H. apply convert_loop_spec in H.
    simpl in H. subst msgs.
    destruct (pipeline_log E (App.new_message request)
                (App.forwarded_spec (App.conversation request)) w [])
      as (k & Hk & Hlog).
    exists k. split; [exact Hk | exact Hlog].
Qed.

Lemma chat_forwards_filtered_history_witness :
  [HumanMessage "How many listings are there?"; AIMessage "Let me check." []]
  = App.forwarded_spec history_ok
  /\ exists k,
       1 <= k <= 4
       /\ snd (snd (App.chat_with_llm (recording (mock_app true)) request_ok ([], [])))
          = repeat (App.forwarded_spec history_ok) k.
Proof.
  assert (H : App.history_messages history_ok
              = Returns [HumanMessage "How many listings are there?";
                         AIMessage "Let me check." []])
    by (vm_compute; reflexivity).
  split.
  - exact (proj1 chat_forwards_filtered_history history_ok _ H).
  - exact (proj2 (proj2 chat_forwards_filtered_history)
             (list string) (mock_app true) request_ok [] _ H).
Defined.

Section Handler.
Context {W : Type}.
Variable E : @App.env W.

(** Whatever step of the [try] block raises, the handler answers. *)
Lemma chat_step_failures (request : App.ChatRequest) (msgs : list message) (w : W) :
  App.history_messages (App.conversation request) = Returns msgs ->
  (forall e w',
      App.kuzu_app_stream E msgs 10 w = (Raises e, w') ->
      App.chat_with_llm E request w
      = (Returns ("Error occurred: " +:+ exn_str e), w'))
  /\ (forall ev1 w1 u1 w1',
        App.kuzu_app_stream E msgs 10 w = (Returns ev1, w1) ->
        for_each ev1 App.print_event w1 = (Returns u1, w1') ->
        (forall e w',
            App.kuzu_app_invoke E msgs w1' = (Raises e, w') ->
            App.chat_with_llm E request w
            = (Returns ("Error occurred: " +:+ exn_str e), w'))
        /\ (forall st1 w2,
              App.kuzu_app_invoke E msgs w1' = (Returns st1, w2) ->
              (forall e w',
                  App.sqlite_app_stream E msgs 10 w2 = (Raises e, w') ->
                  App.chat_with_llm E request w
                  = (Returns ("Error occurred: " +:+ exn_str e), w'))
              /\ (forall ev2 w3 u2 w3',
                    App.sqlite_app_stream E msgs 10 w2 = (Returns ev2, w3) ->
                    for_each ev2 App.print_event w3 = (Returns u2, w3') ->
                    (forall e w',
                        App.sqlite_app_invoke E msgs w3' = (Raises e, w') ->
                        App.chat_with_llm E request w
                        = (Returns ("Error occurred: " +:+ exn_str e), w'))
                    /\ (forall st2 w4 e w',
                          App.sqlite_app_invoke E msgs w3' = (Returns st2, w4) ->
                          App.llm_invoke E
                            (msgs ++ [HumanMessage
                                        (App.reconcile_query
                                           (App.new_message request)
                                           (App.final_answer st1)
                                           (App.final_answer st2))]) w4
                          = (Raises e, w') ->
                          App.chat_with_llm E request w
                          = (Returns ("Error occurred: " +:+ exn_str e), w'))))).
Proof.
  intros Hh.
  split.
  { intros e w' H1. apply (chat_error_response E request msgs w w' e Hh).
    unfold App.pipeline. apply bind_raises_first. exact H1. }
  intros ev1 w1 u1 w1' H1 Hp1. split.
  { intros e w' H2. apply (chat_error_response E request msgs w w' e Hh).
    unfold App.pipeline.
    rewrite (bind_step _ _ _ _ _ H1), (bind_step _ _ _ _ _ Hp1).
    apply bind_raises_first. exact H2. }
  intros st1 w2 H2. split.
  { intros e w' H3. apply (chat_error_response E request msgs w w' e Hh).
    unfold App.pipeline.
    rewrite (bind_step _ _ _ _ _ H1), (bind_step _ _ _ _ _ Hp1),
      (bind_step _ _ _ _ _ H2).
    apply bind_raises_first. exact H3. }
  intros ev2 w3 u2 w3' H3 Hp2. split.
  { intros e w' H4. apply (chat_error_response E request msgs w w' e Hh).
    unfold App.pipeline.
    rewrite (bind_step _ _ _ _ _ H1), (bind_step _ _ _ _ _ Hp1),
      (bind_step _ _ _ _ _ H2), (bind_step _ _ _ _ _ H3),
      (bind_step _ _ _ _ _ Hp2).
    apply bind_raises_first. exact H4. }
  intros st2 w4 e w' H4 H5. apply (chat_error_response E request msgs w w' e Hh).
  unfold App.pipeline.
  rewrite (bind_step _ _ _ _ _ H1), (bind_step _ _ _ _ _ Hp1),
    (bind_step _ _ _ _ _ H2), (bind_step _ _ _ _ _ H3),
    (bind_step _ _ _ _ _ Hp2), (bind_step _ _ _ _ _ H4).
  apply bind_raises_first. exact H5.
Qed.

(** The conversion of the history stands before the [try] statement. *)
Lemma chat_history_failure (request : App.ChatRequest) (w : W) (e : exn) :
  App.history_messages (App.conversation request) = Raises e ->
  App.chat_with_llm E request w = (Raises e, w).
Proof. unfold App.chat_with_llm, bind, lift. intros ->. reflexivity. Qed.

Lemma chat_raises_only_from_history (request : App.ChatRequest) (w w' : W)
    (e : exn) :
  App.chat_with_llm E request w = (Raises e, w') ->
  App.history_messages (App.conversation request) = Raises e /\ w' = w.
Proof.
  intros H.
  destruct (App.history_messages (App.conversation request)) as [msgs|e0] eqn:Hh.
  - rewrite (chat_after_history E request msgs w Hh) in H.
    destruct (try_except_returns (App.pipeline E (App.new_message request) msgs)
                (fun e => "Error occurred: " +:+ exn_str e) w)
      as (response & w1 & Hr).
    rewrite Hr in H. discriminate H.
  - rewrite (chat_history_failure request w e0 Hh) in H.
    injection H as -> ->. split; reflexivity.
Qed.

End Handler.

(** C8. The handler of the chat endpoint covers the whole pipeline, and
    the pipeline only. For every request whose history is converted into
    messages, and every behaviour of the two agent applications, of
    their stores and of the reconciling model, the endpoint returns a
    response and raises nothing; when any step of the pipeline raises,
    the response is the text "Error occurred: " followed by the
    exception, which is not empty. The steps are spelled out: the stream
    and the final run of the graph agent, those of the row agent, and
    the call of the reconciling model. The answer of an agent whose
    final state has no message is the fixed text "No response
    generated."; otherwise it is the content of the last message. The
    conversion of the history stands before the [try] statement: its
    exception leaves the endpoint, no agent and no model being called,
    and this is the only exception that leaves it; it does on a history
    entry without a role. *)
Theorem chat_handler_covers_pipeline_only :
  (forall (W : Type) (E : @App.env W) (request : App.ChatRequest) (w : W)
          (msgs : list message),
      App.history_messages (App.conversation request) = Returns msgs ->
      (exists response w', App.chat_with_llm E request w = (Returns response, w'))
      /\ (forall e w',
            App.pipeline E (App.new_message request) msgs w = (Raises e, w') ->
            App.chat_with_llm E request w
            = (Returns ("Error occurred: " +:+ exn_str e), w')
            /\ "Error occurred: " +:+ exn_str e <> EmptyString
            /\ String.prefix "Error occurred: " ("Error occurred: " +:+ exn_str e)
               = true)
      /\ (forall e w',
            App.kuzu_app_stream E msgs 10 w = (Raises e, w') ->
            App.chat_with_llm E request w
            = (Returns ("Error occurred: " +:+ exn_str e), w'))
      /\ (forall ev1 w1 u1 w1',
            App.kuzu_app_stream E msgs 10 w = (Returns ev1, w1) ->
            for_each ev1 App.print_event w1 = (Returns u1, w1') ->
            (forall e w',
                App.kuzu_app_invoke E msgs w1' = (Raises e, w') ->
                App.chat_with_llm E request w
                = (Returns ("Error occurred: " +:+ exn_str e), w'))
            /\ (forall st1 w2,
                  App.kuzu_app_invoke E msgs w1' = (Returns st1, w2) ->
                  (forall e w',
                      App.sqlite_app_stream E msgs 10 w2 = (Raises e, w') ->
                      App.chat_with_llm E request w
                      = (Returns ("Error occurred: " +:+ exn_str e), w'))
                  /\ (forall ev2 w3 u2 w3',
                        App.sqlite_app_stream E msgs 10 w2 = (Returns ev2, w3) ->
                        for_each ev2 App.print_event w3 = (Returns u2, w3') ->
                        (forall e w',
                            App.sqlite_app_invoke E msgs w3' = (Raises e, w') ->
                            App.chat_with_llm E request w
                            = (Returns ("Error occurred: " +:+ exn_str e), w'))
                        /\ (forall st2 w4 e w',
                              App.sqlite_app_invoke E msgs w3' = (Returns st2, w4) ->
                              App.llm_invoke E
                                (msgs ++ [HumanMessage
                                            (App.reconcile_query
                                               (App.new_message request)
                                               (App.final_answer st1)
                                               (App.final_answer st2))]) w4
                              = (Raises e, w') ->
                              App.chat_with_llm E request w
                              = (Returns ("Error occurred: " +:+ exn_str e),
                                 w'))))))
  /\ App.final_answer [] = "No response generated."
  /\ (forall pre m, App.final_answer (pre ++ [m]) = content m)
  /\ (forall (W : Type) (E : @App.env W) (request : App.ChatRequest) (w : W)
             (e : exn),
        App.history_messages (App.conversation request) = Raises e ->
        App.chat_with_llm E request w = (Raises e, w))
  /\ (forall (W : Type) (E : @App.env W) (request : App.ChatRequest)
             (w w' : W) (e : exn),
        App.chat_with_llm E request w = (Raises e, w') ->
        App.history_messages (App.conversation request) = Raises e /\ w' = w)
  /\ App.chat_with_llm (mock_app true) request_without_role []
     = (Raises (Exn "KeyError" "'role'"), []).
Proof.
  split; [|split; [|split; [|split; [|split]]]].
  - intros W E request w msgs Hh.
    split; [|split].
    + rewrite (chat_after_history E request msgs w Hh). apply try_except_returns.
    + intros e w' Hp. split; [|split].
      * apply (chat_error_response E request msgs w w' e Hh Hp).
      * discriminate.
      * apply prefix_append. apply prefix_refl.
    + apply (chat_step_failures E request msgs w Hh).
  - reflexivity.
  - intros pre m. apply final_answer_last.
  - intros W E request w e. apply chat_history_failure.
  - intros W E request w w' e. apply chat_raises_only_from_history.
  - vm_compute. reflexivity.
Qed.

(** With the graph agent down, the caller receives the error text. *)
Lemma chat_handler_covers_pipeline_only_witness :
  App.chat_with_llm (mock_app false) request_ok []
  = (Returns "Error occurred: Connection error.", []).
Proof.
  apply (proj1 (proj2 (proj1 chat_handler_covers_pipeline_only
                         (list string) (mock_app false) request_ok []
                         [HumanMessage "How many listings are there?";
                          AIMessage "Let me check." []]
                         ltac:(vm_compute; reflexivity)))
           (Exn "APIConnectionError" "Connection error.") []).
  reflexivity.
Defined.

(** With the same history in order, the endpoint answers. *)
Example chat_end_to_end :
  App.chat_with_llm (mock_app true) request_ok []
  = (Returns "There are two listings.",
     ["llm.invoke"; "sqlite.invoke"; "sqlite.stream"; "kuzu.invoke"; "kuzu.stream"]).
Proof. vm_compute. reflexivity. Qed.

(** * Further properties *)

(** ** The upload endpoint *)

Section Upload.

Lemma split_cons (sep : Ascii.ascii) (s : string) :
  exists seg segs, Endpoints.split sep s = seg :: segs.
Proof.
  induction s as [|c rest IH]; simpl; [eauto|].
  destruct (Ascii.eqb c sep); [eauto|].
  destruct IH as (seg & segs & ->). eauto.
Qed.

Lemma split_without_separator (sep : Ascii.ascii) (s : string) :
  occurs sep s = false -> Endpoints.split sep s = [s].
Proof.
  induction s as [|c rest IH]; simpl; [reflexivity|].
  intros H. apply orb_false_iff in H as [Hc Hrest].
  rewrite Hc, (IH Hrest). reflexivity.
Qed.

Lemma split_append (sep : Ascii.ascii) (a b : string) :
  Endpoints.split sep (a +:+ String sep b)
  = removelast (Endpoints.split sep a)
    ++ [List.last (Endpoints.split sep a) EmptyString]
    ++ Endpoints.split sep b.
Proof.
  induction a as [|c rest IH]; simpl.
  - rewrite Ascii.eqb_refl. reflexivity.
  - destruct (Ascii.eqb c sep) eqn:Hc.
    + rewrite IH. destruct (split_cons sep rest) as (seg & segs & Hs).
      rewrite Hs. reflexivity.
    + rewrite IH. destruct (split_cons sep rest) as (seg & segs & Hs).
      rewrite Hs. destruct segs as [|seg' segs']; simpl; reflexivity.
Qed.

Lemma segments_without_separator (sep : Ascii.ascii) (s : string) :
  Forall (fun seg => occurs sep seg = false) (Endpoints.split sep s).
Proof.
  induction s as [|c rest IH]; simpl.
  - repeat constructor.
  - destruct (Ascii.eqb c sep) eqn:Hc.
    + constructor; [reflexivity | exact IH].
    + destruct (split_cons sep rest) as (seg & segs & Hs).
      rewrite Hs in *. inversion IH; subst.
      constructor; [|assumption]. simpl. rewrite Hc. assumption.
Qed.

Lemma last_item_cons {A} (x : A) (xs : list A) :
  last_item (x :: xs) = Returns (List.last (x :: xs) x).
Proof.
  destruct (@exists_last _ (x :: xs)) as (pre & l & Heq); [discriminate|].
  rewrite Heq, last_item_app, last_last. reflexivity.
Qed.

Lemma extension_returned (filename : string) :
  last_item (Endpoints.split Endpoints.dot filename)
  = Returns (extension_of filename).
Proof.
  unfold extension_of. destruct (split_cons Endpoints.dot filename) as (seg & segs & ->).
  rewrite last_item_cons. reflexivity.
Qed.

Lemma upload_loop_accepts (files : list string) :
  forall acc,
    forallb (fun f => Endpoints.allowed (extension_of f)) files = true ->
    Endpoints.upload_loop files acc = Returns (acc ++ files).
Proof.
  induction files as [|f rest IH]; intros acc H; simpl.
  - rewrite app_nil_r. reflexivity.
  - simpl in H. apply andb_true_iff in H as [Hf Hrest].
    rewrite extension_returned, Hf. simpl.
    rewrite (IH _ Hrest), <- app_assoc. reflexivity.
Qed.

Lemma upload_loop_rejects (good : list string) :
  forall acc bad rest,
    forallb (fun f => Endpoints.allowed (extension_of f)) good = true ->
    Endpoints.allowed (extension_of bad) = false ->
    Endpoints.upload_loop (good ++ bad :: rest) acc
    = Raises (Endpoints.unsupported (extension_of bad)).
Proof.
  induction good as [|f good' IH]; intros acc bad rest Hgood Hbad; simpl.
  - rewrite extension_returned, Hbad. reflexivity.
  - simpl in Hgood. apply andb_true_iff in Hgood as [Hf Hgood'].
    rewrite extension_returned, Hf. simpl. apply IH; assumption.
Qed.

End Upload.

(** X1. [upload_rag_documents] accepts a batch exactly when the text
    after the last dot of every file name is one of pdf, txt, csv, json:
    then it returns all the names, in their order, and a message with
    their number. Otherwise it raises the 400 error that names the
    extension of the first file that is refused; the files after that one
    have no part in the answer. *)
Theorem upload_accepts_or_names_first_refusal (files : list string) :
  (forallb (fun f => Endpoints.allowed (extension_of f)) files = true ->
   Endpoints.upload_rag_documents files
   = Returns {| Endpoints.message :=
                  "Successfully uploaded " +:+ pretty (length files)
                  +:+ " documents.";
                Endpoints.filenames := files |})
  /\ (forall good bad rest,
        files = good ++ bad :: rest ->
        forallb (fun f => Endpoints.allowed (extension_of f)) good = true ->
        Endpoints.allowed (extension_of bad) = false ->
        Endpoints.upload_rag_documents files
        = Raises (Endpoints.unsupported (extension_of bad)))
  /\ (forall response,
        Endpoints.upload_rag_documents files = Returns response ->
        forallb (fun f => Endpoints.allowed (extension_of f)) files = true).
Proof.
  unfold Endpoints.upload_rag_documents. split; [|split].
  - intros H. rewrite (upload_loop_accepts files [] H). reflexivity.
  - intros good bad rest -> Hgood Hbad.
    rewrite (upload_loop_rejects good [] bad rest Hgood Hbad). reflexivity.
  - intros response H.
    destruct (forallb (fun f => Endpoints.allowed (extension_of f)) files) eqn:Hall;
      [reflexivity|].
    exfalso.
    assert (Hsplit : exists good bad rest,
               files = good ++ bad :: rest
               /\ forallb (fun f => Endpoints.allowed (extension_of f)) good = true
               /\ Endpoints.allowed (extension_of bad) = false).
    { clear H. induction files as [|f rest IH]; [discriminate|].
      simpl in Hall. destruct (Endpoints.allowed (extension_of f)) eqn:Hf.
      - destruct (IH Hall) as (good & bad & rest' & -> & Hg & Hb).
        exists (f :: good), bad, rest'. simpl. rewrite Hf. auto.
      - exists [], f, rest. auto. }
    destruct Hsplit as (good & bad & rest & -> & Hg & Hb).
    rewrite (upload_loop_rejects good [] bad rest Hg Hb) in H. discriminate.
Qed.

Lemma upload_accepts_or_names_first_refusal_witness :
  Endpoints.upload_rag_documents ["notes.txt"; "archive.tar.json"]
  = Returns {| Endpoints.message := "Successfully uploaded 2 documents.";
               Endpoints.filenames := ["notes.txt"; "archive.tar.json"] |}
  /\ Endpoints.upload_rag_documents ["notes.txt"; "scan.PDF"; "virus.exe"]
     = Raises (Exn "HTTPException"
                 "400: File type 'PDF' not supported. Please upload PDF, TXT, CSV, or JSON.").
Proof.
  split.
  - exact (proj1 (upload_accepts_or_names_first_refusal
                    ["notes.txt"; "archive.tar.json"]) eq_refl).
  - exact (proj1 (proj2 (upload_accepts_or_names_first_refusal
                           ["notes.txt"; "scan.PDF"; "virus.exe"]))
             ["notes.txt"] "scan.PDF" ["virus.exe"] eq_refl eq_refl eq_refl).
Defined.

(** X2. The extension that the upload endpoint tests is the text after
    the last dot of the file name: it never holds a dot, it is what
    follows the dot when that part holds none, and for a name without any
    dot it is the whole name, so that a file named [csv] passes while a
    name ending in a dot has the empty extension and is refused. *)
Theorem upload_extension_is_last_segment :
  (forall filename,
      exists extension,
        last_item (Endpoints.split Endpoints.dot filename) = Returns extension
        /\ occurs Endpoints.dot extension = false)
  /\ (forall stem extension,
        occurs Endpoints.dot extension = false ->
        last_item (Endpoints.split Endpoints.dot
                     (stem +:+ String Endpoints.dot extension))
        = Returns extension)
  /\ (forall filename,
        occurs Endpoints.dot filename = false ->
        last_item (Endpoints.split Endpoints.dot filename) = Returns filename)
  /\ (forall stem,
        Endpoints.upload_rag_documents [stem +:+ "."]
        = Raises (Endpoints.unsupported EmptyString)).
Proof.
  assert (Hafter : forall stem extension,
             occurs Endpoints.dot extension = false ->
             last_item (Endpoints.split Endpoints.dot
                          (stem +:+ String Endpoints.dot extension))
             = Returns extension).
  { intros stem extension H.
    rewrite split_append, (split_without_separator _ _ H).
    rewrite app_assoc. apply last_item_app. }
  split; [|split; [exact Hafter|split]].
  - intros filename. exists (extension_of filename).
    split; [apply extension_returned|].
    pose proof (segments_without_separator Endpoints.dot filename) as Hall.
    pose proof (extension_returned filename) as Hlast.
    destruct (split_cons Endpoints.dot filename) as (seg & segs & Hs).
    destruct (@exists_last _ (seg :: segs)) as (pre & l & Heq); [discriminate|].
    rewrite Hs, Heq in *. rewrite last_item_app in Hlast.
    injection Hlast as <-.
    apply Forall_app in Hall as [_ Hl]. inversion Hl; assumption.
  - intros filename H. rewrite (split_without_separator _ _ H). reflexivity.
  - intros stem. unfold Endpoints.upload_rag_documents. simpl.
    change (stem +:+ ".") with (stem +:+ String Endpoints.dot EmptyString).
    rewrite (Hafter stem EmptyString eq_refl). reflexivity.
Qed.

Lemma upload_extension_is_last_segment_witness :
  last_item (Endpoints.split Endpoints.dot "archive.tar.json") = Returns "json"
  /\ last_item (Endpoints.split Endpoints.dot "csv") = Returns "csv".
Proof.
  split.
  - exact (proj1 (proj2 upload_extension_is_last_segment)
             "archive.tar" "json" eq_refl).
  - exact (proj1 (proj2 (proj2 upload_extension_is_last_segment)) "csv" eq_refl).
Defined.

(** ** The speech endpoint *)

Section Strip.

(** The induction that follows [strip_head]: one, two or three bytes at
    a time. *)
Lemma bytes_ind3 (P : list Ascii.ascii -> Prop) :
  P [] ->
  (forall c1, P [c1]) ->
  (forall c1 c2, P [c1; c2]) ->
  (forall c1 c2 c3 r,
      P r -> P (c3 :: r) -> P (c2 :: c3 :: r) -> P (c1 :: c2 :: c3 :: r)) ->
  forall cs, P cs.
Proof.
  intros H0 H1 H2 H3 cs.
  assert (H : P cs /\ (forall a, P (a :: cs)) /\ (forall a b, P (a :: b :: cs))).
  { induction cs as [|c r (IH0 & IH1 & IH2)]; [auto|].
    split; [apply IH1|]. split; [intros a; apply IH2|].
    intros a b. apply H3; auto. }
  apply H.
Qed.

Lemma strip_head_cons3 (two : Ascii.ascii -> Ascii.ascii -> bool)
    (three : Ascii.ascii -> Ascii.ascii -> Ascii.ascii -> bool)
    (c1 c2 c3 : Ascii.ascii) (r : list Ascii.ascii) :
  strip_head two three (c1 :: c2 :: c3 :: r)
  = if is_space c1 then strip_head two three (c2 :: c3 :: r)
    else if two c1 c2 then strip_head two three (c3 :: r)
    else if three c1 c2 c3 then strip_head two three r
    else c1 :: c2 :: c3 :: r.
Proof. reflexivity. Qed.

Lemma strip_head_cons2 (two : Ascii.ascii -> Ascii.ascii -> bool)
    (three : Ascii.ascii -> Ascii.ascii -> Ascii.ascii -> bool)
    (c1 c2 : Ascii.ascii) :
  strip_head two three [c1; c2]
  = if is_space c1 then strip_head two three [c2]
    else if two c1 c2 then [] else [c1; c2].
Proof. reflexivity. Qed.

Lemma strip_head_cons1 (two : Ascii.ascii -> Ascii.ascii -> bool)
    (three : Ascii.ascii -> Ascii.ascii -> Ascii.ascii -> bool)
    (c1 : Ascii.ascii) :
  strip_head two three [c1] = if is_space c1 then [] else [c1].
Proof. reflexivity. Qed.

Section Head.
Variable two : Ascii.ascii -> Ascii.ascii -> bool.
Variable three : Ascii.ascii -> Ascii.ascii -> Ascii.ascii -> bool.

(** What is stripped is a prefix. *)
Lemma strip_head_suffix (cs : list Ascii.ascii) :
  exists dropped, cs = dropped ++ strip_head two three cs.
Proof.
  induction cs as [|c1|c1 c2|c1 c2 c3 r IHr IH3 IH23] using bytes_ind3.
  - exists []. reflexivity.
  - rewrite strip_head_cons1. destruct (is_space c1);
      [exists [c1] | exists []]; reflexivity.
  - rewrite strip_head_cons2, strip_head_cons1.
    destruct (is_space c1).
    + destruct (is_space c2); [exists [c1; c2] | exists [c1]]; reflexivity.
    + destruct (two c1 c2); [exists [c1; c2] | exists []]; reflexivity.
  - rewrite strip_head_cons3. destruct (is_space c1).
    { destruct IH23 as [d Hd]. exists (c1 :: d). cbn [app]. f_equal. exact Hd. }
    destruct (two c1 c2).
    { destruct IH3 as [d Hd]. exists (c1 :: c2 :: d). cbn [app]. do 2 f_equal.
      exact Hd. }
    destruct (three c1 c2 c3).
    { destruct IHr as [d Hd]. exists (c1 :: c2 :: c3 :: d). cbn [app].
      do 3 f_equal. exact Hd. }
    exists []. reflexivity.
Qed.

(** What is left does not start with a whitespace character. *)
Lemma strip_head_start (cs : list Ascii.ascii) :
  starts_with_space two three (strip_head two three cs) = false.
Proof.
  induction cs as [|c1|c1 c2|c1 c2 c3 r IHr IH3 IH23] using bytes_ind3.
  - reflexivity.
  - rewrite strip_head_cons1. destruct (is_space c1) eqn:H1; [reflexivity|].
    simpl. rewrite H1. reflexivity.
  - rewrite strip_head_cons2, strip_head_cons1.
    destruct (is_space c1) eqn:H1.
    + destruct (is_space c2) eqn:H2; [reflexivity|]. simpl. rewrite H2. reflexivity.
    + destruct (two c1 c2) eqn:H12; [reflexivity|]. simpl. rewrite H1, H12.
      reflexivity.
  - rewrite strip_head_cons3. destruct (is_space c1) eqn:H1; [exact IH23|].
    destruct (two c1 c2) eqn:H12; [exact IH3|].
    destruct (three c1 c2 c3) eqn:H123; [exact IHr|].
    simpl. rewrite H1, H12, H123. reflexivity.
Qed.

Lemma starts_with_space_app (x y : list Ascii.ascii) :
  starts_with_space two three x = true ->
  starts_with_space two three (x ++ y) = true.
Proof.
  destruct x as [|c1 [|c2 [|c3 r]]]; simpl; try discriminate.
  - rewrite !orb_false_r. intros ->. reflexivity.
  - rewrite !orb_false_r. intros H.
    apply orb_true_iff in H as [-> | ->]; [reflexivity|].
    destruct y; simpl; rewrite ?orb_true_r; reflexivity.
  - auto.
Qed.

(** Bytes in reverse order that are all stripped are, in their order,
    whitespace characters one after the other; they start with one. *)
Lemma strip_head_reversed_nil (m : list Ascii.ascii) :
  strip_head (fun c2 c1 => two c1 c2) (fun c3 c2 c1 => three c1 c2 c3) m = [] ->
  m <> [] ->
  starts_with_space two three (rev m) = true.
Proof.
  induction m as [|c1|c1 c2|c1 c2 c3 r IHr IH3 IH23] using bytes_ind3.
  - congruence.
  - rewrite strip_head_cons1. destruct (is_space c1) eqn:H1; [|discriminate].
    intros _ _. simpl. rewrite H1. reflexivity.
  - rewrite strip_head_cons2, strip_head_cons1. intros H _.
    destruct (is_space c1) eqn:H1.
    + destruct (is_space c2) eqn:H2; [|discriminate H]. simpl. rewrite H2.
      reflexivity.
    + destruct (two c2 c1) eqn:H21; [|discriminate H]. simpl. rewrite H21.
      apply orb_true_r.
  - rewrite strip_head_cons3. intros H _.
    destruct (is_space c1) eqn:H1.
    { change (rev (c1 :: c2 :: c3 :: r)) with (rev (c2 :: c3 :: r) ++ [c1]).
      apply starts_with_space_app. apply IH23; [exact H | discriminate]. }
    destruct (two c2 c1) eqn:H21.
    { change (rev (c1 :: c2 :: c3 :: r)) with ((rev (c3 :: r) ++ [c2]) ++ [c1]).
      rewrite <- app_assoc. apply starts_with_space_app.
      apply IH3; [exact H | discriminate]. }
    destruct (three c3 c2 c1) eqn:H321; [|discriminate H].
    destruct r as [|c4 r'].
    + simpl. rewrite H321. rewrite !orb_true_r. reflexivity.
    + change (rev (c1 :: c2 :: c3 :: c4 :: r'))
        with (((rev (c4 :: r') ++ [c3]) ++ [c2]) ++ [c1]).
      rewrite <- !app_assoc. apply starts_with_space_app.
      apply IHr; [exact H | discriminate].
Qed.

End Head.

Lemma lstrip_chars_nil (cs : list Ascii.ascii) :
  lstrip_chars cs = [] <-> all_space cs = true.
Proof.
  unfold lstrip_chars.
  induction cs as [|c1|c1 c2|c1 c2 c3 r IHr IH3 IH23] using bytes_ind3.
  - simpl. tauto.
  - rewrite strip_head_cons1. simpl. destruct (is_space c1); split;
      auto; discriminate.
  - rewrite strip_head_cons2, strip_head_cons1. simpl.
    destruct (is_space c1).
    + destruct (is_space c2); split; auto; discriminate.
    + destruct (is_space2 c1 c2); split; auto; discriminate.
  - rewrite strip_head_cons3.
    change (all_space (c1 :: c2 :: c3 :: r))
      with (if is_space c1 then all_space (c2 :: c3 :: r)
            else if is_space2 c1 c2 then all_space (c3 :: r)
            else is_space3 c1 c2 c3 && all_space r).
    destruct (is_space c1); [exact IH23|].
    destruct (is_space2 c1 c2); [exact IH3|].
    destruct (is_space3 c1 c2 c3); [exact IHr|].
    split; discriminate.
Qed.

(** [strip] leaves nothing exactly of the texts that hold only
    whitespace. *)
Lemma strip_empty_iff (text : string) :
  Endpoints.is_empty (strip text) = blank text.
Proof.
  unfold strip, blank. set (cs := String.list_ascii_of_string text).
  destruct (all_space cs) eqn:Hall.
  - apply lstrip_chars_nil in Hall. rewrite Hall. reflexivity.
  - destruct (lstrip_chars cs) as [|c rest] eqn:Hl.
    { apply lstrip_chars_nil in Hl. congruence. }
    pose proof (strip_head_start is_space2 is_space3 cs) as Hstart.
    fold lstrip_chars in Hstart. rewrite Hl in Hstart.
    destruct (rstrip_reversed (rev (c :: rest))) as [|d ds] eqn:Hr.
    { assert (Hne : rev (c :: rest) <> []).
      { intros H. apply (f_equal (@length _)) in H. rewrite length_rev in H.
        discriminate H. }
      pose proof (strip_head_reversed_nil is_space2 is_space3 _ Hr Hne) as H.
      rewrite rev_involutive in H. congruence. }
    destruct (rev (d :: ds)) as [|x xs] eqn:Hrev.
    { apply (f_equal (@length _)) in Hrev. rewrite length_rev in Hrev.
      discriminate Hrev. }
    reflexivity.
Qed.

(** What [strip] returns has no whitespace at either end. *)
Lemma strip_trimmed (s : string) : trimmed (strip s) = true.
Proof.
  unfold trimmed, strip. rewrite String.list_ascii_of_string_of_list_ascii.
  set (l1 := lstrip_chars (String.list_ascii_of_string s)).
  set (l2 := rstrip_reversed (rev l1)).
  rewrite rev_involutive.
  assert (Hend : starts_with_space (fun c2 c1 => is_space2 c1 c2)
                   (fun c3 c2 c1 => is_space3 c1 c2 c3) l2 = false)
    by apply strip_head_start.
  rewrite Hend.
  destruct (starts_with_space is_space2 is_space3 (rev l2)) eqn:Hstart;
    [|reflexivity].
  exfalso.
  destruct (strip_head_suffix (fun c2 c1 => is_space2 c1 c2)
              (fun c3 c2 c1 => is_space3 c1 c2 c3) (rev l1)) as [dropped Hsuf].
  fold rstrip_reversed in Hsuf. fold l2 in Hsuf.
  assert (Hl1 : l1 = rev l2 ++ rev dropped).
  { rewrite <- rev_app_distr, <- Hsuf, rev_involutive. reflexivity. }
  pose proof (strip_head_start is_space2 is_space3
                (String.list_ascii_of_string s)) as H1.
  fold lstrip_chars in H1. fold l1 in H1.
  rewrite Hl1, (starts_with_space_app _ _ _ _ Hstart) in H1. discriminate H1.
Qed.

End Strip.

Section Speak.
Context {W tts : Type}.

Lemma text_to_speech_after_clock (E : @Endpoints.env W tts) (text : string) (w : W) :
  Endpoints.text_to_speech E text w
  = (if blank text then
       ret {| Endpoints.audio_url := EmptyString;
              Endpoints.tts_time := Numpy.fzero |}
     else
       try_except
         (bind (Endpoints.gTTS E text "en") (fun speech =>
          bind (Endpoints.write_to_fp E speech) (fun audio_bytes =>
          bind (Endpoints.clock E) (fun now =>
          ret {| Endpoints.audio_url := Endpoints.b64encode E audio_bytes;
                 Endpoints.tts_time :=
                   Endpoints.fsub now (fst (Endpoints.time_time E w)) |}))))
         (fun e =>
            bind (Endpoints.clock E) (fun now =>
            ret {| Endpoints.audio_url := EmptyString;
                   Endpoints.tts_time :=
                     Endpoints.fsub now (fst (Endpoints.time_time E w)) |})))
      (snd (Endpoints.time_time E w)).
Proof.
  rewrite <- strip_empty_iff. unfold Endpoints.text_to_speech.
  unfold bind at 1. unfold Endpoints.clock at 1.
  destruct (Endpoints.is_empty (strip text)); reflexivity.
Qed.

Lemma speech_handler_returns (E : @Endpoints.env W tts) (t0 : Numpy.float) (w : W) :
  bind (Endpoints.clock E) (fun now =>
    ret {| Endpoints.audio_url := EmptyString;
           Endpoints.tts_time := Endpoints.fsub now t0 |}) w
  = (Returns {| Endpoints.audio_url := EmptyString;
                Endpoints.tts_time :=
                  Endpoints.fsub (fst (Endpoints.time_time E w)) t0 |},
     snd (Endpoints.time_time E w)).
Proof. reflexivity. Qed.

(** X3. [text_to_speech] never raises: whatever the speech provider and
    the clock do, it returns a response. When the provider raises, on
    construction or while writing the audio, the response carries an empty
    [audio_url]: the failure is not reported to the caller. *)
Theorem text_to_speech_never_raises (E : @Endpoints.env W tts)
    (text : string) (w : W) :
  (exists response w',
      Endpoints.text_to_speech E text w = (Returns response, w'))
  /\ (forall e w',
        blank text = false ->
        Endpoints.gTTS E text "en" (snd (Endpoints.time_time E w))
        = (Raises e, w') ->
        exists response w'',
          Endpoints.text_to_speech E text w = (Returns response, w'')
          /\ Endpoints.audio_url response = EmptyString)
  /\ (forall speech w1 e w',
        blank text = false ->
        Endpoints.gTTS E text "en" (snd (Endpoints.time_time E w))
        = (Returns speech, w1) ->
        Endpoints.write_to_fp E speech w1 = (Raises e, w') ->
        exists response w'',
          Endpoints.text_to_speech E text w = (Returns response, w'')
          /\ Endpoints.audio_url response = EmptyString).
Proof.
  rewrite text_to_speech_after_clock.
  split; [|split].
  - destruct (blank text); [unfold ret; eauto|].
    unfold try_except.
    destruct (bind (Endpoints.gTTS E text "en") _ _) as [[r|e] w1].
    + eauto.
    + rewrite speech_handler_returns. eauto.
  - intros e w' Hb Hg. rewrite Hb. unfold try_except.
    rewrite (bind_raises_first _ _ _ _ _ Hg), speech_handler_returns. eauto.
  - intros speech w1 e w' Hb Hg Hw. rewrite Hb. unfold try_except.
    rewrite (bind_step _ _ _ _ _ Hg), (bind_raises_first _ _ _ _ _ Hw),
      speech_handler_returns.
    eauto.
Qed.

(** X4. For a text that is empty or holds only whitespace, the
    whitespace of Unicode included ([str.strip] removes U+00A0 or U+3000
    as it removes a space), [text_to_speech] answers with an empty
    [audio_url] and a time of 0 after reading the clock once, and it does
    not consult the speech provider: the outcome is the same for every
    provider and encoder. For any other text the provider is given the
    text as it came, not stripped, and on success the [audio_url] is the
    encoded audio. *)
Theorem text_to_speech_blank_skips_provider (E : @Endpoints.env W tts)
    (text : string) (w : W) :
  (blank text = true ->
   Endpoints.text_to_speech E text w
   = (Returns {| Endpoints.audio_url := EmptyString;
                 Endpoints.tts_time := Numpy.fzero |},
      snd (Endpoints.time_time E w))
   /\ forall E' : @Endpoints.env W tts,
        Endpoints.time_time E' = Endpoints.time_time E ->
        Endpoints.text_to_speech E' text w = Endpoints.text_to_speech E text w)
  /\ (blank text = false ->
      forall speech w1 audio_bytes w2,
        Endpoints.gTTS E text "en" (snd (Endpoints.time_time E w))
        = (Returns speech, w1) ->
        Endpoints.write_to_fp E speech w1 = (Returns audio_bytes, w2) ->
        Endpoints.text_to_speech E text w
        = (Returns {| Endpoints.audio_url := Endpoints.b64encode E audio_bytes;
                      Endpoints.tts_time :=
                        Endpoints.fsub (fst (Endpoints.time_time E w2))
                          (fst (Endpoints.time_time E w)) |},
           snd (Endpoints.time_time E w2))).
Proof.
  split.
  - intros Hb. split.
    + rewrite text_to_speech_after_clock, Hb. reflexivity.
    + intros E' Ht. rewrite !text_to_speech_after_clock, Hb, Ht. reflexivity.
  - intros Hb speech w1 audio_bytes w2 Hg Hw.
    rewrite text_to_speech_after_clock, Hb. unfold try_except.
    rewrite (bind_step _ _ _ _ _ Hg), (bind_step _ _ _ _ _ Hw). reflexivity.
Qed.

End Speak.

Lemma text_to_speech_never_raises_witness :
  exists response w'',
    Endpoints.text_to_speech (mock_speech false) "Hello" 0 = (Returns response, w'')
    /\ Endpoints.audio_url response = EmptyString.
Proof.
  apply (proj1 (proj2 (text_to_speech_never_raises (mock_speech false) "Hello" 0))
           (Exn "gTTSError" "Failed to connect.") 1);
    reflexivity.
Defined.

Lemma text_to_speech_blank_skips_provider_witness :
  Endpoints.text_to_speech (mock_speech true) ("  " +:+ nl) 0
  = (Returns {| Endpoints.audio_url := EmptyString;
                Endpoints.tts_time := Numpy.fzero |}, 1)
  /\ Endpoints.text_to_speech (mock_speech true)
       (no_break_space +:+ " " +:+ ideographic_space) 0
     = (Returns {| Endpoints.audio_url := EmptyString;
                   Endpoints.tts_time := Numpy.fzero |}, 1)
  /\ Endpoints.text_to_speech (mock_speech true) " Hi" 0
     = (Returns {| Endpoints.audio_url := "AAAAAA";
                   Endpoints.tts_time := Numpy.of_Z 1 |}, 2).
Proof.
  split; [|split].
  - exact (proj1 (proj1 (text_to_speech_blank_skips_provider
                           (mock_speech true) ("  " +:+ nl) 0) eq_refl)).
  - exact (proj1 (proj1 (text_to_speech_blank_skips_provider
                           (mock_speech true)
                           (no_break_space +:+ " " +:+ ideographic_space) 0)
                    eq_refl)).
  - exact (proj2 (text_to_speech_blank_skips_provider (mock_speech true) " Hi" 0)
             eq_refl " Hi" 1 [Byte.x00; Byte.x00; Byte.x00] 1 eq_refl eq_refl).
Defined.

(** ** The nodes of the agents *)

Section Edges.

(** The states of a conversation by their last message. *)
Lemma state_cases (messages : list message) :
  messages = []
  \/ (exists pre c, messages = pre ++ [HumanMessage c])
  \/ (exists pre c id, messages = pre ++ [ToolMessage c id])
  \/ (exists pre c, messages = pre ++ [AIMessage c []])
  \/ (exists pre c tc tcs, messages = pre ++ [AIMessage c (tc :: tcs)]).
Proof.
  destruct messages as [|m ms]; [left; reflexivity|]. right.
  destruct (@exists_last _ (m :: ms)) as (pre & l & ->); [discriminate|].
  destruct l as [c|c [|tc tcs]|c id]; eauto 10.
Qed.

Lemma should_continue_execute_inv (messages : list message) :
  Sqlite.should_continue messages = Returns execute_tool ->
  exists pre c tc tcs, messages = pre ++ [AIMessage c (tc :: tcs)].
Proof.
  unfold Sqlite.should_continue.
  destruct (state_cases messages)
    as [->|[(pre & c & ->)|[(pre & c & id & ->)|[(pre & c & ->)|H]]]];
    rewrite ?last_item_app; simpl; try discriminate.
  intros _. exact H.
Qed.

End Edges.

(** X5. The conditional edge of both agents looks at the last message
    only. It ends the loop exactly when that message is an assistant
    message without tool-call requests, and goes to the tool exactly when
    it is an assistant message with at least one request. On an empty
    state it raises [IndexError], and after a human or tool message
    [AttributeError]. The two files decide alike. *)
Theorem should_continue_reads_last_message (messages : list message) :
  (Sqlite.should_continue messages = Returns END
   <-> exists pre c, messages = pre ++ [AIMessage c []])
  /\ (Sqlite.should_continue messages = Returns execute_tool
      <-> exists pre c tc tcs, messages = pre ++ [AIMessage c (tc :: tcs)])
  /\ ((exists e, Sqlite.should_continue messages = Raises e)
      <-> messages = []
          \/ (exists pre c, messages = pre ++ [HumanMessage c])
          \/ (exists pre c id, messages = pre ++ [ToolMessage c id]))
  /\ Kuzu.should_continue messages = Sqlite.should_continue messages.
Proof.
  assert (Hcases : messages = [] \/ exists pre m, messages = pre ++ [m]).
  { destruct messages as [|m ms]; [left; reflexivity|]. right.
    destruct (@exists_last _ (m :: ms)) as (pre & l & ->); [discriminate|]. eauto. }
  unfold Sqlite.should_continue, Kuzu.should_continue.
  destruct Hcases as [->|(pre & m & ->)].
  - simpl. repeat split; try discriminate.
    + intros (pre & c & H). destruct pre; discriminate.
    + intros (pre & c & tc & tcs & H). destruct pre; discriminate.
    + auto.
    + eauto.
  - rewrite last_item_app.
    assert (Hinj : forall pre' m', pre ++ [m] = pre' ++ [m'] -> m = m').
    { intros pre' m' H. apply app_inj_tail in H as [_ H]. exact H. }
    destruct m as [c|c [|tc tcs]|c id]; simpl; repeat split;
      try discriminate; try reflexivity; eauto.
    all: try (intros (pre' & c' & H); apply Hinj in H; discriminate).
    all: try (intros (pre' & c' & tc' & tcs' & H); apply Hinj in H; discriminate).
    all: try (intros [e He]; discriminate).
    all: try (intros [H | [(pre' & c' & H) | (pre' & c' & id' & H)]];
              [destruct pre; discriminate | apply Hinj in H; discriminate
              | apply Hinj in H; discriminate]).
    intros _. right. right. eauto.
Qed.

(** X6. The Act step of the row-store agent. On a state for which the
    conditional edge chooses the tool, [call_tool] returns exactly one
    tool message, keyed by the first request, or it raises the
    [ValidationError] of a [run_sql] request without a [query] argument,
    the store untouched; no failure of the engine can make it raise. On
    every other state it raises [IndexError] or [AttributeError] and
    touches nothing. *)
Theorem act_step_row_store {W value connection cursor : Type}
    (E : @Sqlite.env W value connection cursor) (messages : list message) (w : W) :
  (Sqlite.should_continue messages = Returns execute_tool ->
   (exists pre c tc tcs result w',
       messages = pre ++ [AIMessage c (tc :: tcs)]
       /\ Sqlite.call_tool E messages w
          = (Returns [ToolMessage result (tc_id tc)], w'))
   \/ (exists e,
         exn_class e = "ValidationError"
         /\ Sqlite.call_tool E messages w = (Raises e, w)))
  /\ (Sqlite.should_continue messages <> Returns execute_tool ->
      exists e,
        (exn_class e = "IndexError" \/ exn_class e = "AttributeError")
        /\ Sqlite.call_tool E messages w = (Raises e, w)).
Proof.
  split.
  - intros H. apply should_continue_execute_inv in H as (pre & c & tc & tcs & ->).
    rewrite sqlite_call_tool_first.
    destruct (String.eqb (tc_name tc) "run_sql").
    + unfold tool_invoke. destruct (tc_args tc !! "query") as [query|].
      * left.
        destruct (try_except_returns (Sqlite.run_sql_try E query)
                    (fun e => Sqlite.Text ("Error executing query: " +:+ exn_str e)) w)
          as (r & w1 & Hrun).
        change (Sqlite.run_sql E query w = (Returns r, w1)) in Hrun.
        exists pre, c, tc, tcs, (Sqlite.str_result E r), w1.
        rewrite (bind_step _ _ _ _ _ Hrun). auto.
      * right. eexists. split; [|reflexivity]. reflexivity.
    + left. exists pre, c, tc, tcs, "Error: Unknown tool.", w. auto.
  - intros H.
    destruct (state_cases messages)
      as [->|[(pre & c & ->)|[(pre & c & id & ->)|[(pre & c & ->)
          |(pre & c & tc & tcs & ->)]]]].
    + eexists. split; [|reflexivity]. left. reflexivity.
    + unfold Sqlite.call_tool, bind, lift. rewrite last_item_app.
      eexists. split; [|reflexivity]. right. reflexivity.
    + unfold Sqlite.call_tool, bind, lift. rewrite last_item_app.
      eexists. split; [|reflexivity]. right. reflexivity.
    + unfold Sqlite.call_tool, bind, lift. rewrite last_item_app.
      eexists. split; [|reflexivity]. left. reflexivity.
    + exfalso. apply H. unfold Sqlite.should_continue.
      rewrite last_item_app. reflexivity.
Qed.

Lemma act_step_row_store_witness :
  (exists e,
      exn_class e = "ValidationError"
      /\ Sqlite.call_tool (mock_sqlite model_answers)
           [AIMessage EmptyString
              [ToolCall "run_sql" {[ "sql" := "SELECT 1" ]} "call_1"]] []
         = (Raises e, []))
  /\ exists e,
       (exn_class e = "IndexError" \/ exn_class e = "AttributeError")
       /\ Sqlite.call_tool (mock_sqlite model_answers)
            [HumanMessage "How many listings are there?"] []
          = (Raises e, []).
Proof.
  split.
  - destruct (proj1 (act_step_row_store (mock_sqlite model_answers)
                       [AIMessage EmptyString
                          [ToolCall "run_sql" {[ "sql" := "SELECT 1" ]} "call_1"]] [])
                eq_refl)
      as [(pre & c & tc & tcs & result & w' & _ & H)|H].
    + vm_compute in H. discriminate.
    + exact H.
  - apply (proj2 (act_step_row_store (mock_sqlite model_answers)
                    [HumanMessage "How many listings are there?"] [])).
    vm_compute. discriminate.
Defined.

(** X7. The Act step of the graph-store agent. On a state for which the
    conditional edge chooses the tool, [call_tool] returns exactly one
    tool message, keyed by the first request, or raises the
    [ValidationError] of a request without a [question] argument, or
    raises what the tool itself raised before its [try] statement. On
    every other state it raises [IndexError] or [AttributeError] and
    touches nothing. *)
Theorem act_step_graph_store {W cell database connection query_result : Type}
    (E : @Kuzu.env W cell database connection query_result)
    (messages : list message) (w : W) :
  (Kuzu.should_continue messages = Returns execute_tool ->
   (exists pre c tc tcs result w',
       messages = pre ++ [AIMessage c (tc :: tcs)]
       /\ Kuzu.call_tool E messages w
          = (Returns [ToolMessage (Kuzu.str_result result) (tc_id tc)], w'))
   \/ (exists e,
         exn_class e = "ValidationError"
         /\ Kuzu.call_tool E messages w = (Raises e, w))
   \/ (exists question e w',
         Kuzu.query_real_estate_database E question w = (Raises e, w')
         /\ Kuzu.call_tool E messages w = (Raises e, w')))
  /\ (Kuzu.should_continue messages <> Returns execute_tool ->
      exists e,
        (exn_class e = "IndexError" \/ exn_class e = "AttributeError")
        /\ Kuzu.call_tool E messages w = (Raises e, w)).
Proof.
  split.
  - intros H. change (Sqlite.should_continue messages = Returns execute_tool) in H.
    apply should_continue_execute_inv in H as (pre & c & tc & tcs & ->).
    rewrite kuzu_call_tool_first. unfold tool_invoke.
    destruct (tc_args tc !! "question") as [question|].
    + destruct (Kuzu.query_real_estate_database E question w) as [[r|e] w1] eqn:Ht.
      * left. exists pre, c, tc, tcs, r, w1.
        rewrite (bind_step _ _ _ _ _ Ht). auto.
      * right. right. exists question, e, w1.
        rewrite (bind_raises_first _ _ _ _ _ Ht). auto.
    + right. left. eexists. split; [|reflexivity]. reflexivity.
  - intros H.
    destruct (state_cases messages)
      as [->|[(pre & c & ->)|[(pre & c & id & ->)|[(pre & c & ->)
          |(pre & c & tc & tcs & ->)]]]].
    + eexists. split; [|reflexivity]. left. reflexivity.
    + unfold Kuzu.call_tool, bind, lift. rewrite last_item_app.
      eexists. split; [|reflexivity]. right. reflexivity.
    + unfold Kuzu.call_tool, bind, lift. rewrite last_item_app.
      eexists. split; [|reflexivity]. right. reflexivity.
    + unfold Kuzu.call_tool, bind, lift. rewrite last_item_app.
      eexists. split; [|reflexivity]. left. reflexivity.
    + exfalso. apply H. unfold Kuzu.should_continue.
      rewrite last_item_app. reflexivity.
Qed.

Lemma act_step_graph_store_witness :
  exists e,
    (exn_class e = "IndexError" \/ exn_class e = "AttributeError")
    /\ Kuzu.call_tool
         (mock_kuzu (llm_says "NORMAL_QUERY") true (Returns near_first)
            model_answers)
         [AIMessage EmptyString []] []
       = (Raises e, []).
Proof.
  apply (proj2 (act_step_graph_store
                  (mock_kuzu (llm_says "NORMAL_QUERY") true (Returns near_first)
                     model_answers)
                  [AIMessage EmptyString []] [])).
  vm_compute. discriminate.
Defined.

Section Contains.

Lemma contains_prefix (needle hay : string) :
  String.prefix needle hay = true -> contains needle hay = true.
Proof. intros H. destruct hay; cbn [contains]; rewrite H; reflexivity. Qed.

Lemma contains_append_r (needle hay rest : string) :
  contains needle hay = true -> contains needle (hay +:+ rest) = true.
Proof.
  induction hay as [|c hay IH]; cbn [contains].
  - change (EmptyString +:+ rest) with rest.
    destruct (String.prefix needle EmptyString) eqn:Hp; intros H;
      [|discriminate H].
    apply contains_prefix.
    apply (prefix_append needle EmptyString rest Hp).
  - change (String c hay +:+ rest) with (String c (hay +:+ rest)).
    cbn [contains].
    destruct (String.prefix needle (String c hay)) eqn:Hp; intros H.
    + pose proof (prefix_append needle (String c hay) rest Hp) as Hp'.
      change (String c hay +:+ rest) with (String c (hay +:+ rest)) in Hp'.
      rewrite Hp'. reflexivity.
    + destruct (String.prefix needle (String c (hay +:+ rest))); [reflexivity|].
      apply IH. exact H.
Qed.

Lemma contains_append_l (needle before hay : string) :
  contains needle hay = true -> contains needle (before +:+ hay) = true.
Proof.
  intros H. induction before as [|c before IH]; [exact H|].
  change (String c before +:+ hay) with (String c (before +:+ hay)).
  cbn [contains].
  destruct (String.prefix needle (String c (before +:+ hay))); [reflexivity|].
  exact IH.
Qed.

(** A text occurs in every text built around it. *)
Lemma contains_middle (needle before after : string) :
  contains needle (before +:+ needle +:+ after) = true.
Proof.
  apply contains_append_l, contains_append_r, contains_prefix, prefix_refl.
Qed.

End Contains.

(** X8. The Decide step. In the row-store agent the schema text is read
    afresh at every step and stands verbatim in the first message given
    to the model, which is followed by the conversation as it is; in the
    graph-store agent the first message is a fixed text that does not
    hold the schema. In both, the answer of the model is the one message
    returned, and a failure of the introspection ends the step before the
    model is called, also in the graph-store agent whose prompt has no
    use for the schema. *)
Theorem decide_step_prompt :
  (forall db_schema,
      contains db_schema (Sqlite.system_prompt db_schema) = true)
  /\ (forall (W value connection cursor : Type)
             (E : @Sqlite.env W value connection cursor)
             (messages : list message) (w : W),
        (forall s w1,
            Sqlite.get_db_schema E Sqlite.DB_PATH w = (Returns s, w1) ->
            Sqlite.call_model E messages w
            = bind (Sqlite.llm_with_tools_invoke E
                      (HumanMessage (Sqlite.system_prompt s) :: messages))
                (fun response => ret [response]) w1)
        /\ (forall e w1,
              Sqlite.get_db_schema E Sqlite.DB_PATH w = (Raises e, w1) ->
              Sqlite.call_model E messages w = (Raises e, w1)))
  /\ (forall (W cell database connection query_result : Type)
             (E : @Kuzu.env W cell database connection query_result)
             (messages : list message) (w : W),
        (forall s w1,
            Kuzu.get_db_schema E Kuzu.DB_PATH w = (Returns s, w1) ->
            Kuzu.call_model E messages w
            = bind (Kuzu.llm_with_tools_invoke E
                      (HumanMessage Kuzu.system_prompt :: messages))
                (fun response => ret [response]) w1)
        /\ (forall e w1,
              Kuzu.get_db_schema E Kuzu.DB_PATH w = (Raises e, w1) ->
              Kuzu.call_model E messages w = (Raises e, w1))).
Proof.
  split; [|split].
  - intros db_schema. unfold Sqlite.system_prompt.
    do 4 apply contains_append_l. apply contains_append_r.
    apply contains_prefix, prefix_refl.
  - intros W value connection cursor E messages w. split.
    + intros s w1 H. unfold Sqlite.call_model.
      rewrite (bind_step _ _ _ _ _ H). reflexivity.
    + intros e w1 H. unfold Sqlite.call_model.
      apply bind_raises_first. exact H.
  - intros W cell database connection query_result E messages w. split.
    + intros s w1 H. unfold Kuzu.call_model.
      rewrite (bind_step _ _ _ _ _ H). reflexivity.
    + intros e w1 H. unfold Kuzu.call_model.
      apply bind_raises_first. exact H.
Qed.

Lemma decide_step_prompt_witness :
  Sqlite.call_model (mock_sqlite model_answers)
    [HumanMessage "How many listings are there?"] []
  = (Returns [AIMessage "There are two listings." []],
     ["PRAGMA table_info(listings);";
      "SELECT name FROM sqlite_master WHERE type='table';"])
  /\ Kuzu.call_model
       (mock_kuzu (llm_says "NORMAL_QUERY") false (Returns near_first) model_answers)
       [HumanMessage "Hello"] []
     = (Raises (Exn "RuntimeError" "IO exception: Could not set lock on file"), []).
Proof.
  split.
  - rewrite (proj1 (proj1 (proj2 decide_step_prompt) (list string) string unit unit
                      (mock_sqlite model_answers)
                      [HumanMessage "How many listings are there?"] [])
               ("Database schema:" +:+ nl +:+ "Table 'listings':" +:+ nl
                +:+ "  - id (INTEGER)" +:+ nl +:+ "  - address (TEXT)" +:+ nl)
               ["PRAGMA table_info(listings);";
                "SELECT name FROM sqlite_master WHERE type='table';"]
               eq_refl).
    reflexivity.
  - apply (proj2 (proj2 (proj2 decide_step_prompt) (list string) string unit unit
                    (string * list (string * string))%type
                    (mock_kuzu (llm_says "NORMAL_QUERY") false (Returns near_first)
                       model_answers)
                    [HumanMessage "Hello"] [])).
    reflexivity.
Defined.

(** ** The text of the schema *)

Section SchemaText.

Lemma sqlite_schema_rendering {W value connection cursor : Type}
    (E : @Sqlite.env W value connection cursor) (db_path s : string) (w w' : W) :
  Sqlite.get_db_schema E db_path w = (Returns s, w') ->
  exists schema, s = render_sqlite schema.
Proof.
  unfold Sqlite.get_db_schema. intros H.
  apply bind_returns in H as (conn & w1 & _ & H).
  apply bind_returns in H as (cur & w2 & _ & H).
  apply bind_returns in H as ([] & w3 & _ & H).
  apply bind_returns in H as (tables & w4 & _ & H).
  apply bind_returns in H as (text & w5 & Hloop & H).
  apply bind_returns in H as ([] & w6 & _ & H).
  unfold ret in H. injection H as <- _.
  revert Hloop.
  apply (fold_m_invariant (fun s => exists schema, s = render_sqlite schema)).
  - intros acc x v acc' v' [schema ->] Hbody.
    apply bind_returns in Hbody as (table & v1 & _ & Hbody).
    apply bind_returns in Hbody as ([] & v2 & _ & Hbody).
    apply bind_returns in Hbody as (columns & v3 & _ & Hbody).
    assert (Hcols : exists cols,
               acc' = add_lines column_line cols
                        (render_sqlite schema +:+ "Table '"
                         +:+ Sqlite.py_str E table +:+ "':" +:+ nl)).
    { revert Hbody. unfold Sqlite.schema_columns.
      apply (fold_m_invariant
               (fun a => exists cols,
                    a = add_lines column_line cols
                          (render_sqlite schema +:+ "Table '"
                           +:+ Sqlite.py_str E table +:+ "':" +:+ nl))).
      - intros a col u a' u' [cols ->] Hcol.
        apply bind_returns in Hcol as (name & u1 & _ & Hcol).
        apply bind_returns in Hcol as (type & u2 & _ & Hcol).
        unfold ret in Hcol. injection Hcol as <- _.
        exists (cols ++ [(Sqlite.py_str E name, Sqlite.py_str E type)]).
        unfold add_lines. rewrite fold_left_app. reflexivity.
      - exists []. reflexivity. }
    destruct Hcols as [cols ->].
    exists (schema ++ [(Sqlite.py_str E table, cols)]).
    unfold render_sqlite. rewrite fold_left_app. reflexivity.
  - exists []. reflexivity.
Qed.

Lemma kuzu_schema_rendering {W cell database connection query_result : Type}
    (E : @Kuzu.env W cell database connection query_result)
    (db_path s : string) (w w' : W) :
  Kuzu.get_db_schema E db_path w = (Returns s, w') ->
  exists tables rel_tables, s = render_kuzu tables rel_tables.
Proof.
  unfold Kuzu.get_db_schema. intros H.
  apply bind_returns in H as (db & w1 & _ & H).
  apply bind_returns in H as (conn & w2 & _ & H).
  apply bind_returns in H as (node_tables & w3 & _ & H).
  apply bind_returns in H as (text & w4 & Hloop & H).
  apply bind_returns in H as (rel_tables & w5 & _ & H).
  unfold ret in H. injection H as <- _.
  assert (Htext : exists tables,
             text = fold_left add_kuzu_table tables
                      (kuzu_header +:+ "## Node Tables:" +:+ nl)).
  { revert Hloop.
    apply (fold_m_invariant
             (fun s => exists tables,
                  s = fold_left add_kuzu_table tables
                        (kuzu_header +:+ "## Node Tables:" +:+ nl))).
    - intros acc x v acc' v' [tables ->] Hbody.
      apply bind_returns in Hbody as (props & v1 & _ & Hbody).
      unfold ret in Hbody. injection Hbody as <- _.
      exists (tables ++ [(x, props)]). rewrite fold_left_app. reflexivity.
    - exists []. reflexivity. }
  destruct Htext as [tables ->].
  exists tables, rel_tables. reflexivity.
Qed.

End SchemaText.

(** X9. Whatever the stores answer, a text returned by [get_db_schema]
    is a well-formed schema text: for the row store the header followed,
    table after table, by the line of the table and one line per column
    with its name and declared type; for the graph store the header, the
    node tables with one line per property, and the list of the
    relationship tables. Both texts are never empty. *)
Theorem get_db_schema_text_is_rendering :
  (forall (W value connection cursor : Type)
          (E : @Sqlite.env W value connection cursor)
          (db_path s : string) (w w' : W),
      Sqlite.get_db_schema E db_path w = (Returns s, w') ->
      s <> EmptyString /\ exists schema, s = render_sqlite schema)
  /\ (forall (W cell database connection query_result : Type)
             (E : @Kuzu.env W cell database connection query_result)
             (db_path s : string) (w w' : W),
        Kuzu.get_db_schema E db_path w = (Returns s, w') ->
        s <> EmptyString
        /\ exists tables rel_tables, s = render_kuzu tables rel_tables).
Proof.
  split.
  - intros W value connection cursor E db_path s w w' H. split.
    + apply sqlite_schema_header in H. intros ->. discriminate.
    + eapply sqlite_schema_rendering; eauto.
  - intros W cell database connection query_result E db_path s w w' H. split.
    + apply kuzu_schema_header in H. intros ->. discriminate.
    + eapply kuzu_schema_rendering; eauto.
Qed.

Lemma get_db_schema_text_is_rendering_witness :
  exists schema,
    "Database schema:" +:+ nl +:+ "Table 'listings':" +:+ nl
    +:+ "  - id (INTEGER)" +:+ nl +:+ "  - address (TEXT)" +:+ nl
    = render_sqlite schema.
Proof.
  refine (proj2 (proj1 get_db_schema_text_is_rendering (list string) string unit unit
                   (mock_sqlite model_answers) Sqlite.DB_PATH _ []
                   ["PRAGMA table_info(listings);";
                    "SELECT name FROM sqlite_master WHERE type='table';"] _)).
  vm_compute. reflexivity.
Defined.

(** ** The branches of the tool *)

Section Substrings.

Lemma prefix_split (needle hay : string) :
  String.prefix needle hay = true -> exists after, hay = needle +:+ after.
Proof.
  revert hay. induction needle as [|c needle IH]; intros hay H.
  - exists hay. reflexivity.
  - destruct hay as [|d hay]; [discriminate H|]. simpl in H.
    destruct (Ascii.ascii_dec c d) as [->|]; [|discriminate H].
    apply IH in H as [after ->]. exists after. reflexivity.
Qed.

Lemma contains_substring (needle hay : string) :
  contains needle hay = true <-> substring_of needle hay.
Proof.
  split.
  - induction hay as [|c hay IH]; cbn [contains].
    + destruct (String.prefix needle EmptyString) eqn:Hp; intros H;
        [|discriminate H].
      apply prefix_split in Hp as [after Hafter].
      exists EmptyString, after. exact Hafter.
    + destruct (String.prefix needle (String c hay)) eqn:Hp; intros H.
      * apply prefix_split in Hp as [after Hafter].
        exists EmptyString, after. exact Hafter.
      * apply IH in H as (before & after & ->).
        exists (String c before), after. reflexivity.
  - intros (before & after & ->). apply contains_middle.
Qed.

Lemma not_contains_substring (needle hay : string) :
  contains needle hay = false <-> ~ substring_of needle hay.
Proof.
  rewrite <- contains_substring. destruct (contains needle hay); split;
    intros H; try reflexivity; try discriminate; congruence.
Qed.

End Substrings.

Section ToolBranches.
Context {W cell database connection query_result : Type}.
Variable E : @Kuzu.env W cell database connection query_result.

Lemma address_search_some (conn : connection) (question : string) (w w' : W)
    (out : option string) :
  Kuzu.address_search E conn question w = (Returns out, w') ->
  exists text, out = Some text.
Proof.
  intros H. apply address_search_returns in H
    as [(res & wa & addr_df & _ & _ & _ & ->)
       |(addr_df & stored & db & q & best & address & wa & res & wb
         & result_df & md & _ & _ & _ & _ & _ & _ & _ & _ & ->)]; eauto.
Qed.

Lemma general_query_some (conn : connection) (question : string) (w w' : W)
    (out : option string) :
  Kuzu.general_query E conn question w = (Returns out, w') ->
  exists text, out = Some text.
Proof.
  unfold Kuzu.general_query. intros H.
  apply bind_returns in H as (schema & w1 & _ & H).
  apply bind_returns in H as (raw & w2 & _ & H).
  apply bind_returns in H as (res & w3 & _ & H).
  apply bind_returns in H as (df & w4 & _ & H).
  apply bind_returns in H as (md & w5 & _ & H).
  unfold ret in H. injection H as <- _. eauto.
Qed.

Lemma normal_query_some (question : string) (w w' : W) (out : option string) :
  Kuzu.normal_query E question w = (Returns out, w') ->
  exists text, out = Some text.
Proof.
  unfold Kuzu.normal_query. intros H.
  apply bind_returns in H as (raw & w1 & _ & H).
  unfold ret in H. injection H as <- _. eauto.
Qed.

Lemma try_tool_none (body : M W (option string)) (w w' : W) :
  try_except body (fun e => ret (tool_error e)) w = (Returns None, w') ->
  body w = (Returns None, w').
Proof.
  unfold try_except. destruct (body w) as [[a|e] w1]; intros H; [exact H|].
  unfold ret, tool_error in H. discriminate H.
Qed.

(** An exception of the branch becomes the text of the handler. *)
Lemma try_tool_raises (body : M W (option string)) (w w' : W) (e : exn) :
  body w = (Raises e, w') ->
  try_except body (fun e => ret (tool_error e)) w = (Returns (tool_error e), w').
Proof. unfold try_except. intros ->. reflexivity. Qed.

Lemma try_tool_returns (body : M W (option string)) (w w' : W) (out : option string) :
  body w = (Returns out, w') ->
  try_except body (fun e => ret (tool_error e)) w = (Returns out, w').
Proof. unfold try_except. intros ->. reflexivity. Qed.

Lemma tool_returns_inv (question : string) (w w' : W) (out : option string) :
  Kuzu.query_real_estate_database E question w = (Returns out, w') ->
  exists r w1 db w2 conn w3,
    Kuzu.logic_llm_invoke E (Kuzu.router_prompt question) w = (Returns r, w1)
    /\ Kuzu.kuzu_Database E Kuzu.DB_PATH true w1 = (Returns db, w2)
    /\ Kuzu.kuzu_Connection E db w2 = (Returns conn, w3).
Proof.
  unfold Kuzu.query_real_estate_database. intros H.
  apply bind_returns in H as (r & w1 & H1 & H).
  apply bind_returns in H as (db & w2 & H2 & H).
  apply bind_returns in H as (conn & w3 & H3 & H).
  exists r, w1, db, w2, conn, w3. auto.
Qed.

End ToolBranches.

(** X10. The tool returns [None], which reaches the model as the text
    "None", only when the answer of the router names none of the three
    categories: each branch, and the handler of the [try] statement,
    returns a text. *)
Theorem tool_none_means_no_category
    {W cell database connection query_result : Type}
    (E : @Kuzu.env W cell database connection query_result)
    (question : string) (w w' : W) :
  Kuzu.query_real_estate_database E question w = (Returns None, w') ->
  exists r w1,
    Kuzu.logic_llm_invoke E (Kuzu.router_prompt question) w = (Returns r, w1)
    /\ ~ substring_of "ADDRESS_SEARCH" r
    /\ ~ substring_of "GENERAL_QUERY" r
    /\ ~ substring_of "NORMAL_QUERY" r.
Proof.
  intros H.
  destruct (tool_returns_inv E question w w' None H)
    as (r & w1 & db & w2 & conn & w3 & H1 & H2 & H3).
  exists r, w1. split; [exact H1|].
  rewrite (tool_after_open E question r w w1 w2 w3 db conn H1 H2 H3) in H.
  apply try_tool_none in H.
  rewrite <- !not_contains_substring.
  destruct (contains "ADDRESS_SEARCH" r).
  { apply address_search_some in H as [text H]. discriminate H. }
  destruct (contains "GENERAL_QUERY" r).
  { apply general_query_some in H as [text H]. discriminate H. }
  destruct (contains "NORMAL_QUERY" r).
  { apply normal_query_some in H as [text H]. discriminate H. }
  auto.
Qed.

Lemma tool_none_means_no_category_witness :
  exists r w1,
    Kuzu.logic_llm_invoke
      (mock_kuzu (llm_says "I am not sure.") true (Returns near_first) model_answers)
      (Kuzu.router_prompt address_question) [] = (Returns r, w1)
    /\ ~ substring_of "ADDRESS_SEARCH" r
    /\ ~ substring_of "GENERAL_QUERY" r
    /\ ~ substring_of "NORMAL_QUERY" r.
Proof.
  apply (tool_none_means_no_category
           (mock_kuzu (llm_says "I am not sure.") true (Returns near_first)
              model_answers)
           address_question [] []).
  reflexivity.
Defined.

(** X11. The tool looks for the name of a category anywhere in the
    answer of the router, and tries the names in the order address,
    general, normal: once the store is open, an answer that holds
    ADDRESS_SEARCH is served by the address branch whatever else it
    holds; one that holds GENERAL_QUERY and not ADDRESS_SEARCH by the
    general branch; one that holds only NORMAL_QUERY by the conversational
    branch. In each case the tool is that branch under the handler. *)
Theorem tool_branch_by_first_category
    {W cell database connection query_result : Type}
    (E : @Kuzu.env W cell database connection query_result)
    (question r : string) (w w1 w2 w3 : W) (db : database) (conn : connection) :
  Kuzu.logic_llm_invoke E (Kuzu.router_prompt question) w = (Returns r, w1) ->
  Kuzu.kuzu_Database E Kuzu.DB_PATH true w1 = (Returns db, w2) ->
  Kuzu.kuzu_Connection E db w2 = (Returns conn, w3) ->
  (substring_of "ADDRESS_SEARCH" r ->
   Kuzu.query_real_estate_database E question w
   = try_except (Kuzu.address_search E conn question)
       (fun e => ret (tool_error e)) w3)
  /\ (~ substring_of "ADDRESS_SEARCH" r ->
      substring_of "GENERAL_QUERY" r ->
      Kuzu.query_real_estate_database E question w
      = try_except (Kuzu.general_query E conn question)
          (fun e => ret (tool_error e)) w3)
  /\ (~ substring_of "ADDRESS_SEARCH" r ->
      ~ substring_of "GENERAL_QUERY" r ->
      substring_of "NORMAL_QUERY" r ->
      Kuzu.query_real_estate_database E question w
      = try_except (Kuzu.normal_query E question)
          (fun e => ret (tool_error e)) w3).
Proof.
  intros H1 H2 H3.
  rewrite (tool_after_open E question r w w1 w2 w3 db conn H1 H2 H3).
  repeat split.
  - intros Ha. apply contains_substring in Ha. rewrite Ha. reflexivity.
  - intros Ha Hg. apply not_contains_substring in Ha.
    apply contains_substring in Hg. rewrite Ha, Hg. reflexivity.
  - intros Ha Hg Hn. apply not_contains_substring in Ha, Hg.
    apply contains_substring in Hn. rewrite Ha, Hg, Hn. reflexivity.
Qed.

Lemma tool_branch_by_first_category_witness :
  Kuzu.query_real_estate_database
    (mock_kuzu (llm_says "NORMAL_QUERY or ADDRESS_SEARCH") true (Returns near_first)
       model_answers)
    address_question []
  = try_except
      (Kuzu.address_search
         (mock_kuzu (llm_says "NORMAL_QUERY or ADDRESS_SEARCH") true
            (Returns near_first) model_answers)
         tt address_question)
      (fun e => ret (tool_error e)) [].
Proof.
  apply (proj1 (tool_branch_by_first_category
                  (mock_kuzu (llm_says "NORMAL_QUERY or ADDRESS_SEARCH") true
                     (Returns near_first) model_answers)
                  address_question "NORMAL_QUERY or ADDRESS_SEARCH"
                  [] [] [] [] tt tt eq_refl eq_refl eq_refl)).
  exists "NORMAL_QUERY or ", EmptyString. reflexivity.
Defined.

(** ** The address branch *)

Section AddressBranch.
Context {W cell database connection query_result : Type}.

Lemma map_outcome_length {A} (f : cell -> outcome A) (values : list cell) :
  forall l, Kuzu.map_outcome f values = Returns l -> length l = length values.
Proof.
  induction values as [|v values IH]; intros l H; simpl in H.
  - injection H as <-. reflexivity.
  - destruct (f v) as [a|e]; [|discriminate H].
    destruct (Kuzu.map_outcome f values) as [l'|e]; [|discriminate H].
    injection H as <-. simpl. f_equal. apply IH. reflexivity.
Qed.

Lemma getitem_In (df : Kuzu.dataframe cell) (label : string) (values : list cell) :
  Kuzu.getitem df label = Returns values -> In (label, values) df.
Proof.
  induction df as [|[l vs] df IH]; simpl; [discriminate|].
  destruct (String.eqb l label) eqn:Hl.
  - apply String.eqb_eq in Hl as ->. intros H. injection H as ->. left. reflexivity.
  - intros H. right. apply IH. exact H.
Qed.

Lemma getitem_missing (df : Kuzu.dataframe cell) (label : string) :
  Kuzu.has_column df label = false ->
  exists e, Kuzu.getitem df label = Raises e /\ exn_class e = "KeyError".
Proof.
  unfold Kuzu.has_column, Kuzu.columns.
  induction df as [|[l vs] df IH]; simpl.
  - intros _. eexists. split; reflexivity.
  - rewrite String.eqb_sym. destruct (String.eqb l label); [discriminate|].
    exact IH.
Qed.

(** In a rectangular frame that is not empty, every column has a value
    for every row. *)
Lemma rectangular_columns (df : Kuzu.dataframe cell) (a b : string)
    (xs ys : list cell) :
  rectangular df -> Kuzu.empty df = false ->
  Kuzu.getitem df a = Returns xs -> Kuzu.getitem df b = Returns ys ->
  length xs = length ys /\ xs <> [].
Proof.
  intros [n Hn] Hempty Ha Hb.
  apply getitem_In in Ha, Hb.
  rewrite Forall_forall in Hn.
  pose proof (Hn _ (proj2 (list_elem_of_In _ _) Ha)) as Hxs.
  pose proof (Hn _ (proj2 (list_elem_of_In _ _) Hb)) as Hys.
  simpl in Hxs, Hys. split; [congruence|].
  destruct df as [|[l vs] df]; [discriminate Hempty|].
  assert (Hvs : length (snd (l, vs)) = n) by (apply Hn; left).
  simpl in Hvs, Hempty. destruct vs; [discriminate Hempty|].
  intros ->. simpl in *. congruence.
Qed.

Variable E : @Kuzu.env W cell database connection query_result.

(** The address branch up to the choice of the address. *)
Lemma address_search_resolves (conn : connection) (question : string)
    (w wa wb wq : W) (res : query_result) (addr_df : Kuzu.dataframe cell)
    (stored addresses : list cell) (db : list (list Numpy.float))
    (q : list Numpy.float) :
  Kuzu.conn_execute E conn all_addresses_query [] w = (Returns res, wa) ->
  Kuzu.get_as_df E res wa = (Returns addr_df, wb) ->
  Kuzu.empty addr_df = false ->
  rectangular addr_df ->
  Kuzu.getitem addr_df Kuzu.embedding_column = Returns stored ->
  Kuzu.getitem addr_df Kuzu.address_column = Returns addresses ->
  Kuzu.map_outcome (Kuzu.json_loads E) stored = Returns db ->
  Kuzu.embeddings_create E Kuzu.EMBEDDING_MODEL question wb = (Returns q, wq) ->
  Forall (fun row => length row = length q) db ->
  exists best address,
    Numpy.argmax (Numpy.similarities (Kuzu.numpy E) db q) = Returns best
    /\ addresses !! best = Some address
    /\ Kuzu.address_search E conn question w
       = (result <- Kuzu.conn_execute E conn address_details_query
                      [("address_filter", address)] ;;
          result_df <- Kuzu.get_as_df E result ;;
          md <- lift (Kuzu.to_markdown E (Kuzu.drop_embedding_column result_df)) ;;
          ret (Some md)) wq.
Proof.
  intros Hq Hdf Hempty Hrect Hs Ha Hl Hemb Hshape.
  destruct (rectangular_columns addr_df _ _ stored addresses Hrect Hempty Hs Ha)
    as [Hlen Hne].
  assert (Hdb : db <> []).
  { intros ->. apply map_outcome_length in Hl. destruct stored; [congruence|].
    discriminate Hl. }
  pose proof (row_length_uniform db (length q) Hdb Hshape) as Hrl.
  destruct (Numpy.argmax (Numpy.similarities (Kuzu.numpy E) db q)) as [best|e] eqn:Hbest.
  2:{ destruct db; [congruence|]. discriminate Hbest. }
  pose proof (argmax_in_bounds _ _ Hbest) as Hlt.
  rewrite similarities_length in Hlt.
  rewrite (map_outcome_length _ _ _ Hl), Hlen in Hlt.
  destruct (addresses !! best) as [address|] eqn:Haddr.
  2:{ apply lookup_ge_None in Haddr. lia. }
  exists best, address. split; [reflexivity|]. split; [exact Haddr|].
  unfold all_addresses_query in Hq. unfold address_details_query.
  unfold Kuzu.address_search.
  rewrite (bind_step _ _ _ _ _ Hq), (bind_step _ _ _ _ _ Hdf), Hempty.
  unfold lift at 1. unfold bind at 1. rewrite Hs.
  unfold lift at 1. unfold bind at 1. rewrite Hl.
  unfold lift at 1. unfold bind at 1. unfold Numpy.array. rewrite Hrl.
  rewrite (bind_step _ _ _ _ _ Hemb).
  unfold lift at 1. unfold bind at 1. unfold Numpy.cosine_similarities.
  rewrite Hrl, Nat.eqb_refl.
  unfold lift at 1. unfold bind at 1. rewrite Hbest.
  unfold lift at 1. unfold bind at 1. unfold Kuzu.iloc_item. rewrite Ha.
  assert (Hnth : nth_error addresses best = Some address).
  { clear -Haddr. revert best Haddr.
    induction addresses as [|x xs IH]; intros [|n] H; simpl in *;
      try discriminate; auto. }
  rewrite Hnth. reflexivity.
Qed.

(** What the address branch does when a step before the choice of the
    address fails. *)
Lemma address_search_missing_column (conn : connection) (question : string)
    (w wa wb : W) (res : query_result) (addr_df : Kuzu.dataframe cell) :
  Kuzu.conn_execute E conn all_addresses_query [] w = (Returns res, wa) ->
  Kuzu.get_as_df E res wa = (Returns addr_df, wb) ->
  Kuzu.empty addr_df = false ->
  Kuzu.has_column addr_df Kuzu.embedding_column = false ->
  exists e, exn_class e = "KeyError"
            /\ Kuzu.address_search E conn question w = (Raises e, wb).
Proof.
  intros Hq Hdf Hempty Hcol. unfold all_addresses_query in Hq.
  destruct (getitem_missing addr_df _ Hcol) as (e & He & Hclass).
  exists e. split; [exact Hclass|].
  unfold Kuzu.address_search.
  rewrite (bind_step _ _ _ _ _ Hq), (bind_step _ _ _ _ _ Hdf), Hempty.
  unfold lift at 1. unfold bind at 1. rewrite He. reflexivity.
Qed.

Lemma address_search_unreadable_embedding (conn : connection) (question : string)
    (w wa wb : W) (res : query_result) (addr_df : Kuzu.dataframe cell)
    (stored : list cell) (e : exn) :
  Kuzu.conn_execute E conn all_addresses_query [] w = (Returns res, wa) ->
  Kuzu.get_as_df E res wa = (Returns addr_df, wb) ->
  Kuzu.empty addr_df = false ->
  Kuzu.getitem addr_df Kuzu.embedding_column = Returns stored ->
  Kuzu.map_outcome (Kuzu.json_loads E) stored = Raises e ->
  Kuzu.address_search E conn question w = (Raises e, wb).
Proof.
  intros Hq Hdf Hempty Hs Hl. unfold all_addresses_query in Hq.
  unfold Kuzu.address_search.
  rewrite (bind_step _ _ _ _ _ Hq), (bind_step _ _ _ _ _ Hdf), Hempty.
  unfold lift at 1. unfold bind at 1. rewrite Hs.
  unfold lift at 1. unfold bind at 1. rewrite Hl. reflexivity.
Qed.

Lemma address_search_dimension_mismatch (conn : connection) (question : string)
    (w wa wb wq : W) (res : query_result) (addr_df : Kuzu.dataframe cell)
    (stored : list cell) (db : list (list Numpy.float)) (q : list Numpy.float)
    (d : nat) :
  Kuzu.conn_execute E conn all_addresses_query [] w = (Returns res, wa) ->
  Kuzu.get_as_df E res wa = (Returns addr_df, wb) ->
  Kuzu.empty addr_df = false ->
  Kuzu.getitem addr_df Kuzu.embedding_column = Returns stored ->
  Kuzu.map_outcome (Kuzu.json_loads E) stored = Returns db ->
  db <> [] ->
  Forall (fun row => length row = d) db ->
  Kuzu.embeddings_create E Kuzu.EMBEDDING_MODEL question wb = (Returns q, wq) ->
  length q <> d ->
  exists e, exn_class e = "ValueError"
            /\ Kuzu.address_search E conn question w = (Raises e, wq).
Proof.
  intros Hq Hdf Hempty Hs Hl Hdb Hshape Hemb Hd. unfold all_addresses_query in Hq.
  pose proof (row_length_uniform db d Hdb Hshape) as Hrl.
  eexists. split; [|].
  2:{ unfold Kuzu.address_search.
      rewrite (bind_step _ _ _ _ _ Hq), (bind_step _ _ _ _ _ Hdf), Hempty.
      unfold lift at 1. unfold bind at 1. rewrite Hs.
      unfold lift at 1. unfold bind at 1. rewrite Hl.
      unfold lift at 1. unfold bind at 1. unfold Numpy.array. rewrite Hrl.
      rewrite (bind_step _ _ _ _ _ Hemb).
      unfold lift at 1. unfold bind at 1. unfold Numpy.cosine_similarities.
      rewrite Hrl.
      destruct (Nat.eqb d (length q)) eqn:Heq.
      { apply Nat.eqb_eq in Heq. congruence. }
      reflexivity. }
  reflexivity.
Qed.

End AddressBranch.

(** X12. When the listing table is empty, the address branch answers
    "No listings found." right after reading the table: the embedding
    provider has no part in the answer, which is the same whatever
    provider is configured, and the world is the one left by the reading
    of the table. *)
Theorem address_search_empty_table_needs_no_embedding
    {W cell database connection query_result : Type}
    (E : @Kuzu.env W cell database connection query_result)
    (question r : string) (w w1 w2 w3 wa wb : W) (db : database)
    (conn : connection) (res : query_result) (addr_df : Kuzu.dataframe cell) :
  Kuzu.logic_llm_invoke E (Kuzu.router_prompt question) w = (Returns r, w1) ->
  substring_of "ADDRESS_SEARCH" r ->
  Kuzu.kuzu_Database E Kuzu.DB_PATH true w1 = (Returns db, w2) ->
  Kuzu.kuzu_Connection E db w2 = (Returns conn, w3) ->
  Kuzu.conn_execute E conn all_addresses_query [] w3 = (Returns res, wa) ->
  Kuzu.get_as_df E res wa = (Returns addr_df, wb) ->
  Kuzu.empty addr_df = true ->
  Kuzu.query_real_estate_database E question w
  = (Returns (Some "No listings found."), wb)
  /\ forall provider,
       Kuzu.query_real_estate_database (with_embeddings E provider) question w
       = (Returns (Some "No listings found."), wb).
Proof.
  intros H1 Ha H2 H3 Hq Hdf Hempty. apply contains_substring in Ha.
  unfold all_addresses_query in Hq.
  assert (Hbranch : forall E' : @Kuzu.env W cell database connection query_result,
             Kuzu.conn_execute E' = Kuzu.conn_execute E ->
             Kuzu.get_as_df E' = Kuzu.get_as_df E ->
             Kuzu.address_search E' conn question w3
             = (Returns (Some "No listings found."), wb)).
  { intros E' Hx Hg. unfold Kuzu.address_search. rewrite Hx, Hg.
    rewrite (bind_step _ _ _ _ _ Hq), (bind_step _ _ _ _ _ Hdf), Hempty.
    reflexivity. }
  split.
  - rewrite (tool_after_open E question r w w1 w2 w3 db conn H1 H2 H3), Ha.
    apply try_tool_returns. apply Hbranch; reflexivity.
  - intros provider.
    rewrite (tool_after_open (with_embeddings E provider) question r
               w w1 w2 w3 db conn H1 H2 H3), Ha.
    apply try_tool_returns. apply Hbranch; reflexivity.
Qed.

Lemma address_search_empty_table_needs_no_embedding_witness :
  Kuzu.query_real_estate_database
    (mock_kuzu_holding no_listing (llm_says "ADDRESS_SEARCH") (Returns near_first))
    address_question []
  = (Returns (Some "No listings found."),
     ["MATCH (l:Listing) RETURN l.address, l.address_embedding"]).
Proof.
  apply (proj1 (address_search_empty_table_needs_no_embedding
                  (mock_kuzu_holding no_listing (llm_says "ADDRESS_SEARCH")
                     (Returns near_first))
                  address_question "ADDRESS_SEARCH" [] [] [] []
                  [all_addresses_query] [all_addresses_query] tt tt
                  (all_addresses_query, []) no_listing
                  eq_refl
                  (ex_intro _ EmptyString (ex_intro _ EmptyString eq_refl))
                  eq_refl eq_refl eq_refl eq_refl eq_refl)).
Defined.

(** X13. The address branch on a table in good order: the frame of the
    listings is rectangular and not empty, it has both columns, the stored
    embeddings are read back as vectors of the length of the embedding of
    the question. Then the index chosen by [np.argmax] is a row of the
    table, so that the lookup of the address cannot fail; the branch goes
    on to the query of the details of that address; it returns the
    rendering of the frame of that query when the query and the rendering
    succeed, and what it raises is raised by that query, by the reading
    of its frame, or by the rendering. *)
Theorem address_search_resolves_within_table
    {W cell database connection query_result : Type}
    (E : @Kuzu.env W cell database connection query_result)
    (conn : connection) (question : string)
    (w wa wb wq : W) (res : query_result) (addr_df : Kuzu.dataframe cell)
    (stored addresses : list cell) (db : list (list Numpy.float))
    (q : list Numpy.float) :
  Kuzu.conn_execute E conn all_addresses_query [] w = (Returns res, wa) ->
  Kuzu.get_as_df E res wa = (Returns addr_df, wb) ->
  Kuzu.empty addr_df = false ->
  rectangular addr_df ->
  Kuzu.getitem addr_df Kuzu.embedding_column = Returns stored ->
  Kuzu.getitem addr_df Kuzu.address_column = Returns addresses ->
  Kuzu.map_outcome (Kuzu.json_loads E) stored = Returns db ->
  Kuzu.embeddings_create E Kuzu.EMBEDDING_MODEL question wb = (Returns q, wq) ->
  Forall (fun row => length row = length q) db ->
  exists best address,
    Numpy.argmax (Numpy.similarities (Kuzu.numpy E) db q) = Returns best
    /\ best < length addresses
    /\ addresses !! best = Some address
    /\ (forall details wc result_df wd md,
          Kuzu.conn_execute E conn address_details_query
            [("address_filter", address)] wq = (Returns details, wc) ->
          Kuzu.get_as_df E details wc = (Returns result_df, wd) ->
          Kuzu.to_markdown E (Kuzu.drop_embedding_column result_df) = Returns md ->
          Kuzu.address_search E conn question w = (Returns (Some md), wd))
    /\ (forall e w',
          Kuzu.address_search E conn question w = (Raises e, w') ->
          Kuzu.conn_execute E conn address_details_query
            [("address_filter", address)] wq = (Raises e, w')
          \/ exists details wc,
               Kuzu.conn_execute E conn address_details_query
                 [("address_filter", address)] wq = (Returns details, wc)
               /\ (Kuzu.get_as_df E details wc = (Raises e, w')
                   \/ exists result_df,
                        Kuzu.get_as_df E details wc = (Returns result_df, w')
                        /\ Kuzu.to_markdown E (Kuzu.drop_embedding_column result_df)
                           = Raises e)).
Proof.
  intros Hq Hdf Hempty Hrect Hs Ha Hl Hemb Hshape.
  destruct (address_search_resolves E conn question w wa wb wq res addr_df
              stored addresses db q Hq Hdf Hempty Hrect Hs Ha Hl Hemb Hshape)
    as (best & address & Hbest & Haddr & Hrun).
  exists best, address. split; [exact Hbest|].
  split; [eapply lookup_lt_Some; eauto|]. split; [exact Haddr|].
  rewrite Hrun. split.
  - intros details wc result_df wd md Hd Hr Hmd.
    rewrite (bind_step _ _ _ _ _ Hd), (bind_step _ _ _ _ _ Hr).
    unfold lift, bind, ret. rewrite Hmd. reflexivity.
  - intros e w' H. unfold bind at 1 in H.
    destruct (Kuzu.conn_execute E conn address_details_query
                [("address_filter", address)] wq) as [[details|e1] wc] eqn:Hd.
    2:{ left. injection H as -> ->. reflexivity. }
    right. exists details, wc. split; [reflexivity|].
    unfold bind at 1 in H.
    destruct (Kuzu.get_as_df E details wc) as [[result_df|e2] wd] eqn:Hr.
    2:{ left. injection H as -> ->. reflexivity. }
    right. exists result_df. unfold lift, bind, ret in H.
    destruct (Kuzu.to_markdown E (Kuzu.drop_embedding_column result_df))
      as [md|e3]; [discriminate H|].
    injection H as -> ->. auto.
Qed.

Lemma address_search_resolves_within_table_witness :
  exists best address,
    Numpy.argmax (Numpy.similarities in_order two_candidates near_first) = Returns best
    /\ best < 2
    /\ ["18 West 38th Street"; "9 Main Street"] !! best = Some address.
Proof.
  assert (Hrect : rectangular listing_table) by (exists 2; repeat constructor).
  assert (Hshape : Forall (fun row => length row = length near_first) two_candidates)
    by (repeat constructor).
  destruct (address_search_resolves_within_table
              (mock_kuzu (llm_says "ADDRESS_SEARCH") true (Returns near_first)
                 model_answers)
              tt address_question [] [all_addresses_query] [all_addresses_query]
              [all_addresses_query] (all_addresses_query, []) listing_table
              ["[1, 0]"; "[0, 1]"] ["18 West 38th Street"; "9 Main Street"]
              two_candidates near_first
              eq_refl eq_refl eq_refl Hrect
              eq_refl eq_refl eq_refl eq_refl Hshape)
    as (best & address & Hbest & Hlt & Haddr & _).
  exists best, address. auto.
Defined.

(** X14. Failures of the address branch before the choice of the
    address are answered as the text of the handler, and the query of the
    details is never sent: a table without the column of the embeddings
    gives a [KeyError] and a stored embedding that cannot be read gives
    the exception of [json.loads], both before any embedding is asked
    for; stored vectors whose length is not that of the embedding of the
    question give a [ValueError]. *)
Theorem address_search_failures_are_answered
    {W cell database connection query_result : Type}
    (E : @Kuzu.env W cell database connection query_result)
    (question r : string) (w w1 w2 w3 wa wb : W) (db : database)
    (conn : connection) (res : query_result) (addr_df : Kuzu.dataframe cell) :
  Kuzu.logic_llm_invoke E (Kuzu.router_prompt question) w = (Returns r, w1) ->
  substring_of "ADDRESS_SEARCH" r ->
  Kuzu.kuzu_Database E Kuzu.DB_PATH true w1 = (Returns db, w2) ->
  Kuzu.kuzu_Connection E db w2 = (Returns conn, w3) ->
  Kuzu.conn_execute E conn all_addresses_query [] w3 = (Returns res, wa) ->
  Kuzu.get_as_df E res wa = (Returns addr_df, wb) ->
  Kuzu.empty addr_df = false ->
  (Kuzu.has_column addr_df Kuzu.embedding_column = false ->
   exists e, exn_class e = "KeyError"
             /\ Kuzu.query_real_estate_database E question w
                = (Returns (tool_error e), wb))
  /\ (forall stored e,
        Kuzu.getitem addr_df Kuzu.embedding_column = Returns stored ->
        Kuzu.map_outcome (Kuzu.json_loads E) stored = Raises e ->
        Kuzu.query_real_estate_database E question w
        = (Returns (tool_error e), wb))
  /\ (forall stored vectors d q wq,
        Kuzu.getitem addr_df Kuzu.embedding_column = Returns stored ->
        Kuzu.map_outcome (Kuzu.json_loads E) stored = Returns vectors ->
        vectors <> [] ->
        Forall (fun row => length row = d) vectors ->
        Kuzu.embeddings_create E Kuzu.EMBEDDING_MODEL question wb
        = (Returns q, wq) ->
        length q <> d ->
        exists e, exn_class e = "ValueError"
                  /\ Kuzu.query_real_estate_database E question w
                     = (Returns (tool_error e), wq)).
Proof.
  intros H1 Ha H2 H3 Hq Hdf Hempty. apply contains_substring in Ha.
  rewrite (tool_after_open E question r w w1 w2 w3 db conn H1 H2 H3), Ha.
  split; [|split].
  - intros Hcol.
    destruct (address_search_missing_column E conn question w3 wa wb res addr_df
                Hq Hdf Hempty Hcol) as (e & Hclass & Hrun).
    exists e. split; [exact Hclass|]. apply try_tool_raises. exact Hrun.
  - intros stored e Hs Hl. apply try_tool_raises.
    eapply address_search_unreadable_embedding; eauto.
  - intros stored vectors d q wq Hs Hl Hne Hshape Hemb Hd.
    destruct (address_search_dimension_mismatch E conn question w3 wa wb wq res
                addr_df stored vectors q d Hq Hdf Hempty Hs Hl Hne Hshape Hemb Hd)
      as (e & Hclass & Hrun).
    exists e. split; [exact Hclass|]. apply try_tool_raises. exact Hrun.
Qed.

Lemma address_search_failures_are_answered_witness :
  exists e, exn_class e = "KeyError"
            /\ Kuzu.query_real_estate_database
                 (mock_kuzu_holding addresses_only (llm_says "ADDRESS_SEARCH")
                    (Returns near_first))
                 address_question []
               = (Returns (tool_error e), [all_addresses_query]).
Proof.
  apply (proj1 (address_search_failures_are_answered
                  (mock_kuzu_holding addresses_only (llm_says "ADDRESS_SEARCH")
                     (Returns near_first))
                  address_question "ADDRESS_SEARCH" [] [] [] []
                  [all_addresses_query] [all_addresses_query] tt tt
                  (all_addresses_query, []) addresses_only
                  eq_refl
                  (ex_intro _ EmptyString (ex_intro _ EmptyString eq_refl))
                  eq_refl eq_refl eq_refl eq_refl eq_refl)).
  reflexivity.
Defined.

(** ** The general branch *)

(** X15. The general branch of the tool. The schema is read inside the
    [try] statement, so that a failure of the introspection, which ends
    the Decide step of the agent, is here answered as the text of the
    handler. When the schema is read, the model is asked with a prompt
    that holds the schema and the question verbatim, its answer stripped
    of surrounding whitespace is sent to the store as it is, without
    parameters, and the frame of the result is rendered whole: no column
    is dropped in this branch. *)
Theorem general_branch_runs_generated_query
    {W cell database connection query_result : Type}
    (E : @Kuzu.env W cell database connection query_result)
    (question r : string) (w w1 w2 w3 : W) (db : database) (conn : connection) :
  Kuzu.logic_llm_invoke E (Kuzu.router_prompt question) w = (Returns r, w1) ->
  ~ substring_of "ADDRESS_SEARCH" r ->
  substring_of "GENERAL_QUERY" r ->
  Kuzu.kuzu_Database E Kuzu.DB_PATH true w1 = (Returns db, w2) ->
  Kuzu.kuzu_Connection E db w2 = (Returns conn, w3) ->
  (forall e w4,
      Kuzu.get_db_schema E Kuzu.DB_PATH w3 = (Raises e, w4) ->
      Kuzu.query_real_estate_database E question w = (Returns (tool_error e), w4))
  /\ (forall schema w4,
        Kuzu.get_db_schema E Kuzu.DB_PATH w3 = (Returns schema, w4) ->
        exists prompt,
          substring_of schema prompt
          /\ substring_of question prompt
          /\ (forall e w5,
                Kuzu.logic_llm_invoke E prompt w4 = (Raises e, w5) ->
                Kuzu.query_real_estate_database E question w
                = (Returns (tool_error e), w5))
          /\ (forall raw w5 res w6 df w7 md,
                Kuzu.logic_llm_invoke E prompt w4 = (Returns raw, w5) ->
                Kuzu.conn_execute E conn (strip raw) [] w5 = (Returns res, w6) ->
                Kuzu.get_as_df E res w6 = (Returns df, w7) ->
                Kuzu.to_markdown E df = Returns md ->
                Kuzu.query_real_estate_database E question w
                = (Returns (Some md), w7))).
Proof.
  intros H1 Ha Hg H2 H3.
  apply not_contains_substring in Ha. apply contains_substring in Hg.
  rewrite (tool_after_open E question r w w1 w2 w3 db conn H1 H2 H3), Ha, Hg.
  split.
  - intros e w4 Hs. apply try_tool_raises. unfold Kuzu.general_query.
    apply bind_raises_first. exact Hs.
  - intros schema w4 Hs.
    exists ("Schema: " +:+ schema +:+ nl +:+ "Question: " +:+ question +:+ nl
            +:+ "Generate a Cypher query. Respond with only the query.").
    split; [exists "Schema: "; eexists; reflexivity|].
    split.
    { apply contains_substring. do 4 apply contains_append_l.
      apply contains_append_r, contains_prefix, prefix_refl. }
    split.
    + intros e w5 Hm. apply try_tool_raises. unfold Kuzu.general_query.
      rewrite (bind_step _ _ _ _ _ Hs). apply bind_raises_first. exact Hm.
    + intros raw w5 res w6 df w7 md Hm Hx Hdf Hmd. apply try_tool_returns.
      unfold Kuzu.general_query.
      rewrite (bind_step _ _ _ _ _ Hs), (bind_step _ _ _ _ _ Hm),
        (bind_step _ _ _ _ _ Hx), (bind_step _ _ _ _ _ Hdf).
      unfold lift, bind, ret. rewrite Hmd. reflexivity.
Qed.

Lemma general_branch_runs_generated_query_witness :
  Kuzu.query_real_estate_database
    (mock_kuzu (llm_says "MATCH (l:Listing) RETURN l.* // GENERAL_QUERY") true
       (Returns near_first) model_answers)
    address_question []
  = (Returns (Some ("| l.address | 18 West 38th Street | 9 Main Street |" +:+ nl
                    +:+ "| l.address_embedding | [1, 0] | [0, 1] |")),
     ["MATCH (l:Listing) RETURN l.* // GENERAL_QUERY"]).
Proof.
  assert (Ha : ~ substring_of "ADDRESS_SEARCH"
                   "MATCH (l:Listing) RETURN l.* // GENERAL_QUERY")
    by (apply not_contains_substring; reflexivity).
  assert (Hg : substring_of "GENERAL_QUERY"
                 "MATCH (l:Listing) RETURN l.* // GENERAL_QUERY")
    by (exists "MATCH (l:Listing) RETURN l.* // ", EmptyString; reflexivity).
  destruct (proj2 (general_branch_runs_generated_query
                     (mock_kuzu
                        (llm_says "MATCH (l:Listing) RETURN l.* // GENERAL_QUERY")
                        true (Returns near_first) model_answers)
                     address_question
                     "MATCH (l:Listing) RETURN l.* // GENERAL_QUERY"
                     [] [] [] [] tt tt eq_refl Ha Hg eq_refl eq_refl)
              _ [] eq_refl)
    as (prompt & _ & _ & _ & Hrun).
  apply (Hrun "MATCH (l:Listing) RETURN l.* // GENERAL_QUERY" []
           ("MATCH (l:Listing) RETURN l.* // GENERAL_QUERY", [])
           ["MATCH (l:Listing) RETURN l.* // GENERAL_QUERY"]
           listing_table
           ["MATCH (l:Listing) RETURN l.* // GENERAL_QUERY"]);
    reflexivity.
Defined.

(** ** The chat endpoint *)

Section Conversion.

Lemma convert_loop_malformed (history : list (gmap string string)) :
  forallb entry_ok history = false ->
  forall acc,
    App.convert_loop history acc = Raises (key_error "role")
    \/ App.convert_loop history acc = Raises (key_error "content").
Proof.
  induction history as [|msg rest IH]; intros Hbad acc; simpl in *.
  - discriminate.
  - unfold entry_ok in Hbad. unfold App.dict_get.
    destruct (msg !! "role") as [role|]; [|left; reflexivity].
    destruct (String.eqb role "user"); simpl in Hbad.
    + destruct (msg !! "content"); [|right; reflexivity]. apply IH. exact Hbad.
    + destruct (String.eqb role "assistant"); simpl in Hbad.
      * destruct (msg !! "content"); [|right; reflexivity]. apply IH. exact Hbad.
      * apply IH. exact Hbad.
Qed.

End Conversion.

Section Success.
Context {W : Type}.
Variable E : @App.env W.

Lemma print_events_return (events : list App.event) (w : W) :
  forallb printable events = true ->
  for_each events (App.print_event (W := W)) w = (Returns tt, w).
Proof.
  induction events as [|ev rest IH]; intros Hok; simpl; [reflexivity|].
  simpl in Hok. apply andb_true_iff in Hok as [Hev Hrest].
  assert (Hprint : App.print_event ev w = (Returns tt, w)).
  { unfold printable in Hev. apply andb_true_iff in Hev as [Ha Ht].
    unfold App.print_event, bind, lift, ret.
    destruct (ev !! "agent") as [[|m ms]|]; try discriminate Ha;
      destruct (ev !! "execute_tool") as [[|m' ms']|]; try discriminate Ht;
      try reflexivity.
    all: rewrite ?last_item_cons; reflexivity. }
  rewrite (bind_step _ _ _ _ _ Hprint). apply IH. exact Hrest.
Qed.

End Success.

Section Uniform.
Context {W : Type}.
Variable E : @App.env W.

(** The calls of the [try] block to the two applications do not depend
    on the new message. *)
Lemma pipeline_log_uniform (msgs : list message) (w : W)
    (log : list (list message)) :
  exists k,
    1 <= k <= 4
    /\ forall new_message,
         snd (snd (App.pipeline (recording E) new_message msgs (w, log)))
         = log ++ repeat msgs k.
Proof.
  destruct (App.kuzu_app_stream E msgs 10 w) as [[ev1|e] w1] eqn:H1.
  2:{ exists 1. split; [lia|]. intros new_message. unfold App.pipeline.
      unfold bind at 1. simpl. unfold record_call at 1. simpl. rewrite H1.
      reflexivity. }
  pose proof (for_each_print_event_world ev1 (w1, log ++ [msgs])) as Hp1.
  destruct (for_each ev1 App.print_event (w1, log ++ [msgs])) as [[[]|e] s1] eqn:Hf1;
    simpl in Hp1; subst s1.
  2:{ exists 1. split; [lia|]. intros new_message. unfold App.pipeline.
      unfold bind at 1. simpl. unfold record_call at 1. simpl. rewrite H1.
      unfold bind at 1. rewrite Hf1. reflexivity. }
  destruct (App.kuzu_app_invoke E msgs w1) as [[st1|e] w2] eqn:H2.
  2:{ exists 2. split; [lia|]. intros new_message. unfold App.pipeline.
      unfold bind at 1. simpl. unfold record_call at 1. simpl. rewrite H1.
      unfold bind at 1. rewrite Hf1.
      unfold bind at 1. simpl. unfold record_call at 1. simpl. rewrite H2.
      simpl. rewrite <- app_assoc. reflexivity. }
  destruct (App.sqlite_app_stream E msgs 10 w2) as [[ev2|e] w3] eqn:H3.
  2:{ exists 3. split; [lia|]. intros new_message. unfold App.pipeline.
      unfold bind at 1. simpl. unfold record_call at 1. simpl. rewrite H1.
      unfold bind at 1. rewrite Hf1.
      unfold bind at 1. simpl. unfold record_call at 1. simpl. rewrite H2.
      unfold bind at 1. simpl. unfold record_call at 1. simpl. rewrite H3.
      simpl. rewrite <- !app_assoc. reflexivity. }
  pose proof (for_each_print_event_world ev2
                (w3, ((log ++ [msgs]) ++ [msgs]) ++ [msgs])) as Hp2.
  destruct (for_each ev2 App.print_event
              (w3, ((log ++ [msgs]) ++ [msgs]) ++ [msgs])) as [[[]|e] s2] eqn:Hf2;
    simpl in Hp2; subst s2.
  2:{ exists 3. split; [lia|]. intros new_message. unfold App.pipeline.
      unfold bind at 1. simpl. unfold record_call at 1. simpl. rewrite H1.
      unfold bind at 1. rewrite Hf1.
      unfold bind at 1. simpl. unfold record_call at 1. simpl. rewrite H2.
      unfold bind at 1. simpl. unfold record_call at 1. simpl. rewrite H3.
      unfold bind at 1. rewrite Hf2.
      simpl. rewrite <- !app_assoc. reflexivity. }
  exists 4. split; [lia|]. intros new_message. unfold App.pipeline.
  unfold bind at 1. simpl. unfold record_call at 1. simpl. rewrite H1.
  unfold bind at 1. rewrite Hf1.
  unfold bind at 1. simpl. unfold record_call at 1. simpl. rewrite H2.
  unfold bind at 1. simpl. unfold record_call at 1. simpl. rewrite H3.
  unfold bind at 1. rewrite Hf2.
  unfold bind at 1. simpl. unfold record_call at 1. simpl.
  destruct (App.sqlite_app_invoke E msgs w3) as [[st2|e] w4];
    [|simpl; rewrite <- !app_assoc; reflexivity].
  unfold bind, ret. simpl.
  destruct (App.llm_invoke E _ w4) as [[res|e] w5];
    simpl; rewrite <- !app_assoc; reflexivity.
Qed.

Lemma chat_malformed (request : App.ChatRequest) (w : W) :
  history_well_formed (App.conversation request) = false ->
  App.chat_with_llm E request w = (Raises (key_error "role"), w)
  \/ App.chat_with_llm E request w = (Raises (key_error "content"), w).
Proof.
  intros Hbad. unfold App.chat_with_llm, App.history_messages, bind, lift.
  destruct (convert_loop_malformed _ Hbad []) as [-> | ->]; auto.
Qed.

End Uniform.

(** X16. The chat endpoint answers exactly the requests whose history
    is well formed: for these it returns a response, whatever the agents
    and the models do; for every other request the [KeyError] of the
    missing key, 'role' or 'content', leaves the endpoint before any agent
    or model is called. *)
Theorem chat_responds_iff_history_well_formed {W : Type} (E : @App.env W)
    (request : App.ChatRequest) (w : W) :
  ((exists response w', App.chat_with_llm E request w = (Returns response, w'))
   <-> history_well_formed (App.conversation request) = true)
  /\ (history_well_formed (App.conversation request) = false ->
      App.chat_with_llm E request w = (Raises (key_error "role"), w)
      \/ App.chat_with_llm E request w = (Raises (key_error "content"), w)).
Proof.
  split; [split|].
  - intros (response & w' & H).
    destruct (history_well_formed (App.conversation request)) eqn:Hok;
      [reflexivity|].
    destruct (chat_malformed E request w Hok) as [Hr|Hr];
      rewrite Hr in H; discriminate H.
  - intros Hok.
    rewrite (chat_after_history E request _ w
               (history_messages_well_formed _ Hok)).
    apply try_except_returns.
  - apply chat_malformed.
Qed.

Lemma chat_responds_iff_history_well_formed_witness :
  App.chat_with_llm (mock_app true) request_without_role []
  = (Raises (key_error "role"), [])
  \/ App.chat_with_llm (mock_app true) request_without_role []
     = (Raises (key_error "content"), []).
Proof.
  apply (proj2 (chat_responds_iff_history_well_formed (mock_app true)
                  request_without_role [])).
  reflexivity.
Defined.

(** X17. The two agents work on the history alone. The messages handed
    to them, and how many times they are called (at most four times:
    each application is streamed under the limit of 10 and then invoked
    again), are the same whatever the new message of the request is: the
    new message reaches the reconciling model only. A request whose
    history is malformed calls no agent. *)
Theorem agents_run_on_history_only {W : Type} (E : @App.env W)
    (conversation : list (gmap string string)) (w : W) :
  exists k,
    k <= 4
    /\ (history_well_formed conversation = true -> 1 <= k)
    /\ forall new_message,
         snd (snd (App.chat_with_llm (recording E)
                     {| App.conversation := conversation;
                        App.new_message := new_message |} (w, [])))
         = repeat (App.forwarded_spec conversation) k.
Proof.
  destruct (history_well_formed conversation) eqn:Hok.
  - destruct (pipeline_log_uniform E (App.forwarded_spec conversation) w [])
      as (k & Hk & Hlog).
    exists k. split; [lia|]. split; [lia|]. intros new_message.
    rewrite (chat_after_history (recording E)
               {| App.conversation := conversation;
                  App.new_message := new_message |}
               _ (w, []) (history_messages_well_formed conversation Hok)).
    rewrite try_except_world. apply Hlog.
  - exists 0. split; [lia|]. split; [discriminate|]. intros new_message.
    destruct (chat_malformed (recording E)
                {| App.conversation := conversation;
                   App.new_message := new_message |} (w, []) Hok) as [-> | ->];
      reflexivity.
Qed.

(** X18. A request that goes through. When the history is converted and
    the four runs of the agents return, with events that each hold a
    message, the reconciling model is given the history followed by one
    human message; that message holds the new message of the request and
    the two answers of the agents (the content of the last message of
    each final state) verbatim. The response is the answer of that model
    stripped: it neither starts nor ends with whitespace. When that model
    fails, the response is the error text. *)
Theorem chat_success_reconciles {W : Type} (E : @App.env W)
    (request : App.ChatRequest) (msgs : list message)
    (w w1 w2 w3 w4 : W) (ev1 ev2 : list App.event) (st1 st2 : list message) :
  App.history_messages (App.conversation request) = Returns msgs ->
  App.kuzu_app_stream E msgs 10 w = (Returns ev1, w1) ->
  forallb printable ev1 = true ->
  App.kuzu_app_invoke E msgs w1 = (Returns st1, w2) ->
  App.sqlite_app_stream E msgs 10 w2 = (Returns ev2, w3) ->
  forallb printable ev2 = true ->
  App.sqlite_app_invoke E msgs w3 = (Returns st2, w4) ->
  exists query,
    substring_of (App.new_message request) query
    /\ substring_of (App.final_answer st1) query
    /\ substring_of (App.final_answer st2) query
    /\ (forall result w5,
          App.llm_invoke E (msgs ++ [HumanMessage query]) w4 = (Returns result, w5) ->
          App.chat_with_llm E request w = (Returns (strip result), w5)
          /\ trimmed (strip result) = true)
    /\ (forall e w5,
          App.llm_invoke E (msgs ++ [HumanMessage query]) w4 = (Raises e, w5) ->
          App.chat_with_llm E request w
          = (Returns ("Error occurred: " +:+ exn_str e), w5)).
Proof.
  intros Hh H1 Hp1 H2 H3 Hp2 H4.
  exists (App.reconcile_query (App.new_message request)
            (App.final_answer st1) (App.final_answer st2)).
  assert (Hrun : App.pipeline E (App.new_message request) msgs w
                 = (result <- App.llm_invoke E
                                (msgs ++ [HumanMessage
                                            (App.reconcile_query
                                               (App.new_message request)
                                               (App.final_answer st1)
                                               (App.final_answer st2))]) ;;
                    ret (strip result)) w4).
  { unfold App.pipeline.
    rewrite (bind_step _ _ _ _ _ H1),
      (bind_step _ _ _ _ _ (print_events_return ev1 w1 Hp1)),
      (bind_step _ _ _ _ _ H2), (bind_step _ _ _ _ _ H3),
      (bind_step _ _ _ _ _ (print_events_return ev2 w3 Hp2)),
      (bind_step _ _ _ _ _ H4).
    reflexivity. }
  rewrite (chat_after_history E request msgs w Hh).
  unfold try_except. rewrite Hrun. unfold App.reconcile_query.
  split; [exists "Answer "; eexists; reflexivity|].
  split.
  { apply contains_substring. do 3 apply contains_append_l.
    apply contains_append_r, contains_prefix, prefix_refl. }
  split.
  { apply contains_substring. do 5 apply contains_append_l.
    apply contains_append_r, contains_prefix, prefix_refl. }
  split.
  - intros result w5 Hl. rewrite (bind_step _ _ _ _ _ Hl).
    split; [reflexivity | apply strip_trimmed].
  - intros e w5 Hl. rewrite (bind_raises_first _ _ _ _ _ Hl). reflexivity.
Qed.

Lemma chat_success_reconciles_witness :
  App.chat_with_llm (mock_app true) request_ok []
  = (Returns "There are two listings.",
     ["llm.invoke"; "sqlite.invoke"; "sqlite.stream"; "kuzu.invoke"; "kuzu.stream"]).
Proof.
  destruct (chat_success_reconciles (mock_app true) request_ok
              [HumanMessage "How many listings are there?";
               AIMessage "Let me check." []]
              [] ["kuzu.stream"] ["kuzu.invoke"; "kuzu.stream"]
              ["sqlite.stream"; "kuzu.invoke"; "kuzu.stream"]
              ["sqlite.invoke"; "sqlite.stream"; "kuzu.invoke"; "kuzu.stream"]
              [{[ "agent" := [AIMessage "Two listings." []] ]}]
              [{[ "agent" := [AIMessage "2" []] ]}]
              ([HumanMessage "How many listings are there?";
                AIMessage "Let me check." []] ++ [AIMessage "Two listings." []])
              ([HumanMessage "How many listings are there?";
                AIMessage "Let me check." []] ++ [AIMessage "2" []])
              ltac:(vm_compute; reflexivity) eq_refl
              ltac:(vm_compute; reflexivity) eq_refl eq_refl
              ltac:(vm_compute; reflexivity) eq_refl)
    as (query & _ & _ & _ & Hok & _).
  destruct (Hok (" There are two listings." +:+ nl)
              ["llm.invoke"; "sqlite.invoke"; "sqlite.stream"; "kuzu.invoke";
               "kuzu.stream"] eq_refl) as [Hrun _].
  rewrite Hrun. vm_compute. reflexivity.
Defined.

(** ** The column labels of the loaders *)

Section Labels.

Lemma occurs_replace_char (c old new : Ascii.ascii) (s : string) :
  occurs c (Etl.replace_char old new s) = true ->
  c = new \/ (c <> old /\ occurs c s = true).
Proof.
  induction s as [|d s IH]; simpl; [discriminate|].
  intros H. apply orb_true_iff in H as [H|H].
  - apply Ascii.eqb_eq in H. destruct (Ascii.eqb d old) eqn:Hd.
    + left. congruence.
    + right. split.
      * intros ->. subst d. rewrite Ascii.eqb_refl in Hd. discriminate.
      * subst d. rewrite Ascii.eqb_refl. reflexivity.
  - destruct (IH H) as [-> | [Hne Hc]]; [left; reflexivity|].
    right. split; [exact Hne|]. rewrite Hc. apply orb_true_r.
Qed.

Lemma occurs_replace_special (c : Ascii.ascii) (s : string) :
  occurs c (Etl.replace_special s) = true ->
  c = Etl.underscore \/ (Etl.is_special c = false /\ occurs c s = true).
Proof.
  induction s as [|d s IH]; simpl; [discriminate|].
  intros H. apply orb_true_iff in H as [H|H].
  - apply Ascii.eqb_eq in H. destruct (Etl.is_special d) eqn:Hd.
    + left. congruence.
    + right. subst d. split; [exact Hd|]. rewrite Ascii.eqb_refl. reflexivity.
  - destruct (IH H) as [-> | [Hne Hc]]; [left; reflexivity|].
    right. split; [exact Hne|]. rewrite Hc. apply orb_true_r.
Qed.

(** The induction that follows [replace_pairs]: one or two characters
    at a time. *)
Lemma pairs_ind (P : string -> Prop) :
  P EmptyString ->
  (forall a, P (String a EmptyString)) ->
  (forall a b rest, P rest -> P (String b rest) -> P (String a (String b rest))) ->
  forall s, P s.
Proof.
  intros H0 H1 H2 s.
  assert (H : P s /\ forall a, P (String a s)).
  { induction s as [|b rest [IHr IHb]]; [split; auto|].
    split; [apply IHb|]. intros a. apply H2; [exact IHr | apply IHb]. }
  apply H.
Qed.

Lemma replace_pairs_cons (a b : Ascii.ascii) (rest : string) :
  Etl.replace_pairs (String a (String b rest))
  = if Ascii.eqb a Etl.underscore && Ascii.eqb b Etl.underscore
    then String Etl.underscore (Etl.replace_pairs rest)
    else String a (Etl.replace_pairs (String b rest)).
Proof. reflexivity. Qed.

Lemma occurs_replace_pairs (c : Ascii.ascii) (s : string) :
  occurs c (Etl.replace_pairs s) = true -> occurs c s = true.
Proof.
  induction s as [| a | a b rest IHr IHb] using pairs_ind; [auto | auto |].
  rewrite replace_pairs_cons.
  destruct (Ascii.eqb a Etl.underscore && Ascii.eqb b Etl.underscore) eqn:Hab.
  - apply andb_true_iff in Hab as [Ha Hb]. apply Ascii.eqb_eq in Ha, Hb. subst a b.
    intros H. cbn [occurs] in *. apply orb_true_iff in H as [H|H].
    + rewrite H. reflexivity.
    + rewrite (IHr H). rewrite !orb_true_r. reflexivity.
  - intros H. cbn [occurs] in H. apply orb_true_iff in H as [H|H].
    + cbn [occurs]. rewrite H. reflexivity.
    + change (occurs c (String a (String b rest)))
        with (Ascii.eqb a c || occurs c (String b rest)).
      rewrite (IHb H). apply orb_true_r.
Qed.

Lemma length_replace_char (old new : Ascii.ascii) (s : string) :
  String.length (Etl.replace_char old new s) = String.length s.
Proof. induction s as [|c s IH]; simpl; congruence. Qed.

Lemma length_replace_special (s : string) :
  String.length (Etl.replace_special s) = String.length s.
Proof. induction s as [|c s IH]; simpl; congruence. Qed.

Lemma length_replace_pairs (s : string) :
  String.length (Etl.replace_pairs s) <= String.length s.
Proof.
  induction s as [| a | a b rest IHr IHb] using pairs_ind; [simpl; lia | simpl; lia |].
  rewrite replace_pairs_cons.
  destruct (Ascii.eqb a Etl.underscore && Ascii.eqb b Etl.underscore).
  - cbn [String.length]. lia.
  - cbn [String.length] in *. lia.
Qed.

Lemma payload_cons (c : Ascii.ascii) (s : string) :
  payload (String c s) = if is_filler c then payload s else c :: payload s.
Proof. unfold payload. simpl. destruct (is_filler c); reflexivity. Qed.

Lemma is_filler_underscore : is_filler Etl.underscore = true.
Proof. reflexivity. Qed.

Lemma payload_replace_char (s : string) :
  payload (Etl.replace_char Etl.space Etl.underscore s) = payload s.
Proof.
  induction s as [|c s IH]; [reflexivity|]. cbn [Etl.replace_char].
  rewrite !payload_cons, IH.
  destruct (Ascii.eqb c Etl.space) eqn:Hc; [|reflexivity].
  rewrite is_filler_underscore. unfold is_filler. rewrite Hc. reflexivity.
Qed.

Lemma payload_replace_special (s : string) :
  payload (Etl.replace_special s) = payload s.
Proof.
  induction s as [|c s IH]; [reflexivity|]. cbn [Etl.replace_special].
  rewrite !payload_cons, IH.
  destruct (Etl.is_special c) eqn:Hc; [|reflexivity].
  rewrite is_filler_underscore. unfold is_filler. rewrite Hc, orb_true_r.
  reflexivity.
Qed.

Lemma payload_replace_pairs (s : string) :
  payload (Etl.replace_pairs s) = payload s.
Proof.
  induction s as [| a | a b rest IHr IHb] using pairs_ind; [reflexivity..|].
  rewrite replace_pairs_cons.
  destruct (Ascii.eqb a Etl.underscore && Ascii.eqb b Etl.underscore) eqn:Hab.
  - apply andb_true_iff in Hab as [Ha Hb]. apply Ascii.eqb_eq in Ha, Hb. subst a b.
    rewrite !payload_cons, is_filler_underscore. exact IHr.
  - rewrite (payload_cons a (Etl.replace_pairs _)), IHb, <- payload_cons.
    reflexivity.
Qed.

Lemma replace_char_idempotent (s : string) :
  Etl.replace_char Etl.space Etl.underscore
    (Etl.replace_char Etl.space Etl.underscore s)
  = Etl.replace_char Etl.space Etl.underscore s.
Proof.
  induction s as [|c s IH]; [reflexivity|]. cbn [Etl.replace_char].
  rewrite IH. destruct (Ascii.eqb c Etl.space) eqn:Hc; [reflexivity|].
  rewrite Hc. reflexivity.
Qed.

Lemma replace_run_spaces (n : nat) :
  Etl.replace_special (Etl.replace_char Etl.space Etl.underscore (run Etl.space n))
  = run Etl.underscore n.
Proof. induction n as [|n IH]; [reflexivity|]. simpl. f_equal. exact IH. Qed.

Lemma replace_pairs_run (n : nat) :
  Etl.replace_pairs (run Etl.underscore (2 * n)) = run Etl.underscore n
  /\ Etl.replace_pairs (run Etl.underscore (S (2 * n))) = run Etl.underscore (S n).
Proof.
  induction n as [|n [IHe IHo]]; [split; reflexivity|].
  replace (2 * S n) with (S (S (2 * n))) by lia.
  split.
  - change (run Etl.underscore (S (S (2 * n))))
      with (String Etl.underscore (String Etl.underscore (run Etl.underscore (2 * n)))).
    rewrite replace_pairs_cons. cbn [run]. simpl andb. cbv iota. f_equal. exact IHe.
  - change (run Etl.underscore (S (S (S (2 * n)))))
      with (String Etl.underscore
              (String Etl.underscore (run Etl.underscore (S (2 * n))))).
    rewrite replace_pairs_cons. simpl andb. cbv iota.
    change (run Etl.underscore (S (S n)))
      with (String Etl.underscore (run Etl.underscore (S n))).
    f_equal. exact IHo.
Qed.

End Labels.

(** X19. The sanitation of the column labels, the same in both loaders.
    A sanitized label holds no space, parenthesis or slash; it is never
    longer than the label it comes from, and it keeps every other
    character, underscores apart, in its place among them. Two labels
    that differ only by spaces written as underscores get one sanitized
    label, and the list of the labels keeps its length. Runs of
    underscores are halved, not collapsed: the pairs are replaced from the
    left in one pass, so that a label of [n] spaces becomes [n/2] rounded
    up underscores, and three separators in a row leave a double
    underscore. *)
Theorem sanitized_labels (label : string) :
  occurs Etl.space (Etl.sanitize label) = false
  /\ occurs Etl.lparen (Etl.sanitize label) = false
  /\ occurs Etl.rparen (Etl.sanitize label) = false
  /\ occurs Etl.slash (Etl.sanitize label) = false
  /\ String.length (Etl.sanitize label) <= String.length label
  /\ payload (Etl.sanitize label) = payload label
  /\ Etl.sanitize (Etl.replace_char Etl.space Etl.underscore label)
     = Etl.sanitize label
  /\ (forall n, Etl.sanitize (run Etl.space n) = run Etl.underscore (Nat.div2 (S n)))
  /\ (forall columns, length (Etl.sanitize_columns columns) = length columns).
Proof.
  assert (Hnone : forall c,
             c <> Etl.underscore ->
             Ascii.eqb c Etl.space || Etl.is_special c = true ->
             occurs c (Etl.sanitize label) = false).
  { intros c Hu Hc. destruct (occurs c (Etl.sanitize label)) eqn:H; [|reflexivity].
    exfalso. unfold Etl.sanitize in H.
    apply occurs_replace_pairs in H.
    apply occurs_replace_special in H as [->|[Hs H]]; [congruence|].
    apply occurs_replace_char in H as [->|[Hsp _]]; [congruence|].
    rewrite Hs, orb_false_r in Hc. apply Ascii.eqb_eq in Hc. congruence. }
  repeat split.
  - apply Hnone; [discriminate | reflexivity].
  - apply Hnone; [discriminate | reflexivity].
  - apply Hnone; [discriminate | reflexivity].
  - apply Hnone; [discriminate | reflexivity].
  - unfold Etl.sanitize.
    pose proof (length_replace_pairs
                  (Etl.replace_special
                     (Etl.replace_char Etl.space Etl.underscore label))) as H.
    rewrite length_replace_special, length_replace_char in H. exact H.
  - unfold Etl.sanitize.
    rewrite payload_replace_pairs, payload_replace_special, payload_replace_char.
    reflexivity.
  - unfold Etl.sanitize. rewrite replace_char_idempotent. reflexivity.
  - intros n. unfold Etl.sanitize. rewrite replace_run_spaces.
    destruct (Nat.Even_or_Odd n) as [[k ->]|[k ->]].
    + rewrite (proj1 (replace_pairs_run k)).
      rewrite Nat.div2_succ_double. reflexivity.
    + replace (2 * k + 1) with (S (2 * k)) by lia.
      rewrite (proj2 (replace_pairs_run k)).
      replace (S (S (2 * k))) with (2 * (S k)) by lia.
      rewrite Nat.div2_double. reflexivity.
  - intros columns. apply length_map.
Qed.

(** ** The loader of the row store *)

Section Loader.
Context {W frame connection cursor : Type}.
Variable E : @BuildDb.env W frame connection cursor.

Lemma io_bind_ext {A B} (c : M W A) (k : A -> M W B)
    (k' : A -> M (BuildDb.locals (W := W) (connection := connection)) B)
    (s : BuildDb.locals) :
  (forall a s', k' a s' = BuildDb.io (k a) s') ->
  bind (BuildDb.io c) k' s = BuildDb.io (bind c k) s.
Proof.
  intros Hk. unfold bind, BuildDb.io. simpl.
  destruct (c (fst s)) as [[a|e] w'] eqn:Hc; simpl; [|reflexivity].
  rewrite Hk. unfold BuildDb.io. reflexivity.
Qed.

(** The [try] block once the connection is bound. *)
Lemma try_block_after_connect (db_path : string) (b a l : frame)
    (w w1 : W) (conn : connection) (local : option connection) :
  BuildDb.sqlite3_connect E db_path w = (Returns conn, w1) ->
  (conn <- BuildDb.io (BuildDb.sqlite3_connect E db_path) ;;
   BuildDb.bind_conn conn ;;;
   BuildDb.io (BuildDb.to_sql E b "brokers" conn) ;;;
   BuildDb.io (BuildDb.to_sql E a "associates" conn) ;;;
   BuildDb.io (BuildDb.to_sql E l "listings" conn) ;;;
   cursor <- BuildDb.io (BuildDb.conn_cursor E conn) ;;
   BuildDb.io (BuildDb.cursor_execute E cursor
     "CREATE INDEX IF NOT EXISTS idx_listings_broker_email ON listings(broker_email);") ;;;
   BuildDb.io (BuildDb.cursor_execute E cursor
     "CREATE INDEX IF NOT EXISTS idx_associates_broker_email ON associates(broker_email);") ;;;
   BuildDb.io (BuildDb.conn_commit E conn)) (w, local)
  = BuildDb.io (load_tables E conn b a l) (w1, Some conn).
Proof.
  intros Hc. unfold bind at 1. unfold BuildDb.io at 1. simpl. rewrite Hc. simpl.
  unfold bind at 1. unfold BuildDb.bind_conn at 1. simpl.
  unfold load_tables.
  repeat (apply io_bind_ext; intros ? ?). reflexivity.
Qed.

Lemma write_tables_unbound (db_path : string) (b a l : frame) (w w1 : W) (e : exn) :
  BuildDb.sqlite3_connect E db_path w = (Raises e, w1) ->
  BuildDb.write_tables E db_path b a l (w, None)
  = (Raises BuildDb.unbound_conn, (w1, None)).
Proof.
  intros Hc. unfold BuildDb.write_tables, BuildDb.try_finally,
    BuildDb.try_except_class.
  rewrite (bind_raises_first (BuildDb.io (BuildDb.sqlite3_connect E db_path)) _
             (w, None) (w1, None) e)
    by (unfold BuildDb.io; simpl; rewrite Hc; reflexivity).
  destruct (BuildDb.is_sqlite3_error E e); reflexivity.
Qed.

Lemma write_tables_bound (db_path : string) (b a l : frame) (w w1 : W)
    (conn : connection) :
  BuildDb.sqlite3_connect E db_path w = (Returns conn, w1) ->
  BuildDb.write_tables E db_path b a l (w, None)
  = match load_tables E conn b a l w1 with
    | (Returns _, w2) =>
        (fst (BuildDb.conn_close E conn w2),
         (snd (BuildDb.conn_close E conn w2), Some conn))
    | (Raises e, w2) =>
        if BuildDb.is_sqlite3_error E e
        then (fst (BuildDb.conn_close E conn w2),
              (snd (BuildDb.conn_close E conn w2), Some conn))
        else match BuildDb.conn_close E conn w2 with
             | (Returns _, w3) => (Raises e, (w3, Some conn))
             | (Raises e', w3) => (Raises e', (w3, Some conn))
             end
    end.
Proof.
  intros Hc. unfold BuildDb.write_tables, BuildDb.try_finally,
    BuildDb.try_except_class.
  rewrite (try_block_after_connect db_path b a l w w1 conn None Hc).
  unfold BuildDb.io at 1 2. simpl.
  destruct (load_tables E conn b a l w1) as [[[]|e] w2]; simpl.
  - unfold bind, BuildDb.read_conn, BuildDb.io. simpl.
    destruct (BuildDb.conn_close E conn w2) as [[[]|e'] w3]; reflexivity.
  - destruct (BuildDb.is_sqlite3_error E e); simpl;
      unfold bind, BuildDb.read_conn, BuildDb.io, ret; simpl;
      destruct (BuildDb.conn_close E conn w2) as [[[]|e'] w3]; reflexivity.
Qed.

Lemma process_after_frames (csv_path db_path : string) (w w1 : W) (b a l : frame) :
  frames_built E csv_path w w1 b a l ->
  BuildDb.process_csv_to_normalized_db E csv_path db_path w
  = (fst (BuildDb.write_tables E db_path b a l (w1, None)),
     fst (snd (BuildDb.write_tables E db_path b a l (w1, None)))).
Proof.
  intros (Hex & df & df' & Hread & Hset & Hframes).
  unfold BuildDb.process_csv_to_normalized_db. rewrite Hex. simpl.
  rewrite (bind_step _ _ _ _ _ Hread).
  unfold lift at 1. unfold bind at 1. rewrite Hset.
  unfold lift at 1. unfold bind at 1. rewrite Hframes. reflexivity.
Qed.

End Loader.

(** X20. The loader of the row store. Without the file it returns at
    once and touches nothing. Once the three frames are built: when the
    store cannot be opened, whatever the exception, the loader raises
    [UnboundLocalError], because the [finally] clause reads [conn], which
    the failed assignment has not bound; when the store is open, the
    connection is closed in every case, after the commit on success and
    right after the failing statement otherwise; an [sqlite3.Error]
    raised while the tables are written is swallowed, the loader
    returning as on success, and any other exception leaves the loader
    after the connection is closed, unless the closing itself raises. *)
Theorem normalized_db_loader_outcomes {W frame connection cursor : Type}
    (E : @BuildDb.env W frame connection cursor) (csv_path db_path : string)
    (w : W) :
  (fst (BuildDb.os_path_exists E csv_path w) = false ->
   BuildDb.process_csv_to_normalized_db E csv_path db_path w
   = (Returns tt, snd (BuildDb.os_path_exists E csv_path w)))
  /\ (forall w1 b a l,
        frames_built E csv_path w w1 b a l ->
        (forall e w2,
            BuildDb.sqlite3_connect E db_path w1 = (Raises e, w2) ->
            BuildDb.process_csv_to_normalized_db E csv_path db_path w
            = (Raises BuildDb.unbound_conn, w2))
        /\ (forall conn w2,
              BuildDb.sqlite3_connect E db_path w1 = (Returns conn, w2) ->
              (forall w3,
                  load_tables E conn b a l w2 = (Returns tt, w3) ->
                  BuildDb.process_csv_to_normalized_db E csv_path db_path w
                  = BuildDb.conn_close E conn w3)
              /\ (forall e w3,
                    load_tables E conn b a l w2 = (Raises e, w3) ->
                    BuildDb.is_sqlite3_error E e = true ->
                    BuildDb.process_csv_to_normalized_db E csv_path db_path w
                    = BuildDb.conn_close E conn w3)
              /\ (forall e w3,
                    load_tables E conn b a l w2 = (Raises e, w3) ->
                    BuildDb.is_sqlite3_error E e = false ->
                    exists e',
                      BuildDb.process_csv_to_normalized_db E csv_path db_path w
                      = (Raises e', snd (BuildDb.conn_close E conn w3))
                      /\ (e' = e
                          \/ fst (BuildDb.conn_close E conn w3) = Raises e')))).
Proof.
  split.
  - intros Hex. unfold BuildDb.process_csv_to_normalized_db. rewrite Hex.
    reflexivity.
  - intros w1 b a l Hbuilt.
    rewrite (process_after_frames E csv_path db_path w w1 b a l Hbuilt).
    split.
    + intros e w2 Hc. rewrite (write_tables_unbound E db_path b a l w1 w2 e Hc).
      reflexivity.
    + intros conn w2 Hc.
      rewrite (write_tables_bound E db_path b a l w1 w2 conn Hc).
      split; [|split].
      * intros w3 Hl. rewrite Hl. simpl.
        destruct (BuildDb.conn_close E conn w3); reflexivity.
      * intros e w3 Hl He. rewrite Hl, He. simpl.
        destruct (BuildDb.conn_close E conn w3); reflexivity.
      * intros e w3 Hl He. rewrite Hl, He.
        destruct (BuildDb.conn_close E conn w3) as [[[]|e'] w4]; simpl.
        -- exists e. auto.
        -- exists e'. auto.
Qed.

Lemma normalized_db_loader_outcomes_witness :
  BuildDb.process_csv_to_normalized_db (mock_loader true false EmptyString)
    "listings.csv" "normalized_real_estate.db" []
  = (Raises BuildDb.unbound_conn, [])
  /\ BuildDb.process_csv_to_normalized_db (mock_loader true true "associates")
       "listings.csv" "normalized_real_estate.db" []
     = (Returns tt, ["close"; "to_sql brokers"; "connect"]).
Proof.
  assert (Hbuilt : forall opens refused,
             frames_built (mock_loader true opens refused) "listings.csv" [] []
               ["broker_email"; "GCI_On_3_Years"]
               ["broker_email"; "associate_name"]
               ["unique_id"; "Property_Address"; "Floor"; "Suite"; "Size_SF_";
                "Rent_SF_Year"; "Annual_Rent"; "Monthly_Rent"; "broker_email"]).
  { intros opens refused. split; [reflexivity|].
    exists csv_header, (Etl.sanitize_columns csv_header).
    split; [reflexivity|]. split; vm_compute; reflexivity. }
  split.
  - apply (proj1 (proj2 (normalized_db_loader_outcomes
                           (mock_loader true false EmptyString)
                           "listings.csv" "normalized_real_estate.db" [])
                    _ _ _ _ (Hbuilt false EmptyString))
             (Exn "OperationalError" "unable to open database file") []).
    reflexivity.
  - apply (proj1 (proj2 (proj2 (proj2 (normalized_db_loader_outcomes
                                         (mock_loader true true "associates")
                                         "listings.csv" "normalized_real_estate.db" [])
                                  _ _ _ _ (Hbuilt true "associates"))
                           tt ["connect"] eq_refl))
             (Exn "OperationalError" "database is locked")
             ["to_sql brokers"; "connect"]); reflexivity.
Defined.

(** ** The connections of the row store *)

Section Connections.
Context {W value connection cursor : Type}.
Variable E : @Sqlite.env W value connection cursor.
Variable close : connection -> M W unit.

Ltac same_step H :=
  unfold bind at 1 in H; unfold bind at 1;
  match type of H with
  | match ?c with _ => _ end = _ =>
      let e := fresh "e" in
      destruct c as [[?|e] ?] eqn:?; [|left; exact H]
  end.

Lemma get_db_schema_close_irrelevant (db_path : string) (w w' : W) (e : exn) :
  Sqlite.get_db_schema E db_path w = (Raises e, w') ->
  Sqlite.get_db_schema (with_close E close) db_path w = (Raises e, w')
  \/ exists conn w0, Sqlite.conn_close E conn w0 = (Raises e, w').
Proof.
  unfold Sqlite.get_db_schema, Sqlite.schema_columns.
  cbn [with_close Sqlite.sqlite3_connect Sqlite.conn_cursor Sqlite.cursor_execute
       Sqlite.cursor_fetchall Sqlite.py_str Sqlite.conn_close].
  intros H.
  do 5 same_step H.
  right. unfold bind at 1 in H.
  destruct (Sqlite.conn_close E _ _) as [[[]|e'] w6] eqn:Hclose.
  - unfold ret in H. discriminate H.
  - injection H as -> ->. eauto.
Qed.

Lemma run_sql_try_close_irrelevant (query : string) (w w' : W) (e : exn) :
  Sqlite.run_sql_try E query w = (Raises e, w') ->
  Sqlite.run_sql_try (with_close E close) query w = (Raises e, w')
  \/ exists conn w0, Sqlite.conn_close E conn w0 = (Raises e, w').
Proof.
  unfold Sqlite.run_sql_try.
  cbn [with_close Sqlite.sqlite3_connect Sqlite.conn_cursor Sqlite.cursor_execute
       Sqlite.cursor_fetchall Sqlite.cursor_description Sqlite.conn_commit
       Sqlite.conn_close].
  intros H.
  do 5 same_step H.
  right. unfold bind at 1 in H.
  destruct (Sqlite.conn_close E _ _) as [[[]|e'] w6] eqn:Hclose.
  - unfold ret in H. discriminate H.
  - injection H as -> ->. eauto.
Qed.

End Connections.

(** X21. In the row-store agent a connection is closed on the success
    path only. When [get_db_schema] raises, or the [try] block of
    [run_sql] fails, for another reason than the closing itself, the
    statement [conn.close()] has no part in the outcome, which is the same
    whatever the closing would do: the connection opened by the call is
    left open. For [run_sql] the outcome is then the error text. *)
Theorem sqlite_connection_closed_on_success_only
    {W value connection cursor : Type}
    (E : @Sqlite.env W value connection cursor)
    (close : connection -> M W unit) (w w' : W) (e : exn) :
  (forall db_path,
      Sqlite.get_db_schema E db_path w = (Raises e, w') ->
      Sqlite.get_db_schema (with_close E close) db_path w = (Raises e, w')
      \/ exists conn w0, Sqlite.conn_close E conn w0 = (Raises e, w'))
  /\ (forall query,
        Sqlite.run_sql_try E query w = (Raises e, w') ->
        Sqlite.run_sql (with_close E close) query w
        = (Returns (Sqlite.Text ("Error executing query: " +:+ exn_str e)), w')
        \/ exists conn w0, Sqlite.conn_close E conn w0 = (Raises e, w')).
Proof.
  split.
  - intros db_path. apply get_db_schema_close_irrelevant.
  - intros query H.
    destruct (run_sql_try_close_irrelevant E close query w w' e H) as [H'|H'];
      [left | right; exact H'].
    apply run_sql_error_text. exact H'.
Qed.

Lemma sqlite_connection_closed_on_success_only_witness :
  Sqlite.run_sql
    (with_close (mock_sqlite model_answers)
       (fun _ => raise (Exn "ProgrammingError" "Cannot operate on a closed database.")))
    "DROP TABLE listings" []
  = (Returns (Sqlite.Text "Error executing query: syntax error"), []).
Proof.
  destruct (proj2 (sqlite_connection_closed_on_success_only
                     (mock_sqlite model_answers)
                     (fun _ => raise (Exn "ProgrammingError"
                                        "Cannot operate on a closed database."))
                     [] [] (Exn "OperationalError" "syntax error"))
              "DROP TABLE listings" eq_refl) as [H|(conn & w0 & H)].
  - exact H.
  - discriminate H.
Defined.

(** ** The similarity search on a zero embedding *)

Section ZeroQuestion.
Import Numpy.

Lemma fmul_zero_r (x z : float) : zero_or_nan z -> zero_or_nan (fmul x z).
Proof.
  unfold zero_or_nan, fmul.
  intros [Hz|Hz]; destruct z; try discriminate; destruct x; simpl; auto.
Qed.

Lemma fadd_zero_or_nan (x y : float) :
  zero_or_nan x -> zero_or_nan y -> zero_or_nan (fadd x y).
Proof.
  unfold zero_or_nan, fadd.
  intros [Hx|Hx] [Hy|Hy]; destruct x; try discriminate; destruct y;
    try discriminate; simpl; auto.
  all: repeat match goal with s : bool |- _ => destruct s end; simpl; auto.
Qed.

Lemma fsqrt_zero_or_nan (x : float) : zero_or_nan x -> zero_or_nan (fsqrt x).
Proof.
  unfold zero_or_nan, fsqrt.
  intros [Hx|Hx]; destruct x; try discriminate; simpl; auto.
Qed.

Lemma fdiv_zero_or_nan (x y : float) :
  zero_or_nan x -> zero_or_nan y -> isnan (fdiv x y) = true.
Proof.
  unfold zero_or_nan, fdiv.
  intros [Hx|Hx] [Hy|Hy]; destruct x; try discriminate; destruct y;
    try discriminate; reflexivity.
Qed.

Lemma dot_zero_r (u q : list float) :
  Forall (fun x => is_zero x = true) q -> zero_or_nan (dot_in_order u q).
Proof.
  intros Hq. unfold dot_in_order.
  assert (H : forall acc, zero_or_nan acc ->
              zero_or_nan
                (fold_left (fun acc p => fadd acc (fmul (fst p) (snd p)))
                   (combine u q) acc)).
  { revert u. induction Hq as [|z q Hz Hq IH]; intros u acc Hacc.
    - destruct u; exact Hacc.
    - destruct u as [|x u]; [exact Hacc|]. simpl. apply IH.
      apply fadd_zero_or_nan; [exact Hacc|]. apply fmul_zero_r. left. exact Hz. }
  apply H. left. reflexivity.
Qed.

Lemma in_order_zero_preserving : zero_preserving in_order.
Proof.
  split.
  - intros db q i Hq. apply dot_zero_r. exact Hq.
  - intros q Hq. apply fsqrt_zero_or_nan. apply dot_zero_r. exact Hq.
Qed.

Lemma similarity_zero_question (L : linalg) (db : list (list float))
    (q : list float) (i : nat) :
  zero_preserving L ->
  Forall (fun x => is_zero x = true) q ->
  isnan (fdiv (np_dot L db q i) (fmul (norm_rows L db i) (norm L q))) = true.
Proof.
  intros [Hdot Hnorm] Hq. apply fdiv_zero_or_nan.
  - apply Hdot. exact Hq.
  - apply fmul_zero_r. apply Hnorm. exact Hq.
Qed.

End ZeroQuestion.

(** X22. When the embedding of the question is a zero vector, every
    cosine similarity is a NaN (0/0), and [np.argmax] selects the first
    row: the address branch resolves every such question to the first
    listing of the table, whatever the stored embeddings are. This holds
    on every BLAS for which a dot product with a vector of zeros and the
    norm of a vector of zeros are a zero or a NaN, and the BLAS that adds
    the products from the left is one. *)
Theorem zero_question_selects_first_listing :
  (forall (L : Numpy.linalg) (db : list (list Numpy.float))
          (q : list Numpy.float),
      zero_preserving L ->
      db <> [] ->
      Forall (fun row => length row = length q) db ->
      Forall (fun x => is_zero x = true) q ->
      Numpy.cosine_similarities L db q = Returns (Numpy.similarities L db q)
      /\ Forall (fun s => Numpy.isnan s = true) (Numpy.similarities L db q)
      /\ Numpy.argmax (Numpy.similarities L db q) = Returns 0)
  /\ zero_preserving in_order.
Proof.
  split; [|exact in_order_zero_preserving].
  intros L db q HL Hne Hshape Hq.
  assert (Hall : Forall (fun s => Numpy.isnan s = true) (Numpy.similarities L db q)).
  { unfold Numpy.similarities. apply Forall_map. apply Forall_forall.
    intros i _. apply similarity_zero_question; assumption. }
  split; [|split; [exact Hall|]].
  - unfold Numpy.cosine_similarities.
    rewrite (row_length_uniform db (length q) Hne Hshape), Nat.eqb_refl.
    reflexivity.
  - destruct (Numpy.similarities L db q) as [|s rest] eqn:Hs.
    { apply (f_equal (@length _)) in Hs. rewrite similarities_length in Hs.
      destruct db; [congruence | discriminate Hs]. }
    inversion Hall as [|? ? Hnan _]; subst. unfold Numpy.argmax. rewrite Hnan.
    reflexivity.
Qed.

Lemma zero_question_selects_first_listing_witness :
  Numpy.argmax
    (Numpy.similarities in_order two_candidates [Numpy.of_Z 0; Numpy.of_Z 0])
  = Returns 0.
Proof.
  apply (proj1 zero_question_selects_first_listing in_order two_candidates
           [Numpy.of_Z 0; Numpy.of_Z 0]).
  - exact (proj2 zero_question_selects_first_listing).
  - discriminate.
  - repeat constructor.
  - repeat constructor.
Defined.

(** ** The conversational branch *)

(** X23. The conversational branch of the tool. For an answer of the
    router that holds NORMAL_QUERY and neither of the two other names,
    the model is asked once more with the question alone as its prompt,
    and the tool returns its answer stripped, a text that neither starts
    nor ends with whitespace; the store, although it has been opened, is
    not queried. When that second call fails, the tool returns the text
    of the handler. *)
Theorem normal_branch_answers_bare_question
    {W cell database connection query_result : Type}
    (E : @Kuzu.env W cell database connection query_result)
    (question r : string) (w w1 w2 w3 : W) (db : database) (conn : connection) :
  Kuzu.logic_llm_invoke E (Kuzu.router_prompt question) w = (Returns r, w1) ->
  ~ substring_of "ADDRESS_SEARCH" r ->
  ~ substring_of "GENERAL_QUERY" r ->
  substring_of "NORMAL_QUERY" r ->
  Kuzu.kuzu_Database E Kuzu.DB_PATH true w1 = (Returns db, w2) ->
  Kuzu.kuzu_Connection E db w2 = (Returns conn, w3) ->
  (forall answer w4,
      Kuzu.logic_llm_invoke E question w3 = (Returns answer, w4) ->
      Kuzu.query_real_estate_database E question w
      = (Returns (Some (strip answer)), w4)
      /\ trimmed (strip answer) = true)
  /\ (forall e w4,
        Kuzu.logic_llm_invoke E question w3 = (Raises e, w4) ->
        Kuzu.query_real_estate_database E question w
        = (Returns (tool_error e), w4)).
Proof.
  intros H1 Ha Hg Hn H2 H3.
  apply not_contains_substring in Ha, Hg. apply contains_substring in Hn.
  rewrite (tool_after_open E question r w w1 w2 w3 db conn H1 H2 H3), Ha, Hg, Hn.
  split.
  - intros answer w4 Hm. split; [|apply strip_trimmed].
    apply try_tool_returns. unfold Kuzu.normal_query.
    rewrite (bind_step _ _ _ _ _ Hm). reflexivity.
  - intros e w4 Hm. apply try_tool_raises. unfold Kuzu.normal_query.
    apply bind_raises_first. exact Hm.
Qed.

Lemma normal_branch_answers_bare_question_witness :
  Kuzu.query_real_estate_database
    (mock_kuzu (llm_says (" NORMAL_QUERY" +:+ nl)) true (Returns near_first)
       model_answers)
    "Hello" []
  = (Returns (Some "NORMAL_QUERY"), []).
Proof.
  assert (Ha : ~ substring_of "ADDRESS_SEARCH" (" NORMAL_QUERY" +:+ nl))
    by (apply not_contains_substring; reflexivity).
  assert (Hg : ~ substring_of "GENERAL_QUERY" (" NORMAL_QUERY" +:+ nl))
    by (apply not_contains_substring; reflexivity).
  assert (Hn : substring_of "NORMAL_QUERY" (" NORMAL_QUERY" +:+ nl))
    by (exists " ", nl; reflexivity).
  apply (proj1 (normal_branch_answers_bare_question
                  (mock_kuzu (llm_says (" NORMAL_QUERY" +:+ nl)) true
                     (Returns near_first) model_answers)
                  "Hello" (" NORMAL_QUERY" +:+ nl) [] [] [] [] tt tt
                  eq_refl Ha Hg Hn eq_refl eq_refl)
           (" NORMAL_QUERY" +:+ nl) [] eq_refl).
Defined.

(** ** The loader of the graph store *)

Section GraphLoader.
Context {W cell frame series database connection : Type}.
Variable E : @BuildKuzu.env W cell frame series database connection.

Lemma process_after_numeric (csv_path db_path : string) (w w1 : W) (df : frame) :
  frame_read E csv_path w w1 df ->
  BuildKuzu.process_csv_to_kuzu_db E csv_path db_path w
  = match BuildKuzu.embed_addresses E df w1 with
    | (Raises e, w2) => (Returns tt, w2)
    | (Returns df', w2) => BuildKuzu.build_graph E db_path df' w2
    end.
Proof.
  intros (Hex & df0 & df1 & Hread & Hset & Hnum).
  unfold BuildKuzu.process_csv_to_kuzu_db. rewrite Hex. simpl.
  rewrite (bind_step _ _ _ _ _ Hread).
  unfold lift at 1. unfold bind at 1. rewrite Hset.
  unfold lift at 1. unfold bind at 1. rewrite Hnum. reflexivity.
Qed.

End GraphLoader.

(** X24. The loader of the graph store. Without the file it returns at
    once. The numeric columns are computed before the [try] statement: a
    frame without one of their source columns makes the loader raise
    before any embedding is asked for. Every exception of the [try]
    block, be it a frame without [Property_Address], a failure of the
    embedding provider, or an answer that does not fit the frame, makes
    the loader return as if it had succeeded, and the store is not
    opened. After the block nothing is handled: the schema is created
    before the frames are prepared, so that a missing column raises when
    the five tables exist and hold nothing. *)
Theorem graph_loader_outcomes {W cell frame series database connection : Type}
    (E : @BuildKuzu.env W cell frame series database connection)
    (csv_path db_path : string) (w : W) :
  (fst (BuildKuzu.os_path_exists E csv_path w) = false ->
   BuildKuzu.process_csv_to_kuzu_db E csv_path db_path w
   = (Returns tt, snd (BuildKuzu.os_path_exists E csv_path w)))
  /\ (forall df0 w1 df1 e,
        fst (BuildKuzu.os_path_exists E csv_path w) = true ->
        BuildKuzu.pd_read_csv E csv_path (snd (BuildKuzu.os_path_exists E csv_path w))
        = (Returns df0, w1) ->
        BuildKuzu.set_columns E df0 (Etl.sanitize_columns (BuildKuzu.columns E df0))
        = Returns df1 ->
        BuildKuzu.add_numeric_columns E df1 = Raises e ->
        BuildKuzu.process_csv_to_kuzu_db E csv_path db_path w = (Raises e, w1))
  /\ (forall w1 df,
        frame_read E csv_path w w1 df ->
        (forall e,
            BuildKuzu.getitem E df "Property_Address" = Raises e ->
            BuildKuzu.process_csv_to_kuzu_db E csv_path db_path w = (Returns tt, w1))
        /\ (forall e w2,
              BuildKuzu.embed_addresses E df w1 = (Raises e, w2) ->
              BuildKuzu.process_csv_to_kuzu_db E csv_path db_path w
              = (Returns tt, w2))
        /\ (forall df' w2 db w3 conn w4 w5 e,
              BuildKuzu.embed_addresses E df w1 = (Returns df', w2) ->
              BuildKuzu.kuzu_Database E db_path w2 = (Returns db, w3) ->
              BuildKuzu.kuzu_Connection E db w3 = (Returns conn, w4) ->
              BuildKuzu.define_schema E conn w4 = (Returns tt, w5) ->
              BuildKuzu.prepare_frames E df' = Raises e ->
              BuildKuzu.process_csv_to_kuzu_db E csv_path db_path w
              = (Raises e, w5))
        /\ (forall df' w2 db w3 conn w4 w5 fs,
              BuildKuzu.embed_addresses E df w1 = (Returns df', w2) ->
              BuildKuzu.kuzu_Database E db_path w2 = (Returns db, w3) ->
              BuildKuzu.kuzu_Connection E db w3 = (Returns conn, w4) ->
              BuildKuzu.define_schema E conn w4 = (Returns tt, w5) ->
              BuildKuzu.prepare_frames E df' = Returns fs ->
              BuildKuzu.process_csv_to_kuzu_db E csv_path db_path w
              = BuildKuzu.load_frames E conn fs w5)).
Proof.
  split; [|split].
  - intros Hex. unfold BuildKuzu.process_csv_to_kuzu_db. rewrite Hex. reflexivity.
  - intros df0 w1 df1 e Hex Hread Hset Hnum.
    unfold BuildKuzu.process_csv_to_kuzu_db. rewrite Hex. simpl.
    rewrite (bind_step _ _ _ _ _ Hread).
    unfold lift at 1. unfold bind at 1. rewrite Hset.
    unfold lift at 1. unfold bind at 1. rewrite Hnum. reflexivity.
  - intros w1 df Hread.
    rewrite (process_after_numeric E csv_path db_path w w1 df Hread).
    split; [|split; [|split]].
    + intros e He. unfold BuildKuzu.embed_addresses, bind, lift. rewrite He.
      reflexivity.
    + intros e w2 He. rewrite He. reflexivity.
    + intros df' w2 db w3 conn w4 w5 e He Hdb Hconn Hschema Hprep.
      rewrite He. unfold BuildKuzu.build_graph.
      rewrite (bind_step _ _ _ _ _ Hdb), (bind_step _ _ _ _ _ Hconn),
        (bind_step _ _ _ _ _ Hschema).
      unfold lift, bind. rewrite Hprep. reflexivity.
    + intros df' w2 db w3 conn w4 w5 fs He Hdb Hconn Hschema Hprep.
      rewrite He. unfold BuildKuzu.build_graph.
      rewrite (bind_step _ _ _ _ _ Hdb), (bind_step _ _ _ _ _ Hconn),
        (bind_step _ _ _ _ _ Hschema).
      unfold lift at 1. unfold bind at 1. rewrite Hprep. reflexivity.
Qed.

Lemma graph_loader_outcomes_witness :
  BuildKuzu.process_csv_to_kuzu_db
    (mock_graph_loader (Raises (Exn "APIConnectionError" "Connection error.")))
    "listings.csv" "kuzu_real_estate_db" []
  = (Returns tt, []).
Proof.
  assert (Hread : frame_read
                    (mock_graph_loader
                       (Raises (Exn "APIConnectionError" "Connection error.")))
                    "listings.csv" [] []
                    (Etl.sanitize_columns csv_header
                     ++ ["rent_sf_year_numeric"; "annual_rent_numeric";
                         "monthly_rent_numeric"; "gci_3_years_numeric"])).
  { split; [reflexivity|].
    exists csv_header, (Etl.sanitize_columns csv_header).
    split; [reflexivity|]. split; vm_compute; reflexivity. }
  apply (proj1 (proj2 (proj2 (proj2 (graph_loader_outcomes
                                       (mock_graph_loader
                                          (Raises (Exn "APIConnectionError"
                                                     "Connection error.")))
                                       "listings.csv" "kuzu_real_estate_db" []))
                         [] _ Hread))
           (Exn "APIConnectionError" "Connection error.") []).
  vm_compute. reflexivity.
Defined.
